(** * IPTV stream management: a shallow embedding of [lib/data.ts]

    The embedded program is a dashboard back end which keeps a list of
    stream definitions in [data/streams.json], launches one detached
    transcoder per stream, stops it with a pattern kill, and scrapes the
    output of operating-system utilities for statistics.

    Modelling choices.
    - Stateful code is written in a state-and-exception monad over a
      [World]: the stream file, the text files (logs and scripts), the
      operating-system process table, the clock, and a [trace] of every
      effect the code issued, in the order it issued them.
    - The JavaScript runtime and the operating system are an interface
      ([Runtime]): JSON, regular expressions, path joining, floating-point
      numbers and the outcome of every shell command are parameters.
      Theorems quantify over every runtime; concrete runtimes are used only
      to evaluate the code on explicit inputs.
    - The data directory is writable: [fs.writeFileSync],
      [fs.appendFileSync], [fs.unlinkSync] and [fs.chmodSync] succeed.
      Reading can fail (a file may be missing or unreadable).
    - [streams.json] holds the stream list itself: [JSON.parse] after
      [JSON.stringify] is the identity on stream records.
    - [async] functions run to completion one after the other; the clock
      advances only while the code sleeps. *)

From Stdlib Require Import ZArith String Ascii List Lia Sorted Permutation.
From stdpp Require Import base option list strings pretty gmap.

Open Scope Z_scope.

(** ** Strings *)

Definition LF : ascii := "010"%char.
Definition dq : string := String "034"%char "".

(** [s.split('\n')] *)
Fixpoint split_lines (s : string) : list string :=
  match s with
  | EmptyString => [EmptyString]
  | String c r =>
      if Ascii.eqb c LF then EmptyString :: split_lines r
      else match split_lines r with
           | h :: t => String c h :: t
           | [] => [String c EmptyString]
           end
  end.

(** [lines.join('\n')] *)
Fixpoint join_lines (l : list string) : string :=
  match l with
  | [] => ""
  | [x] => x
  | x :: r => x +:+ String LF (join_lines r)
  end.

(** [parts.join(', ')] *)
Fixpoint join_comma (l : list string) : string :=
  match l with
  | [] => ""
  | [x] => x
  | x :: r => x +:+ ", " +:+ join_comma r
  end.

(** [arr.slice(-n)] *)
Definition slice_last {A} (n : nat) (l : list A) : list A :=
  drop (length l - n)%nat l.

(** a string is truthy when it is not empty *)
Definition truthy (s : string) : bool :=
  match s with EmptyString => false | _ => true end.

(** a template literal prints a missing array element as [undefined] *)
Definition tpl (o : option string) : string := default "undefined" o.

(** ** Data model ([lib/types.ts]) *)

Record IPTVStream := mkStream {
  s_id : string;
  s_name : string;
  s_key : string;
  s_link1 : string;
  s_rtmp : string;
  s_category1 : string;
  s_bitrate : string;
  s_resolution : string;
  s_active : bool;
  s_pid : option string;
  s_createdAt : Z;
  s_updatedAt : Z
}.

(** [Partial<IPTVStream>]: every field may be absent. *)
Record PartialStream := mkPartial {
  p_id : option string;
  p_name : option string;
  p_key : option string;
  p_link1 : option string;
  p_rtmp : option string;
  p_category1 : option string;
  p_bitrate : option string;
  p_resolution : option string;
  p_active : option bool;
  p_pid : option string;
  p_createdAt : option Z;
  p_updatedAt : option Z
}.

Definition no_fields : PartialStream :=
  mkPartial None None None None None None None None None None None None.

Inductive LogType := info | warning | error | success.

Record LogEntry := mkLog {
  timestamp : Z;
  message : string;
  type : LogType
}.

(** A number that is an integer or [NaN], as [parseInt] returns. *)
Inductive JSInt := NaN | Int (z : Z).

(** [n < limit] for an array length [n]; a comparison with [NaN] is false *)
Definition length_lt (n : nat) (limit : JSInt) : bool :=
  match limit with
  | NaN => false
  | Int z => Z.of_nat n <? z
  end.

Inductive Platform := Win32 | Darwin | Linux | OtherOS.

(** ** Results, files, processes, effects *)

Inductive Result (A : Type) :=
| Ok (a : A)
| Throw (e : string).
Arguments Ok {A} a.
Arguments Throw {A} e.

Record File := mkFile {
  content : string;
  readable : bool
}.

(** A row of the process table. [owner] is ghost state: the stream on
    whose behalf [startStream] spawned the process. *)
Record Proc := mkProc {
  pid : Z;
  owner : string;
  command : string;
  args : list string;
  alive : bool
}.

Inductive Event :=
| EvExec (cmd : string) (ok : bool)
| EvSpawn (cmd : string) (argv : list string) (ok : bool)
| EvSleep (ms : Z)
| EvWriteStreams (l : list IPTVStream)
| EvWriteFile (path : string)
| EvAppendFile (path : string) (line : string)
| EvChmod (path : string)
| EvUnlink (path : string)
| EvConsoleError (msg : string).

Record World := mkWorld {
  streams_file : option (list IPTVStream);
  files : gmap string File;
  procs : list Proc;
  clock : Z;
  trace : list Event
}.

(** ** The runtime interface *)

Class Runtime := {
  platform : Platform;
  cwd : string;
  path_join : string -> string -> string;
  (* JSON *)
  JSValue : Type;
  JSON_parse : string -> option JSValue;
  JSON_stringify : LogEntry -> string;
  (* strings and regular expressions; a regular expression is named by its
     source text and flags *)
  String_trim : string -> string;
  String_replace : string -> string -> string -> string;
  re_match : string -> string -> string -> option (list string);
  re_split : string -> string -> list string;
  parseInt : string -> JSInt;
  (* floating-point numbers *)
  num : Type;
  num_of_int : JSInt -> num;
  num_add : num -> num -> num;
  num_sub : num -> num -> num;
  num_mul : num -> num -> num;
  num_div : num -> num -> num;
  num_mod : num -> num -> num;
  num_gtb : num -> num -> bool;
  num_eqb : num -> num -> bool;
  Math_round : num -> num;
  Math_floor : num -> num;
  toFixed : num -> Z -> string;
  num_to_string : num -> string;
  Date_getTime : num -> num -> num -> num -> num -> num -> num;
  (* the [os] module *)
  os_uptime : num;
  os_loadavg0 : num;
  os_totalmem : num;
  os_freemem : num;
  (* child processes: the outcome of a shell command, and whether a spawn
     throws *)
  os_exec : string -> list Proc -> Result string * list Proc;
  os_spawn_error : string -> list string -> list Proc -> option string;
  (* laws of the numbers *)
  round_zero : Math_round (num_of_int (Int 0)) = num_of_int (Int 0);
  gtb_zero : num_gtb (num_of_int (Int 0)) (num_of_int (Int 0)) = false
}.

(** ** The monad *)

Definition M (S A : Type) : Type := S -> Result A * S.

Definition ret {S A} (a : A) : M S A := fun s => (Ok a, s).

Definition bind {S A B} (m : M S A) (k : A -> M S B) : M S B :=
  fun s => match m s with
           | (Ok a, s') => k a s'
           | (Throw e, s') => (Throw e, s')
           end.

Definition throw {S A} (e : string) : M S A := fun s => (Throw e, s).

(** [try { m } catch (e) { h e }]: the state reached when [m] threw is kept *)
Definition try_catch {S A} (m : M S A) (h : string -> M S A) : M S A :=
  fun s => match m s with
           | (Ok a, s') => (Ok a, s')
           | (Throw e, s') => h e s'
           end.

Notation "'do' x <- m ; k" := (bind m (fun x => k))
  (at level 10, x name, m at level 100, k at level 200).
Notation "m ;; k" := (bind m (fun _ => k))
  (at level 100, k at level 200, right associativity).

(** the events a run added to the trace *)
Definition events_since (w w' : World) : list Event :=
  drop (length (trace w)) (trace w').

(** ** World primitives *)

Definition emit (ev : Event) : M World unit := fun w =>
  (Ok tt, mkWorld (streams_file w) (files w) (procs w) (clock w) (trace w ++ [ev])).

Definition set_files (f : gmap string File) : M World unit := fun w =>
  (Ok tt, mkWorld (streams_file w) f (procs w) (clock w) (trace w)).

Definition set_streams (l : list IPTVStream) : M World unit := fun w =>
  (Ok tt, mkWorld (Some l) (files w) (procs w) (clock w) (trace w)).

Definition set_procs (t : list Proc) : M World unit := fun w =>
  (Ok tt, mkWorld (streams_file w) (files w) t (clock w) (trace w)).

Definition set_clock (t : Z) : M World unit := fun w =>
  (Ok tt, mkWorld (streams_file w) (files w) (procs w) t (trace w)).

Definition get {S} : M S S := fun s => (Ok s, s).

Definition Date_now : M World Z := do w <- get; ret (clock w).

Definition console_error (msg : string) : M World unit := emit (EvConsoleError msg).

Definition fs_existsSync (path : string) : M World bool :=
  do w <- get; ret (match files w !! path with Some _ => true | None => false end).

Definition fs_readFileSync (path : string) : M World string :=
  do w <- get;
  match files w !! path with
  | None => throw ("ENOENT: no such file or directory, open " +:+ path)
  | Some f => if readable f then ret (content f)
              else throw ("EACCES: permission denied, open " +:+ path)
  end.

Definition fs_writeFileSync (path data : string) : M World unit :=
  do w <- get;
  let r := match files w !! path with Some f => readable f | None => true end in
  set_files (<[path := mkFile data r]> (files w));;
  emit (EvWriteFile path).

Definition fs_appendFileSync (path data : string) : M World unit :=
  do w <- get;
  let f := match files w !! path with
           | Some f => mkFile (content f +:+ data) (readable f)
           | None => mkFile data true
           end in
  set_files (<[path := f]> (files w));;
  emit (EvAppendFile path data).

Definition fs_chmodSync (path : string) : M World unit := emit (EvChmod path).

Definition fs_unlinkSync (path : string) : M World unit :=
  do w <- get;
  set_files (delete path (files w));;
  emit (EvUnlink path).

Definition sleep (ms : Z) : M World unit :=
  do w <- get;
  set_clock (clock w + ms);;
  emit (EvSleep ms).

Section Program.
Context {R : Runtime}.

Definition execSync (cmd : string) : M World string :=
  do w <- get;
  match os_exec cmd (procs w) with
  | (Ok out, t) => set_procs t;; emit (EvExec cmd true);; ret out
  | (Throw e, t) => set_procs t;; emit (EvExec cmd false);; throw e
  end.

Definition fresh_pid (t : list Proc) : Z :=
  1 + foldr (fun p m => Z.max (pid p) m) 0 t.

(** [spawn(cmd, args, {detached: true, stdio: 'ignore'})] for stream [id] *)
Definition spawn (id : string) (cmd : string) (argv : list string) : M World unit :=
  do w <- get;
  match os_spawn_error cmd argv (procs w) with
  | Some e => emit (EvSpawn cmd argv false);; throw e
  | None =>
      set_procs (procs w ++ [mkProc (fresh_pid (procs w)) id cmd argv true]);;
      emit (EvSpawn cmd argv true)
  end.

(** ** Paths *)

Definition DATA_DIR : string := path_join cwd "data".
Definition STREAMS_FILE : string := path_join DATA_DIR "streams.json".
Definition STREAM_LOGS_DIR : string := path_join DATA_DIR "logs".
Definition STREAM_SCRIPTS_DIR : string := path_join DATA_DIR "scripts".

Definition logFileOf (id : string) : string := path_join STREAM_LOGS_DIR (id +:+ ".log").
Definition scriptFileOf (id : string) : string := path_join STREAM_SCRIPTS_DIR (id +:+ ".sh").

(** ** Log retrieval *)

(** [for (let i = lines.length - 1; i >= 0 && logs.length < limit; i--)];
    [n] is [i + 1]. *)
Fixpoint parse_loop (limit : JSInt) (lines : list string) (n : nat)
    (logs : list JSValue) : list JSValue :=
  match n with
  | O => logs
  | S i =>
      if length_lt (length logs) limit then
        match lines !! i with
        | Some line =>
            match JSON_parse line with
            | Some log => parse_loop limit lines i (logs ++ [log])
            | None => parse_loop limit lines i logs
            end
        | None => parse_loop limit lines i logs
        end
      else logs
  end.

Definition nonblank (line : string) : bool :=
  negb (String.eqb (String_trim line) "").

(** the default of the parameter [limit] of [getStreamLogs] *)
Definition default_limit : JSInt := Int 100.

Definition getStreamLogs (id : string) (limit : JSInt) : M World (list JSValue) :=
  let logFile := logFileOf id in
  do ex <- fs_existsSync logFile;
  if negb ex then ret []
  else
    try_catch
      (do data <- fs_readFileSync logFile;
       let lines := List.filter nonblank (split_lines data) in
       ret (parse_loop limit lines (length lines) []))
      (fun e =>
         console_error ("Error reading logs for stream " +:+ id +:+ ":");;
         ret []).

(** ** The stream store *)

Definition getAllStreams : M World (list IPTVStream) :=
  try_catch
    (do w <- get;
     match streams_file w with
     | Some l => ret l
     | None => throw "SyntaxError: Unexpected end of JSON input"
     end)
    (fun e => console_error "Error reading streams file:";; ret []).

Definition write_streams (l : list IPTVStream) : M World unit :=
  set_streams l;; emit (EvWriteStreams l).

(** [streams.find(stream => stream.id === id)] with its index *)
Definition find_stream (id : string) (l : list IPTVStream) : option (nat * IPTVStream) :=
  list_find (fun s => s_id s = id) l.

Definition getStreamById (id : string) : M World (option IPTVStream) :=
  do streams <- getAllStreams;
  ret (snd <$> find_stream id streams).

(** [{...stream, ...streamData, updatedAt: now}] *)
Definition spread (s : IPTVStream) (d : PartialStream) (now : Z) : IPTVStream :=
  {| s_id := default (s_id s) (p_id d);
     s_name := default (s_name s) (p_name d);
     s_key := default (s_key s) (p_key d);
     s_link1 := default (s_link1 s) (p_link1 d);
     s_rtmp := default (s_rtmp s) (p_rtmp d);
     s_category1 := default (s_category1 s) (p_category1 d);
     s_bitrate := default (s_bitrate s) (p_bitrate d);
     s_resolution := default (s_resolution s) (p_resolution d);
     s_active := default (s_active s) (p_active d);
     s_pid := match p_pid d with Some x => Some x | None => s_pid s end;
     s_createdAt := default (s_createdAt s) (p_createdAt d);
     s_updatedAt := now |}.

Definition given (o : option string) : bool :=
  match o with Some s => truthy s | None => false end.

Definition nl : string := String LF "".

Definition scriptContent (stream : IPTVStream) : string :=
  "#!/bin/bash" +:+ nl +:+
  "log_file=" +:+ dq +:+ logFileOf (s_id stream) +:+ dq +:+ nl +:+
  "input_url=" +:+ dq +:+ s_link1 stream +:+ dq +:+ nl +:+
  "rtmp_url=" +:+ dq +:+ s_rtmp stream +:+ "/" +:+ s_key stream +:+ dq +:+ nl +:+
  "bitrate=" +:+ dq +:+ s_bitrate stream +:+ dq +:+ nl +:+
  "resolution=" +:+ dq +:+ s_resolution stream +:+ dq +:+ nl +:+
  nl +:+
  "while true; do" +:+ nl +:+
  "  ffmpeg -re -i " +:+ dq +:+ "$input_url" +:+ dq +:+
  " -vcodec libx264 -preset veryfast -tune zerolatency -s " +:+ dq +:+ "$resolution" +:+ dq +:+
  " \" +:+ nl +:+
  "    -b:v " +:+ dq +:+ "$bitrate" +:+ dq +:+ " -maxrate " +:+ dq +:+ "$bitrate" +:+ dq +:+
  " -acodec aac -b:a 56k -sc_threshold 0 -g 48 \" +:+ nl +:+
  "    -keyint_min 48 -x264opts no-scenecut -ar 48000 -bufsize 1600k -ab 96k \" +:+ nl +:+
  "    -f flv " +:+ dq +:+ "$rtmp_url" +:+ dq +:+ " >> " +:+ dq +:+ "$log_file" +:+ dq +:+
  " 2>&1" +:+ nl +:+
  "  " +:+ nl +:+
  "  # Wait a bit before retrying to avoid CPU overload on constant failures" +:+ nl +:+
  "  sleep 1" +:+ nl +:+
  "done".

Definition createStreamScript (stream : IPTVStream) : M World unit :=
  let scriptFile := scriptFileOf (s_id stream) in
  fs_writeFileSync scriptFile (scriptContent stream);;
  fs_chmodSync scriptFile.

Definition updateStream (id : string) (streamData : PartialStream)
    : M World (option IPTVStream) :=
  do streams <- getAllStreams;
  match find_stream id streams with
  | None => ret None
  | Some (index, stream) =>
      do now <- Date_now;
      let updatedStream := spread stream streamData now in
      write_streams (<[index := updatedStream]> streams);;
      (if given (p_link1 streamData) || given (p_rtmp streamData)
          || given (p_key streamData) || given (p_bitrate streamData)
          || given (p_resolution streamData)
       then createStreamScript updatedStream
       else ret tt);;
      ret (Some updatedStream)
  end.

Definition appendToLog (id : string) (entry : LogEntry) : M World unit :=
  let logFile := logFileOf id in
  try_catch
    (do ex <- fs_existsSync logFile;
     (if negb ex then fs_writeFileSync logFile "" else ret tt);;
     fs_appendFileSync logFile (JSON_stringify entry +:+ nl))
    (fun e => console_error ("Error appending to log for stream " +:+ id +:+ ":")).

(** ** Start, stop, restart, delete *)

Definition isWindows : bool :=
  match platform with Win32 => true | _ => false end.

Definition ffmpegCmd (stream : IPTVStream) : string :=
  "ffmpeg -re -i " +:+ dq +:+ s_link1 stream +:+ dq +:+
  " -vcodec libx264 -preset veryfast -tune zerolatency -s " +:+ s_resolution stream +:+
  " -b:v " +:+ s_bitrate stream +:+ " -maxrate " +:+ s_bitrate stream +:+
  " -acodec aac -b:a 56k -sc_threshold 0 -g 48 -keyint_min 48 -x264opts no-scenecut" +:+
  " -ar 48000 -bufsize 1600k -ab 96k -f flv " +:+
  dq +:+ s_rtmp stream +:+ "/" +:+ s_key stream +:+ dq.

(** the command and arguments [startStream] spawns for a stream *)
Definition launch_command (id : string) (stream : IPTVStream) : string * list string :=
  if isWindows then
    ("cmd.exe", ["/c"; "start"; "/b"; "cmd"; "/c";
                 ffmpegCmd stream +:+ " > " +:+ logFileOf id +:+ " 2>&1"])
  else
    ("sh", [scriptFileOf id; s_link1 stream; s_rtmp stream]).

Definition activate (a : bool) : PartialStream :=
  mkPartial None None None None None None None None (Some a) None None None.

Definition startStream (id : string) : M World bool :=
  do found <- getStreamById id;
  match found with
  | None => ret false
  | Some stream =>
      if s_active stream then ret true
      else
        try_catch
          (spawn id (fst (launch_command id stream)) (snd (launch_command id stream));;
           updateStream id (activate true);;
           do now <- Date_now;
           appendToLog id (mkLog now "Stream started" info);;
           ret true)
          (fun e =>
             console_error ("Error starting stream " +:+ id +:+ ":");;
             do now <- Date_now;
             appendToLog id (mkLog now ("Failed to start stream: " +:+ e) error);;
             ret false)
  end.

(** the kill commands [stopStream] issues for a stream, in order *)
Definition kill_commands (stream : IPTVStream) : list string :=
  if isWindows then
    ["taskkill /F /FI " +:+ dq +:+ "WINDOWTITLE eq *" +:+ s_link1 stream +:+ "*" +:+ dq +:+ " /T";
     "taskkill /F /FI " +:+ dq +:+ "COMMANDLINE eq *" +:+ s_link1 stream +:+ "*" +:+ dq +:+ " /T"]
  else
    ["pkill -f " +:+ dq +:+ s_link1 stream +:+ dq].

(** the [execSync] calls of [stopStream], one after the other *)
Fixpoint exec_all (cmds : list string) : M World unit :=
  match cmds with
  | [] => ret tt
  | c :: r => execSync c;; exec_all r
  end.

Definition stopStream (id : string) : M World bool :=
  do found <- getStreamById id;
  match found with
  | None => ret false
  | Some stream =>
      try_catch
        (exec_all (kill_commands stream);;
         updateStream id (activate false);;
         do now <- Date_now;
         appendToLog id (mkLog now "Stream stopped" info);;
         ret true)
        (fun e =>
           console_error ("Error stopping stream " +:+ id +:+ ":");;
           do now <- Date_now;
           appendToLog id (mkLog now ("Error while stopping stream: " +:+ e) warning);;
           updateStream id (activate false);;
           ret true)
  end.

Definition restartStream (id : string) : M World bool :=
  stopStream id;;
  sleep 1000;;
  startStream id.

Definition deleteStream (id : string) : M World bool :=
  stopStream id;;
  do streams <- getAllStreams;
  let filteredStreams := List.filter (fun s => negb (String.eqb (s_id s) id)) streams in
  if Nat.eqb (length filteredStreams) (length streams) then ret false
  else
    write_streams filteredStreams;;
    let scriptFile := scriptFileOf id in
    let logFile := logFileOf id in
    do exs <- fs_existsSync scriptFile;
    (if exs then fs_unlinkSync scriptFile else ret tt);;
    do exl <- fs_existsSync logFile;
    (if exl then fs_unlinkSync logFile else ret tt);;
    ret true.

(** ** Numbers and local variables *)

Definition lit (z : Z) : num := num_of_int (Int z).

Definition grp (m : list string) (i : nat) : string := tpl (m !! i).

(** run [m] with local variables [l], returning their final value *)
Definition lift {L A} (m : M World A) : M (L * World) A :=
  fun s => match m (snd s) with (r, w') => (r, (fst s, w')) end.

Definition modify {L} (f : L -> L) : M (L * World) unit :=
  fun s => (Ok tt, (f (fst s), snd s)).

Definition with_locals {L A} (l : L) (m : M (L * World) A) : M World L :=
  fun w => match m (l, w) with
           | (Ok _, (l', w')) => (Ok l', w')
           | (Throw e, (_, w')) => (Throw e, w')
           end.

(** [if (m) { ... }] on the result of [String.prototype.match] *)
Definition when_match {S} (m : option (list string)) (k : list string -> M S unit) : M S unit :=
  match m with Some g => k g | None => ret tt end.

(** ** System statistics *)

Definition plural (n : num) : string :=
  if negb (num_eqb n (lit 1)) then "s" else "".

Definition formatUptime (seconds : num) : string :=
  let days := Math_floor (num_div seconds (num_mul (num_mul (lit 24) (lit 60)) (lit 60))) in
  let seconds := num_mod seconds (num_mul (num_mul (lit 24) (lit 60)) (lit 60)) in
  let hours := Math_floor (num_div seconds (num_mul (lit 60) (lit 60))) in
  let seconds := num_mod seconds (num_mul (lit 60) (lit 60)) in
  let minutes := Math_floor (num_div seconds (lit 60)) in
  let parts :=
    (if num_gtb days (lit 0) then [num_to_string days +:+ " day" +:+ plural days] else []) ++
    (if num_gtb hours (lit 0) then [num_to_string hours +:+ " hour" +:+ plural hours] else []) ++
    (if num_gtb minutes (lit 0) then [num_to_string minutes +:+ " minute" +:+ plural minutes] else []) in
  if truthy (join_comma parts) then join_comma parts else "0 minutes".

Record Usage := mkUsage {
  total : num;
  used : num;
  free : num;
  percent : num
}.

Record SystemStats := mkSystemStats {
  cpu : string;
  memory : Usage;
  disk : Usage;
  uptime : string
}.

(** the [let] variables of [getSystemStats] *)
Record SysVars := mkSysVars {
  v_cpu : string;
  v_memTotal : num;
  v_memUsed : num;
  v_memFree : num;
  v_diskTotal : num;
  v_diskUsed : num;
  v_diskFree : num;
  v_uptimeString : string
}.

Definition initial_vars : SysVars :=
  mkSysVars "0 %" (lit 0) (lit 0) (lit 0) (lit 0) (lit 0) (lit 0) "".

Definition set_cpu (c : string) (v : SysVars) : SysVars :=
  mkSysVars c (v_memTotal v) (v_memUsed v) (v_memFree v)
            (v_diskTotal v) (v_diskUsed v) (v_diskFree v) (v_uptimeString v).

Definition set_mem (t u f : num) (v : SysVars) : SysVars :=
  mkSysVars (v_cpu v) t u f (v_diskTotal v) (v_diskUsed v) (v_diskFree v) (v_uptimeString v).

Definition set_disk (t u f : num) (v : SysVars) : SysVars :=
  mkSysVars (v_cpu v) (v_memTotal v) (v_memUsed v) (v_memFree v) t u f (v_uptimeString v).

Definition set_uptime (s : string) (v : SysVars) : SysVars :=
  mkSysVars (v_cpu v) (v_memTotal v) (v_memUsed v) (v_memFree v)
            (v_diskTotal v) (v_diskUsed v) (v_diskFree v) s.

Definition KB : num := lit 1024.
Definition MB : num := num_mul (lit 1024) (lit 1024).
Definition GB : num := num_mul (num_mul (lit 1024) (lit 1024)) (lit 1024).

Definition pnum (s : string) : num := num_of_int (parseInt s).

(** the branch [if (isWindows)] of [getSystemStats] *)
Definition windows_stats : M (SysVars * World) unit :=
  try_catch
    (do cpuOutput <- lift (execSync "wmic cpu get loadpercentage");
     when_match (re_match "\d+" "" (String_trim cpuOutput))
       (fun cpuMatch => modify (set_cpu (grp cpuMatch 0 +:+ " %")));;
     do memoryOutput <- lift (execSync "wmic OS get FreePhysicalMemory,TotalVisibleMemorySize /Value");
     match re_match "TotalVisibleMemorySize=(\d+)" "" memoryOutput,
           re_match "FreePhysicalMemory=(\d+)" "" memoryOutput with
     | Some totalMemoryMatch, Some freeMemoryMatch =>
         let memTotal := num_div (pnum (grp totalMemoryMatch 1)) KB in
         let memFree := num_div (pnum (grp freeMemoryMatch 1)) KB in
         modify (set_mem memTotal (num_sub memTotal memFree) memFree)
     | _, _ => ret tt
     end;;
     do diskOutput <- lift (execSync
       ("wmic logicaldisk where DeviceID=" +:+ dq +:+ "C:" +:+ dq +:+ " get Size,FreeSpace /Value"));
     match re_match "Size=(\d+)" "" diskOutput,
           re_match "FreeSpace=(\d+)" "" diskOutput with
     | Some totalDiskMatch, Some freeDiskMatch =>
         let diskTotal := num_div (pnum (grp totalDiskMatch 1)) GB in
         let diskFree := num_div (pnum (grp freeDiskMatch 1)) GB in
         modify (set_disk diskTotal (num_sub diskTotal diskFree) diskFree)
     | _, _ => ret tt
     end;;
     do uptimeOutput <- lift (execSync
       ("net statistics server | find " +:+ dq +:+ "Statistics since" +:+ dq));
     if truthy uptimeOutput then
       modify (set_uptime (String_trim (String_replace uptimeOutput "Statistics since" "")))
     else
       modify (set_uptime (formatUptime (Math_floor os_uptime))))
    (fun e => lift (console_error "Error fetching Windows system stats:")).

(** the branch [else if (isMac || isLinux)] *)
Definition unix_stats (isMac : bool) : M (SysVars * World) unit :=
  try_catch
    (do cpuOutput <- lift (execSync
       (if isMac then "top -l 1 | grep 'CPU usage'" else "top -b -n 1 | grep '%Cpu'"));
     when_match (re_match "(\d+\.\d+)%\s+user" "" cpuOutput)
       (fun cpuMatch => modify (set_cpu (grp cpuMatch 1 +:+ " %")));;
     (if isMac then
        do memOutput <- lift (execSync "vm_stat");
        let pageSize := lit 4096 in
        match re_match "Pages free:\s+(\d+)" "" memOutput,
              re_match "Pages active:\s+(\d+)" "" memOutput,
              re_match "Pages inactive:\s+(\d+)" "" memOutput,
              re_match "Pages speculative:\s+(\d+)" "" memOutput,
              re_match "Pages wired down:\s+(\d+)" "" memOutput with
        | Some m_total, Some m_active, Some m_inactive, Some m_speculative, Some m_wired =>
            let free := num_mul (pnum (grp m_total 1)) pageSize in
            let active := num_mul (pnum (grp m_active 1)) pageSize in
            let inactive := num_mul (pnum (grp m_inactive 1)) pageSize in
            let speculative := num_mul (pnum (grp m_speculative 1)) pageSize in
            let wired := num_mul (pnum (grp m_wired 1)) pageSize in
            let memTotal :=
              num_div (num_add (num_add (num_add (num_add free active) inactive) speculative) wired)
                      MB in
            let memFree := num_div free MB in
            modify (set_mem memTotal (num_sub memTotal memFree) memFree)
        | _, _, _, _, _ => ret tt
        end
      else
        do memOutput <- lift (execSync "free -m");
        when_match (re_match "Mem:\s+(\d+)\s+(\d+)\s+(\d+)" "" memOutput)
          (fun memMatch =>
             modify (set_mem (pnum (grp memMatch 1)) (pnum (grp memMatch 2))
                             (pnum (grp memMatch 3)))));;
     do diskOutput <- lift (execSync "df -h /");
     match re_match "\d+%" "" diskOutput, re_match "\d+G" "" diskOutput with
     | Some diskMatch, Some sizeMatch =>
         let usedPercent := num_div (pnum (grp diskMatch 0)) (lit 100) in
         let diskTotal := pnum (grp sizeMatch 0) in
         let diskUsed := num_mul diskTotal usedPercent in
         modify (set_disk diskTotal diskUsed (num_sub diskTotal diskUsed))
     | _, _ => ret tt
     end;;
     modify (set_uptime (formatUptime (Math_floor os_uptime))))
    (fun e => lift (console_error
       ("Error fetching " +:+ (if isMac then "macOS" else "Linux") +:+ " system stats:"))).

(** the last branch: other platforms, through the [os] module *)
Definition fallback_stats : M (SysVars * World) unit :=
  try_catch
    (modify (set_cpu (toFixed os_loadavg0 1 +:+ " %"));;
     (let memTotal := num_div os_totalmem MB in
      let memFree := num_div os_freemem MB in
      modify (set_mem memTotal (num_sub memTotal memFree) memFree));;
     modify (set_uptime (formatUptime (Math_floor os_uptime))))
    (fun e => lift (console_error "Error fetching system stats using Node.js os module:")).

(** [whole > 0 ? Math.round((part / whole) * 100) : 0] *)
Definition percent_of (part whole : num) : num :=
  if num_gtb whole (lit 0) then Math_round (num_mul (num_div part whole) (lit 100))
  else lit 0.

(** the object [getSystemStats] returns from its variables *)
Definition report (v : SysVars) : SystemStats :=
  {| cpu := v_cpu v;
     memory := mkUsage (Math_round (v_memTotal v)) (Math_round (v_memUsed v))
                       (Math_round (v_memFree v)) (percent_of (v_memUsed v) (v_memTotal v));
     disk := mkUsage (Math_round (v_diskTotal v)) (Math_round (v_diskUsed v))
                     (Math_round (v_diskFree v)) (percent_of (v_diskUsed v) (v_diskTotal v));
     uptime := v_uptimeString v |}.

Definition zero_usage : Usage := mkUsage (lit 0) (lit 0) (lit 0) (lit 0).

(** the fallback data of the outer [catch] *)
Definition unknown_stats : SystemStats :=
  mkSystemStats "0 %" zero_usage zero_usage "Unknown".

Definition getSystemStats : M World SystemStats :=
  try_catch
    (do v <- with_locals initial_vars
               match platform with
               | Win32 => windows_stats
               | Darwin => unix_stats true
               | Linux => unix_stats false
               | OtherOS => fallback_stats
               end;
     ret (report v))
    (fun e => console_error "Error fetching system stats:";; ret unknown_stats).

(** ** Process metrics of one stream *)

Record ProcessInfo := mkInfo {
  running : bool;
  i_pid : option string;
  i_cpu : option string;
  i_memory : option string;
  i_runtime : option string;
  i_bitrate : option string;
  i_fps : option string
}.

Definition not_running : ProcessInfo := mkInfo false None None None None None None.

Definition set_rate (b : string) (i : ProcessInfo) : ProcessInfo :=
  mkInfo (running i) (i_pid i) (i_cpu i) (i_memory i) (i_runtime i) (Some b) (i_fps i).

Definition set_fps (f : string) (i : ProcessInfo) : ProcessInfo :=
  mkInfo (running i) (i_pid i) (i_cpu i) (i_memory i) (i_runtime i) (i_bitrate i) (Some f).

Definition set_memory (m : string) (i : ProcessInfo) : ProcessInfo :=
  mkInfo (running i) (i_pid i) (i_cpu i) (Some m) (i_runtime i) (i_bitrate i) (i_fps i).

Definition set_cpu_runtime (c r : string) (i : ProcessInfo) : ProcessInfo :=
  mkInfo (running i) (i_pid i) (Some c) (i_memory i) (Some r) (i_bitrate i) (i_fps i).

(** the block [// Try to get FFmpeg stats from log file], which both
    platform branches contain word for word *)
Definition ffmpeg_stats (id : string) (processInfo : ProcessInfo) : M World ProcessInfo :=
  let logFile := logFileOf id in
  do ex <- fs_existsSync logFile;
  if ex then
    do logData <- fs_readFileSync logFile;
    let lines := slice_last 20 (split_lines logData) in
    let processInfo :=
      match re_match "bitrate=\s*([0-9.]+)kbits\/s" "" (join_lines lines) with
      | Some bitrateMatch => set_rate (grp bitrateMatch 1 +:+ " kbits/s") processInfo
      | None => processInfo
      end in
    let processInfo :=
      match re_match "fps=\s*([0-9.]+)" "" (join_lines lines) with
      | Some fpsMatch => set_fps (grp fpsMatch 1 +:+ " fps") processInfo
      | None => processInfo
      end in
    ret processInfo
  else ret processInfo.

(** the command that looks the process up *)
Definition lookup_command (stream : IPTVStream) : string :=
  if isWindows then
    "wmic process where " +:+ dq +:+ "commandline like '%" +:+ s_link1 stream +:+ "%'" +:+ dq +:+
    " get processid,commandline"
  else
    "ps aux | grep " +:+ dq +:+ s_link1 stream +:+ dq +:+ " | grep -v grep".

Definition creation_time (d : string) : num :=
  Date_getTime (pnum (String.substring 0 4 d))
               (num_sub (pnum (String.substring 4 2 d)) (lit 1))
               (pnum (String.substring 6 2 d))
               (pnum (String.substring 8 2 d))
               (pnum (String.substring 10 2 d))
               (pnum (String.substring 12 2 d)).

(** the branch [if (isWindows)] of [getStreamProcessInfo] *)
Definition windows_info (id : string) (stream : IPTVStream) (processInfo : ProcessInfo)
    : M World ProcessInfo :=
  try_catch
    (do cmdOutput <- execSync (lookup_command stream);
     match re_match "(\d+)\s*$" "m" cmdOutput with
     | Some pidMatch =>
         let pid := grp pidMatch 1 in
         let processInfo :=
           mkInfo (running processInfo) (Some pid) (i_cpu processInfo) (i_memory processInfo)
                  (i_runtime processInfo) (i_bitrate processInfo) (i_fps processInfo) in
         do procInfoOutput <- execSync
           ("wmic process where processid=" +:+ pid +:+ " get workingsetsize,usermodetime");
         let processInfo :=
           match re_match "(\d+)" "" procInfoOutput with
           | Some memoryMatch =>
               set_memory (num_to_string (Math_round (num_div (pnum (grp memoryMatch 1)) MB))
                           +:+ " MB") processInfo
           | None => processInfo
           end in
         do processInfo <-
           match re_match "(\d+)\s*$" "" procInfoOutput with
           | Some cpuTimeMatch =>
               let cpuTime := num_div (pnum (grp cpuTimeMatch 1)) (lit 10000000) in
               do uptimeOutput <- execSync
                 ("wmic process where processid=" +:+ pid +:+ " get creationdate");
               match re_match "(\d{14})" "" uptimeOutput with
               | Some creationMatch =>
                   do now <- Date_now;
                   let elapsedSeconds :=
                     num_div (num_sub (lit now) (creation_time (grp creationMatch 1)))
                             (lit 1000) in
                   if num_gtb elapsedSeconds (lit 0) then
                     let cpuUsage := num_mul (num_div cpuTime elapsedSeconds) (lit 100) in
                     ret (set_cpu_runtime (toFixed cpuUsage 1 +:+ "%")
                                          (formatUptime elapsedSeconds) processInfo)
                   else ret processInfo
               | None => ret processInfo
               end
           | None => ret processInfo
           end;
         ffmpeg_stats id processInfo
     | None => ret not_running
     end)
    (fun e =>
       console_error ("Error getting Windows process info for stream " +:+ id +:+ ":");;
       ret not_running).

(** the Linux/Mac branch of [getStreamProcessInfo] *)
Definition unix_info (id : string) (stream : IPTVStream) : M World ProcessInfo :=
  try_catch
    (let grepCmd := lookup_command stream in
     do psOutput <- execSync grepCmd;
     match split_lines (String_trim psOutput) with
     | line0 :: _ =>
         let parts := re_split "\s+" line0 in
         let pid := parts !! 1%nat in
         let processInfo :=
           mkInfo true pid
                  (Some (tpl (parts !! 2%nat) +:+ "%"))
                  (Some (num_to_string (Math_round (num_div (pnum (tpl (parts !! 5%nat))) KB))
                         +:+ " MB"))
                  (parts !! 9%nat)
                  (Some "N/A") (Some "N/A") in
         ffmpeg_stats id processInfo
     | [] => ret not_running
     end)
    (fun e =>
       console_error ("Error getting Unix process info for stream " +:+ id +:+ ":");;
       ret not_running).

Definition getStreamProcessInfo (id : string) : M World ProcessInfo :=
  do found <- getStreamById id;
  match found with
  | None => ret not_running
  | Some stream =>
      if negb (s_active stream) then ret not_running
      else
        try_catch
          (let processInfo :=
             mkInfo true None (Some "0%") (Some "0 MB") (Some "0s") (Some "N/A") (Some "N/A") in
           if isWindows then windows_info id stream processInfo
           else unix_info id stream)
          (fun e =>
             console_error ("Error getting process info for stream " +:+ id +:+ ":");;
             ret not_running)
  end.

(** ** HTTP routes *)

Inductive Response :=
| JsonControl (ok : bool) (msg : string)
| JsonStream (s : IPTVStream)
| JsonSuccess
| JsonLogs (logs : list JSValue)
| JsonError (err : string) (status : Z).

(** [POST /api/streams/[id]/control]; [action] is the body's field, if any *)
Definition POST_control (id : string) (action : option string) : M World Response :=
  try_catch
    (match action with
     | None => ret (JsonError "Missing action parameter" 400)
     | Some a =>
         if negb (truthy a) then ret (JsonError "Missing action parameter" 400)
         else if String.eqb a "start" then
           do ok <- startStream id;
           ret (JsonControl ok (if ok then "Stream started successfully"
                                else "Failed to start stream"))
         else if String.eqb a "stop" then
           do ok <- stopStream id;
           ret (JsonControl ok (if ok then "Stream stopped successfully"
                                else "Failed to stop stream"))
         else if String.eqb a "restart" then
           do ok <- restartStream id;
           ret (JsonControl ok (if ok then "Stream restarted successfully"
                                else "Failed to restart stream"))
         else ret (JsonError "Invalid action" 400)
     end)
    (fun e =>
       console_error ("Error controlling stream " +:+ id +:+ ":");;
       ret (JsonError "Internal Server Error" 500)).

(** [PUT /api/streams/[id]] *)
Definition PUT_stream (id : string) (data : PartialStream) : M World Response :=
  try_catch
    (do updated <- updateStream id data;
     match updated with
     | None => ret (JsonError "Stream not found" 404)
     | Some s => ret (JsonStream s)
     end)
    (fun e =>
       console_error ("Error updating stream " +:+ id +:+ ":");;
       ret (JsonError "Internal Server Error" 500)).

(** [DELETE /api/streams/[id]] *)
Definition DELETE_stream (id : string) : M World Response :=
  try_catch
    (do ok <- deleteStream id;
     if negb ok then ret (JsonError "Stream not found" 404)
     else ret JsonSuccess)
    (fun e =>
       console_error ("Error deleting stream " +:+ id +:+ ":");;
       ret (JsonError "Internal Server Error" 500)).

(** [GET /api/streams/[id]/logs]; [limitParam] is the query parameter *)
Definition GET_logs (id : string) (limitParam : option string) : M World Response :=
  try_catch
    (let limit := match limitParam with
                  | Some s => if truthy s then parseInt s else default_limit
                  | None => default_limit
                  end in
     do logs <- getStreamLogs id limit;
     ret (JsonLogs logs))
    (fun e =>
       console_error ("Error getting logs for stream " +:+ id +:+ ":");;
       ret (JsonError "Internal Server Error" 500)).

End Program.

(** ** Vocabulary of the statements *)

(** the live processes of a stream *)
Definition live_of (id : string) (w : World) : list Proc :=
  List.filter (fun p => alive p && String.eqb (owner p) id) (procs w).

(** the world [w] with [path] holding the readable text [c] *)
Definition with_file (path c : string) (w : World) : World :=
  mkWorld (streams_file w) (<[path := mkFile c true]> (files w)) (procs w) (clock w) (trace w).

(** the world [w] with the stream file replaced *)
Definition with_streams (l : option (list IPTVStream)) (w : World) : World :=
  mkWorld l (files w) (procs w) (clock w) (trace w).

(** a stream record with another recorded pid *)
Definition set_pid (p : option string) (s : IPTVStream) : IPTVStream :=
  mkStream (s_id s) (s_name s) (s_key s) (s_link1 s) (s_rtmp s) (s_category1 s)
           (s_bitrate s) (s_resolution s) (s_active s) p (s_createdAt s) (s_updatedAt s).

(** the world [w] where every stream [s] records the pid [f s] *)
Definition record_pids (f : IPTVStream -> option string) (w : World) : World :=
  with_streams (map (fun s => set_pid (f s) s) <$> streams_file w) w.

(** the event of a shell command *)
Definition is_exec (ev : Event) : Prop :=
  match ev with EvExec _ _ => True | _ => False end.

(** the events that act on processes or remove files *)
Definition process_event (ev : Event) : bool :=
  match ev with
  | EvExec _ _ | EvSpawn _ _ _ | EvSleep _ | EvUnlink _ => true
  | _ => false
  end.

(** a computation that neither reads nor writes the stream file *)
Definition oblivious {A} (m : M World A) : Prop :=
  forall x w, m (with_streams x w) = (fst (m w), with_streams x (snd (m w))).

(** a computation that only adds to the trace and that, when it returns,
    has issued no shell command that failed *)
Definition tidy {A} (m : M World A) : Prop :=
  forall w, exists evs : list Event,
    trace (snd (m w)) = trace w ++ evs /\
    (forall a, fst (m w) = Ok a -> forall c, ~ In (EvExec c false) evs).

(** a metrics sample that never throws, only adds to the trace, and
    reports [running: false] when a shell command it issued failed *)
Definition degrades (m : M World ProcessInfo) : Prop :=
  forall w, exists v (evs : list Event),
    fst (m w) = Ok v /\
    trace (snd (m w)) = trace w ++ evs /\
    ((exists c, In (EvExec c false) evs) -> v = not_running).

(** a string without a line feed *)
Fixpoint one_line (s : string) : bool :=
  match s with
  | EmptyString => true
  | String c r => negb (Ascii.eqb c LF) && one_line r
  end.

(** the first [limit] elements of an array; none when the limit is [NaN] *)
Definition up_to {A} (limit : JSInt) (l : list A) : list A :=
  match limit with
  | NaN => []
  | Int N => take (Z.to_nat N) l
  end.

Section Records.
Context {R : Runtime}.

(** the records of a stream's log, oldest first: the lines of the log file
    that are JSON; none when the file is missing or unreadable *)
Definition log_records (id : string) (w : World) : list JSValue :=
  match files w !! logFileOf id with
  | Some f =>
      if readable f then omap JSON_parse (List.filter nonblank (split_lines (content f)))
      else []
  | None => []
  end.

(** the shell commands of [getStreamSystemStats], by the statistic they supply *)
Definition cpu_probes : list string :=
  ["wmic cpu get loadpercentage"; "top -l 1 | grep 'CPU usage'"; "top -b -n 1 | grep '%Cpu'"].

Definition memory_probes : list string :=
  ["wmic OS get FreePhysicalMemory,TotalVisibleMemorySize /Value"; "vm_stat"; "free -m"].

Definition disk_probes : list string :=
  ["wmic logicaldisk where DeviceID=" +:+ dq +:+ "C:" +:+ dq +:+ " get Size,FreeSpace /Value";
   "df -h /"].

Definition no_memory (v : SysVars) : Prop :=
  v_memTotal v = lit 0 /\ v_memUsed v = lit 0 /\ v_memFree v = lit 0.

Definition no_disk (v : SysVars) : Prop :=
  v_diskTotal v = lit 0 /\ v_diskUsed v = lit 0 /\ v_diskFree v = lit 0.

(** the variables that the probe [c] and the probes after it assign still
    hold their initial values *)
Definition placeholder_from (c : string) (v : SysVars) : Prop :=
  v_uptimeString v = "" /\
  (In c cpu_probes -> v_cpu v = "0 %" /\ no_memory v /\ no_disk v) /\
  (In c memory_probes -> no_memory v /\ no_disk v) /\
  (In c disk_probes -> no_disk v).

(** the statistics that the probe [c] and the probes after it supply are
    reported as their zero placeholders *)
Definition unavailable_from (c : string) (v : SystemStats) : Prop :=
  uptime v = "" /\
  (In c cpu_probes -> cpu v = "0 %" /\ memory v = zero_usage /\ disk v = zero_usage) /\
  (In c memory_probes -> memory v = zero_usage /\ disk v = zero_usage) /\
  (In c disk_probes -> disk v = zero_usage).

(** the process [startStream] launches for a stream *)
Definition launched (id : string) (s : IPTVStream) (w : World) : Proc :=
  mkProc (fresh_pid (procs w)) id (fst (launch_command id s)) (snd (launch_command id s)) true.

End Records.

(** ** Concrete runtimes

    Small simulated runtimes, used to evaluate the code on explicit inputs.
    Numbers are integers, a JSON value is the text of a line that starts
    with an opening brace, and no regular expression of the statistics code
    matches. Two operating systems are simulated: one where every shell
    command fails, and one where [pkill -f] and [ps | grep] act on the
    process table by matching the quoted pattern against the arguments. *)

Module Sim.

Definition is_space (c : ascii) : bool :=
  Ascii.eqb c " "%char || Ascii.eqb c LF || Ascii.eqb c "009"%char || Ascii.eqb c "013"%char.

Fixpoint trim_left (s : string) : string :=
  match s with
  | String c r => if is_space c then trim_left r else s
  | EmptyString => EmptyString
  end.

Fixpoint trim_right (s : string) : string :=
  match s with
  | String c r =>
      match trim_right r with
      | EmptyString => if is_space c then EmptyString else String c EmptyString
      | r' => String c r'
      end
  | EmptyString => EmptyString
  end.

Definition trim (s : string) : string := trim_right (trim_left s).

Fixpoint words_from (gap : bool) (s : string) : list string :=
  match s with
  | EmptyString => [EmptyString]
  | String c r =>
      if is_space c then
        if gap then words_from true r else EmptyString :: words_from true r
      else match words_from false r with
           | h :: t => String c h :: t
           | [] => [String c EmptyString]
           end
  end.

Definition words (s : string) : list string := words_from false s.

Definition json_parse (s : string) : option string :=
  match s with
  | String "{"%char _ => Some s
  | _ => None
  end.

Definition json_stringify (e : LogEntry) : string :=
  "{" +:+ dq +:+ "message" +:+ dq +:+ ":" +:+ dq +:+ message e +:+ dq +:+ "}".

Definition digit (c : ascii) : option Z :=
  let n := Z.of_nat (nat_of_ascii c) in
  if (48 <=? n) && (n <=? 57) then Some (n - 48) else None.

Fixpoint digits (acc : option Z) (s : string) : option Z :=
  match s with
  | String c r =>
      match digit c with
      | Some d => digits (Some (10 * default 0 acc + d)) r
      | None => acc
      end
  | EmptyString => acc
  end.

Definition parse_int (s : string) : JSInt :=
  match digits None (trim_left s) with
  | Some z => Int z
  | None => NaN
  end.

Definition int_value (i : JSInt) : Z :=
  match i with Int z => z | NaN => 0 end.

(** the pattern between the quotes of [prefix "pattern" suffix] *)
Definition quoted (skip drop_end : nat) (cmd : string) : string :=
  String.substring skip (String.length cmd - skip - drop_end) cmd.

Definition matches (pat : string) (p : Proc) : bool :=
  alive p && bool_decide (pat ∈ args p).

Definition kill (p : Proc) : Proc :=
  mkProc (pid p) (owner p) (command p) (args p) false.

Definition ps_line (p : Proc) : string :=
  "root " +:+ pretty (pid p) +:+ " 1.5 0.3 1000 2048 ? S 10:00 0:01 " +:+ command p.

(** every shell command fails and changes nothing *)
Definition exec_denied (cmd : string) (t : list Proc) : Result string * list Proc :=
  (Throw ("Error: Command failed: " +:+ cmd), t).

(** [pkill -f "pat"] terminates the live processes with argument [pat] and
    fails when there is none; [ps aux | grep "pat" | grep -v grep] lists
    them and fails when there is none; any other command prints nothing *)
Definition exec_posix (cmd : string) (t : list Proc) : Result string * list Proc :=
  if String.prefix "pkill -f " cmd then
    let pat := quoted 10 1 cmd in
    if existsb (matches pat) t
    then (Ok "", map (fun p => if matches pat p then kill p else p) t)
    else (Throw ("Error: Command failed: " +:+ cmd), t)
  else if String.prefix "ps aux | grep " cmd then
    let pat := quoted 15 16 cmd in
    match List.filter (matches pat) t with
    | [] => (Throw ("Error: Command failed: " +:+ cmd), t)
    | l => (Ok (join_lines (map ps_line l) +:+ nl), t)
    end
  else (Ok "", t).

Definition runtime (p : Platform)
    (exec : string -> list Proc -> Result string * list Proc) : Runtime :=
  {| platform := p;
     cwd := "/app";
     path_join := fun a b => a +:+ "/" +:+ b;
     JSValue := string;
     JSON_parse := json_parse;
     JSON_stringify := json_stringify;
     String_trim := trim;
     String_replace := fun s _ _ => s;
     re_match := fun _ _ _ => None;
     re_split := fun _ s => words s;
     parseInt := parse_int;
     num := Z;
     num_of_int := int_value;
     num_add := Z.add;
     num_sub := Z.sub;
     num_mul := Z.mul;
     num_div := Z.div;
     num_mod := Z.modulo;
     num_gtb := Z.gtb;
     num_eqb := Z.eqb;
     Math_round := fun z => z;
     Math_floor := fun z => z;
     toFixed := fun z _ => pretty z;
     num_to_string := pretty;
     Date_getTime := fun _ _ _ _ _ _ => 0;
     os_uptime := 3600;
     os_loadavg0 := 1;
     os_totalmem := 8589934592;
     os_freemem := 4294967296;
     os_exec := exec;
     os_spawn_error := fun _ _ _ => None;
     round_zero := eq_refl;
     gtb_zero := eq_refl |}.

Definition denied : Runtime := runtime Linux exec_denied.
Definition posix : Runtime := runtime Linux exec_posix.

Definition news : IPTVStream :=
  mkStream "s1" "News" "live" "http://src/news" "rtmp://out/app" "TV" "1000k" "1280x720"
           false None 1000 1000.

Definition on_air (s : IPTVStream) (p : option string) : IPTVStream :=
  mkStream (s_id s) (s_name s) (s_key s) (s_link1 s) (s_rtmp s) (s_category1 s)
           (s_bitrate s) (s_resolution s) true p (s_createdAt s) (s_updatedAt s).

Definition transcoder (n : Z) : Proc :=
  mkProc n "s1" "sh" ["/app/data/scripts/s1.sh"; "http://src/news"; "rtmp://out/app"] true.

(** an update payload that carries another id *)
Definition rename : PartialStream :=
  mkPartial (Some "s2") None None None None None None None None None None None.

(** an update payload without an id *)
Definition retitle : PartialStream :=
  mkPartial None (Some "World News") None (Some "http://src/world") None None None None
            None None None None.

(** one stopped stream, no process *)
Definition idle : World := mkWorld (Some [news]) ∅ [] 5000 [].

(** the stream is active and its transcoder runs as process 222; the
    record carries [recorded] as its pid *)
Definition airing (recorded : option string) : World :=
  mkWorld (Some [on_air news recorded]) ∅ [transcoder 222] 5000 [].

(** the same, with the stream's script and log on disk *)
Definition installed : World :=
  with_file "/app/data/scripts/s1.sh" "#!/bin/bash"
    (with_file "/app/data/logs/s1.log" "" (airing None)).

(** the stream is on air and its input URL has been edited since *)
Definition edited : World :=
  snd (updateStream (R := posix) "s1" retitle (airing None)).

(** the stream's log exists and cannot be read *)
Definition locked : World :=
  mkWorld (Some [news]) {[ "/app/data/logs/s1.log" := mkFile "{a}" false ]} [] 5000 [].

(** a log of three lines, the second of which is not JSON *)
Definition logged : World :=
  mkWorld (Some [news])
          {[ "/app/data/logs/s1.log" :=
               mkFile ("{a}" +:+ nl +:+ "frame=  100 fps= 25" +:+ nl +:+ "{b}" +:+ nl) true ]}
          [] 5000 [].

End Sim.

(** * The rest of [lib/data.ts], the remaining routes and the toast list *)

(** ** Creating streams and clearing logs *)

(** [Omit<IPTVStream, 'id' | 'createdAt' | 'updatedAt' | 'active'>] *)
Record StreamInput := mkInput {
  in_name : string;
  in_key : string;
  in_link1 : string;
  in_rtmp : string;
  in_category1 : string;
  in_bitrate : string;
  in_resolution : string;
  in_pid : option string
}.

(** the body of a create request: a [StreamFormData] of which any field may
    be missing *)
Record FormBody := mkBody {
  b_name : option string;
  b_key : option string;
  b_link1 : option string;
  b_rtmp : option string;
  b_category1 : option string;
  b_bitrate : option string;
  b_resolution : option string
}.

(** [field || fallback] *)
Definition or_else (o : option string) (fallback : string) : string :=
  match o with
  | Some s => if truthy s then s else fallback
  | None => fallback
  end.

Section Creation.
Context {R : Runtime}.

Definition createLogFile (id : string) : M World unit :=
  let logFile := logFileOf id in
  do ex <- fs_existsSync logFile;
  if negb ex then fs_writeFileSync logFile "" else ret tt.

(** [addStream]; [uuid] is the value that [crypto.randomUUID()] returns *)
Definition addStream (uuid : string) (streamData : StreamInput) : M World IPTVStream :=
  do streams <- getAllStreams;
  do now <- Date_now;
  let newStream :=
    mkStream uuid (in_name streamData) (in_key streamData) (in_link1 streamData)
             (in_rtmp streamData) (in_category1 streamData) (in_bitrate streamData)
             (in_resolution streamData) false (in_pid streamData) now now in
  write_streams (streams ++ [newStream]);;
  createLogFile (s_id newStream);;
  createStreamScript newStream;;
  ret newStream.

Definition clearStreamLogs (id : string) : M World bool :=
  let logFile := logFileOf id in
  do ex <- fs_existsSync logFile;
  if negb ex then ret false
  else
    try_catch
      (fs_writeFileSync logFile "";; ret true)
      (fun e =>
         console_error ("Error clearing logs for stream " +:+ id +:+ ":");;
         ret false).

(** [POST /api/streams] *)
Definition POST_streams (uuid : string) (data : FormBody) : M World Response :=
  try_catch
    (if negb (given (b_name data)) || negb (given (b_link1 data))
        || negb (given (b_key data)) || negb (given (b_rtmp data))
     then ret (JsonError "Missing required fields" 400)
     else
       let streamData :=
         mkInput (or_else (b_name data) "") (or_else (b_key data) "")
                 (or_else (b_link1 data) "") (or_else (b_rtmp data) "")
                 (or_else (b_category1 data) "Uncategorized")
                 (or_else (b_bitrate data) "1000k")
                 (or_else (b_resolution data) "1280x720") None in
       do newStream <- addStream uuid streamData;
       ret (JsonStream newStream))
    (fun e =>
       console_error "Error creating stream:";;
       ret (JsonError "Internal Server Error" 500)).

(** [GET /api/streams/[id]] *)
Definition GET_stream (id : string) : M World Response :=
  try_catch
    (do stream <- getStreamById id;
     match stream with
     | None => ret (JsonError "Stream not found" 404)
     | Some s => ret (JsonStream s)
     end)
    (fun e =>
       console_error ("Error getting stream " +:+ id +:+ ":");;
       ret (JsonError "Internal Server Error" 500)).

(** [DELETE /api/streams/[id]/logs]; its success body has the shape of
    [JsonControl] *)
Definition DELETE_logs (id : string) : M World Response :=
  try_catch
    (do ok <- clearStreamLogs id;
     if negb ok then ret (JsonError "Failed to clear logs" 500)
     else ret (JsonControl true "Logs cleared successfully"))
    (fun e =>
       console_error ("Error clearing logs for stream " +:+ id +:+ ":");;
       ret (JsonError "Internal Server Error" 500)).

(** the answers of [GET /api/streams/[id]/process] *)
Inductive ProcessResponse :=
| ProcessJson (id name : string) (active : bool) (info : ProcessInfo)
| ProcessError (err : string) (status : Z).

Definition GET_process (id : string) : M World ProcessResponse :=
  try_catch
    (do stream <- getStreamById id;
     match stream with
     | None => ret (ProcessError "Stream not found" 404)
     | Some s =>
         do processInfo <- getStreamProcessInfo id;
         ret (ProcessJson (s_id s) (s_name s) (s_active s) processInfo)
     end)
    (fun e =>
       console_error ("Error getting process info for stream " +:+ id +:+ ":");;
       ret (ProcessError "Internal Server Error" 500)).

End Creation.

(** ** Stream and category statistics *)

Record StreamHealth := mkHealth {
  h_healthy : Z;
  h_warning : Z;
  h_error : Z;
  h_unknown : Z
}.

Record StreamStats := mkStats {
  st_total : Z;
  st_active : Z;
  st_inactive : Z;
  st_health : StreamHealth
}.

Record CategoryStats := mkCategory {
  c_name : string;
  c_total : Z;
  c_active : Z
}.

(** [categories[category].total++] and, for an active stream,
    [categories[category].active++] on the own property [category] *)
Fixpoint count_in (category : string) (active : bool) (cats : list CategoryStats)
    : list CategoryStats :=
  match cats with
  | [] => []
  | c :: r =>
      if String.eqb (c_name c) category
      then mkCategory (c_name c) (c_total c + 1) (if active then c_active c + 1 else c_active c)
           :: r
      else c :: count_in category active r
  end.

Definition has_own (category : string) (cats : list CategoryStats) : bool :=
  existsb (fun c => String.eqb (c_name c) category) cats.

(** [arr.sort((a, b) => b.total - a.total)]: the sort is stable *)
Fixpoint insert_by_total (x : CategoryStats) (l : list CategoryStats) : list CategoryStats :=
  match l with
  | [] => [x]
  | y :: r => if c_total x <? c_total y then y :: insert_by_total x r else x :: y :: r
  end.

Definition sort_by_total (l : list CategoryStats) : list CategoryStats :=
  foldr insert_by_total [] l.

Section Statistics.
Context {R : Runtime}.

(** Three more operations of the JavaScript engine.
    [get_type log] reads [log.type]: it throws when [log] is [null], and is
    [Some s] when the property is the string [s].
    [inherited k] says that a plain object inherits a property [k] (as
    [constructor] or [toString]); such a property is truthy.
    [array_index k] is the number of a key that is an array index; the own
    keys of an object are enumerated array indices first, in ascending
    order, and then the other keys in the order they were created. *)
Variable get_type : JSValue -> Result (option string).
Variable inherited : string -> bool.
Variable array_index : string -> option N.

(** [logs.some(log => log.type === t)] *)
Fixpoint some_type (t : string) (logs : list JSValue) : Result bool :=
  match logs with
  | [] => Ok false
  | log :: rest =>
      match get_type log with
      | Throw e => Throw e
      | Ok ty => if bool_decide (ty = Some t) then Ok true else some_type t rest
      end
  end.

Definition of_result {A} (r : Result A) : M World A :=
  match r with
  | Ok a => ret a
  | Throw e => throw e
  end.

(** the loop [for (const stream of active)] of [getStreamStats] *)
Fixpoint health_loop (active : list IPTVStream) (health : StreamHealth)
    : M World StreamHealth :=
  match active with
  | [] => ret health
  | stream :: rest =>
      do logs <- getStreamLogs (s_id stream) (Int 10);
      do hasErrors <- of_result (some_type "error" logs);
      do hasWarnings <- of_result (some_type "warning" logs);
      health_loop rest
        (if hasErrors
         then mkHealth (h_healthy health) (h_warning health) (h_error health + 1)
                       (h_unknown health)
         else if hasWarnings
         then mkHealth (h_healthy health) (h_warning health + 1) (h_error health)
                       (h_unknown health)
         else if (0 <? length logs)%nat
         then mkHealth (h_healthy health + 1) (h_warning health) (h_error health)
                       (h_unknown health)
         else mkHealth (h_healthy health) (h_warning health) (h_error health)
                       (h_unknown health + 1))
  end.

Definition getStreamStats : M World StreamStats :=
  do streams <- getAllStreams;
  let active := List.filter s_active streams in
  do health <- health_loop active (mkHealth 0 0 0 0);
  ret (mkStats (Z.of_nat (length streams)) (Z.of_nat (length active))
               (Z.of_nat (length streams) - Z.of_nat (length active)) health).

(** the body of the loop of [getCategoryStats]; [cats] holds the own
    properties of [categories] in the order they were created *)
Definition count_stream (cats : list CategoryStats) (stream : IPTVStream)
    : list CategoryStats :=
  let category :=
    if truthy (s_category1 stream) then s_category1 stream else "Uncategorized" in
  let cats :=
    if has_own category cats || inherited category then cats
    else cats ++ [mkCategory category 0 0] in
  count_in category (s_active stream) cats.

Fixpoint insert_by_index (x : N * CategoryStats) (l : list (N * CategoryStats))
    : list (N * CategoryStats) :=
  match l with
  | [] => [x]
  | y :: r => if (fst y <=? fst x)%N then y :: insert_by_index x r else x :: y :: r
  end.

(** [Object.values(categories)] *)
Definition Object_values (cats : list CategoryStats) : list CategoryStats :=
  map snd (foldr insert_by_index []
             (omap (fun c => (fun n => (n, c)) <$> array_index (c_name c)) cats))
  ++ List.filter (fun c => negb (bool_decide (is_Some (array_index (c_name c))))) cats.

Definition getCategoryStats : M World (list CategoryStats) :=
  do streams <- getAllStreams;
  ret (sort_by_total (Object_values (foldl count_stream [] streams))).

(** the answers of [GET /api/streams] *)
Inductive DashboardResponse :=
| DashboardJson (streams : list IPTVStream) (stats : StreamStats)
                (systemStats : SystemStats) (categories : list CategoryStats)
| DashboardError (err : string) (status : Z).

Definition GET_streams : M World DashboardResponse :=
  try_catch
    (do streams <- getAllStreams;
     do stats <- getStreamStats;
     do systemStats <- getSystemStats;
     do categories <- getCategoryStats;
     ret (DashboardJson streams stats systemStats categories))
    (fun e =>
       console_error "Error in streams API:";;
       ret (DashboardError "Internal Server Error" 500)).

End Statistics.

(** ** The toast list ([lib/hooks/use-toast.tsx]) *)

Inductive Variant := v_default | v_success | v_error | v_warning.

Definition TOAST_LIMIT : nat := 5.

Section Toasts.

(** a [React.ReactNode] *)
Variable ReactNode : Type.

Record ToastProps := mkToastProps {
  tp_id : string;
  tp_title : option string;
  tp_description : option string;
  tp_action : option ReactNode;
  tp_variant : option Variant
}.

Record ToasterToast := mkToast {
  t_id : string;
  t_title : option string;
  t_description : option string;
  t_action : option ReactNode;
  t_variant : option Variant;
  t_open : bool;
  t_createdAt : Z
}.

(** [Partial<ToastProps>] *)
Record ToastUpdate := mkToastUpdate {
  u_id : option string;
  u_title : option string;
  u_description : option string;
  u_action : option ReactNode;
  u_variant : option Variant
}.

(** the state update of [addToast]; [uuid] is the value of
    [crypto.randomUUID()] and [now] that of [Date.now()] *)
Definition addToast (uuid : string) (now : Z) (toast : ToastProps)
    (prevToasts : list ToasterToast) : list ToasterToast :=
  let newToast :=
    mkToast (if truthy (tp_id toast) then tp_id toast else uuid)
            (tp_title toast) (tp_description toast) (tp_action toast) (tp_variant toast)
            true now in
  take TOAST_LIMIT
    (newToast :: List.filter (fun t => negb (String.eqb (t_id t) (tp_id toast))) prevToasts).

(** the first state update of [dismissToast] *)
Definition dismissToast (id : string) (prevToasts : list ToasterToast) : list ToasterToast :=
  map (fun toast =>
         if String.eqb (t_id toast) id
         then mkToast (t_id toast) (t_title toast) (t_description toast) (t_action toast)
                      (t_variant toast) false (t_createdAt toast)
         else toast) prevToasts.

(** the state update of [dismissToast] after [TOAST_REMOVE_DELAY] *)
Definition removeToast (id : string) (prevToasts : list ToasterToast) : list ToasterToast :=
  List.filter (fun toast => negb (String.eqb (t_id toast) id)) prevToasts.

Definition keep {A} (old : option A) (new : option A) : option A :=
  match new with Some x => Some x | None => old end.

(** the state update of [updateToast] *)
Definition updateToast (id : string) (toast : ToastUpdate) (prevToasts : list ToasterToast)
    : list ToasterToast :=
  map (fun t =>
         if String.eqb (t_id t) id
         then mkToast (default (t_id t) (u_id toast)) (keep (t_title t) (u_title toast))
                      (keep (t_description t) (u_description toast))
                      (keep (t_action t) (u_action toast))
                      (keep (t_variant t) (u_variant toast)) (t_open t) (t_createdAt t)
         else t) prevToasts.

End Toasts.

Arguments mkToastProps {ReactNode}.
Arguments mkToast {ReactNode}.
Arguments mkToastUpdate {ReactNode}.
Arguments tp_id {ReactNode}.
Arguments t_id {ReactNode}.
Arguments t_open {ReactNode}.
Arguments t_createdAt {ReactNode}.
Arguments addToast {ReactNode}.
Arguments dismissToast {ReactNode}.
Arguments removeToast {ReactNode}.
Arguments updateToast {ReactNode}.

(** ** Vocabulary of the further statements *)

(** the stored list; a stream file that cannot be read counts as empty *)
Definition stored (w : World) : list IPTVStream := default [] (streams_file w).

(** the HTTP status of an answer *)
Definition status_of `{R : Runtime} (r : Response) : Z :=
  match r with
  | JsonError _ status => status
  | _ => 200
  end.

(** an update gives one of the fields that the script is made of *)
Definition script_fields_given (d : PartialStream) : bool :=
  given (p_link1 d) || given (p_rtmp d) || given (p_key d)
  || given (p_bitrate d) || given (p_resolution d).

(** the category a stream is counted under *)
Definition category_of (s : IPTVStream) : string :=
  if truthy (s_category1 s) then s_category1 s else "Uncategorized".

(** how many streams of a list fall into a category, and how many of them
    are active *)
Definition streams_in (name : string) (l : list IPTVStream) : Z :=
  Z.of_nat (length (List.filter (fun s => String.eqb (category_of s) name) l)).

Definition active_in (name : string) (l : list IPTVStream) : Z :=
  Z.of_nat (length (List.filter (fun s => String.eqb (category_of s) name && s_active s) l)).

(** the tally [cats] is exact for the streams [seen]: one entry per
    category that is no inherited property, with the counts of its streams *)
Definition tallied (inherited : string -> bool)
    (seen : list IPTVStream) (cats : list CategoryStats) : Prop :=
  List.NoDup (map c_name cats) /\
  Forall (fun c => inherited (c_name c) = false /\ 1 <= c_total c /\
                   c_total c = streams_in (c_name c) seen /\
                   c_active c = active_in (c_name c) seen) cats /\
  (forall s, In s seen -> inherited (category_of s) = false ->
             In (category_of s) (map c_name cats)).

Definition total_sum (l : list CategoryStats) : Z :=
  foldr (fun c a => c_total c + a) 0 l.

Definition active_sum (l : list CategoryStats) : Z :=
  foldr (fun c a => c_active c + a) 0 l.

Definition health_sum (h : StreamHealth) : Z :=
  h_healthy h + h_warning h + h_error h + h_unknown h.

(** the order of [arr.sort((a, b) => b.total - a.total)] *)
Definition by_total (a b : CategoryStats) : Prop := c_total b <= c_total a.

(** the last character of a text is a line feed *)
Fixpoint ends_with_LF (s : string) : bool :=
  match s with
  | EmptyString => false
  | String c EmptyString => Ascii.eqb c LF
  | String _ r => ends_with_LF r
  end.

Module Cases.

Definition sports : StreamInput :=
  mkInput "Sports" "live2" "http://src/sports" "rtmp://out/app" "TV" "1000k" "1280x720" None.

Definition form : FormBody :=
  mkBody (Some "Sports") (Some "live2") (Some "http://src/sports") (Some "rtmp://out/app")
         None (Some "") None.

Definition no_key : FormBody :=
  mkBody (Some "Sports") (Some "") (Some "http://src/sports") (Some "rtmp://out/app")
         None None None.

(** the store cannot be read *)
Definition corrupt : World := mkWorld None ∅ [] 5000 [].

(** two streams, the second one on air *)
Definition movies : IPTVStream :=
  mkStream "s2" "Movies" "live3" "http://src/movies" "rtmp://out/app" "" "1000k" "1280x720"
           true None 2000 2000.

Definition pair : World :=
  mkWorld (Some [Sim.news; movies])
          {[ "/app/data/logs/s2.log" := mkFile ("{b}" +:+ nl) true ]} [] 5000 [].

(** [log.type] of the simulated JSON values: the text between the braces *)
Definition get_type (v : string) : Result (option string) :=
  Ok (Some (String.substring 1 (String.length v - 2) v)).

Definition toast (id : string) : ToastProps unit :=
  mkToastProps id (Some "Saved") None None None.

Definition shown (id : string) (at_ : Z) : ToasterToast unit :=
  mkToast id (Some "Saved") None None None true at_.

End Cases.

(** * Properties *)

(** ** Running the monad *)

Ltac run :=
  cbv beta iota zeta delta
    [bind ret get throw try_catch emit set_files set_streams set_procs set_clock
     Date_now console_error fs_existsSync fs_readFileSync fs_writeFileSync
     fs_appendFileSync fs_chmodSync fs_unlinkSync sleep execSync spawn write_streams
     lift modify with_locals when_match];
  cbn [streams_file files procs clock trace fst snd negb].

(** ** Lines of a text *)

Lemma nl_app s : nl +:+ s = String LF s.
Proof. reflexivity. Qed.

Lemma split_lines_cons s : exists h t, split_lines s = h :: t.
Proof.
  destruct s as [|c r]; simpl; [eauto|].
  destruct (Ascii.eqb c LF); [eauto|].
  destruct (split_lines r); eauto.
Qed.

Lemma split_lines_app a b :
  split_lines (a +:+ String LF b) = split_lines a ++ split_lines b.
Proof.
  induction a as [|c a IH]; simpl.
  - reflexivity.
  - destruct (Ascii.eqb c LF).
    + now rewrite IH.
    + rewrite IH. destruct (split_lines_cons a) as (h & t & ->). reflexivity.
Qed.

Lemma split_lines_one s : one_line s = true -> split_lines s = [s].
Proof.
  induction s as [|c r IH]; simpl; [reflexivity|].
  destruct (Ascii.eqb c LF); simpl; [discriminate|].
  intros H. now rewrite IH.
Qed.

(** ** Log retrieval *)

Section Logs.
Context {R : Runtime}.

Lemma parse_loop_NaN lines n logs : parse_loop NaN lines n logs = logs.
Proof. destruct n; reflexivity. Qed.

Lemma parse_loop_spec (N : Z) lines : forall n logs,
  (n <= length lines)%nat ->
  parse_loop (Int N) lines n logs =
  logs ++ take (Z.to_nat N - length logs) (reverse (omap JSON_parse (take n lines))).
Proof.
  induction n as [|i IH]; intros logs Hn.
  - rewrite take_0. cbn. rewrite take_nil. now rewrite app_nil_r.
  - simpl parse_loop. unfold length_lt.
    destruct (Z.ltb_spec (Z.of_nat (length logs)) N) as [Hlt|Hge].
    + destruct (lookup_lt_is_Some_2 lines i) as [line Hline]; [lia|].
      rewrite Hline, (take_S_r _ _ _ Hline), omap_app, reverse_app. simpl.
      destruct (JSON_parse line) as [v|].
      * rewrite IH by lia. rewrite length_app. simpl.
        replace (Z.to_nat N - length logs)%nat
          with (S (Z.to_nat N - (length logs + 1)))%nat by lia.
        simpl. now rewrite <- app_assoc.
      * simpl. apply IH. lia.
    + replace (Z.to_nat N - length logs)%nat with 0%nat by lia.
      rewrite take_0. now rewrite app_nil_r.
Qed.

Lemma getStreamLogs_spec id limit w :
  exists w', getStreamLogs id limit w = (Ok (up_to limit (reverse (log_records id w))), w').
Proof.
  unfold getStreamLogs, log_records. run.
  destruct (files w !! logFileOf id) as [f|] eqn:Hf; run.
  - rewrite Hf. destruct (readable f); run.
    + eexists. destruct limit as [|N]; simpl up_to.
      * now rewrite parse_loop_NaN.
      * rewrite parse_loop_spec by lia. cbn [length app].
        rewrite Nat.sub_0_r, firstn_all. reflexivity.
    + eexists. destruct limit; simpl; now rewrite ?reverse_nil, ?take_nil.
  - eexists. destruct limit; simpl; now rewrite ?reverse_nil, ?take_nil.
Qed.

Lemma log_records_with_file id c w :
  log_records id (with_file (logFileOf id) c w) =
  omap JSON_parse (List.filter nonblank (split_lines c)).
Proof.
  unfold log_records, with_file. cbn [files].
  now rewrite lookup_insert_eq.
Qed.

Lemma records_skip_invalid (A B : list string) bad :
  JSON_parse bad = None ->
  omap JSON_parse (List.filter nonblank (A ++ [bad] ++ B)) =
  omap JSON_parse (List.filter nonblank (A ++ B)).
Proof.
  intros Hbad. rewrite !List.filter_app, !omap_app. f_equal. f_equal.
  simpl. destruct (nonblank bad); simpl; [now rewrite Hbad | reflexivity].
Qed.

End Logs.

(** C7. Log retrieval with limit [N] returns at most [N] records, and they
    are the most recent records of the log, newest first: the result is the
    first [N] elements of the log's records read from the end of the file.
    (For a negative [N] the result is empty.) The route serves the same list
    for a [limit] parameter that reads as [N]. *)
Theorem C7_logs_most_recent_first `{R : Runtime} (id : string) (N : Z) (w : World) :
  (exists logs,
     fst (getStreamLogs id (Int N) w) = Ok logs /\
     (length logs <= Z.to_nat N)%nat /\
     logs = take (Z.to_nat N) (reverse (log_records id w))) /\
  (forall p, truthy p = true -> parseInt p = Int N ->
     fst (GET_logs id (Some p) w) =
     Ok (JsonLogs (take (Z.to_nat N) (reverse (log_records id w))))).
Proof.
  destruct (getStreamLogs_spec id (Int N) w) as [w' H]. split.
  - eexists. rewrite H. simpl. split; [reflexivity|]. split; [|reflexivity].
    rewrite length_take. lia.
  - intros p Hp HN. unfold GET_logs, try_catch, bind. now rewrite Hp, HN, H.
Qed.

Lemma C7_logs_most_recent_first_witness :
  fst (GET_logs (R := Sim.posix) "s1" (Some "1") Sim.logged) =
  Ok (JsonLogs (take (Z.to_nat 1) (reverse (log_records (R := Sim.posix) "s1" Sim.logged)))).
Proof.
  apply (C7_logs_most_recent_first (R := Sim.posix) "s1" 1 Sim.logged); reflexivity.
Defined.

(** C10. [getStreamLogs] is total and tolerant: it always returns a list;
    the list is empty when the log file does not exist and when it cannot be
    read; and a line that is not valid JSON is skipped without failing the
    retrieval and without being counted against the limit: the result is the
    same as for the log without that line. *)
Theorem C10_logs_total_tolerant `{R : Runtime} (id : string) (limit : JSInt) (w : World) :
  (exists logs w', getStreamLogs id limit w = (Ok logs, w')) /\
  (files w !! logFileOf id = None -> fst (getStreamLogs id limit w) = Ok []) /\
  (forall f, files w !! logFileOf id = Some f -> readable f = false ->
             fst (getStreamLogs id limit w) = Ok []) /\
  (forall a bad b, JSON_parse bad = None -> one_line bad = true ->
     fst (getStreamLogs id limit
            (with_file (logFileOf id) (a +:+ nl +:+ bad +:+ nl +:+ b) w)) =
     fst (getStreamLogs id limit (with_file (logFileOf id) (a +:+ nl +:+ b) w))).
Proof.
  split; [|split; [|split]].
  - destruct (getStreamLogs_spec id limit w) as [w' H]. eauto.
  - intros Hf. destruct (getStreamLogs_spec id limit w) as [w' ->]. cbn [fst].
    unfold log_records. rewrite Hf. destruct limit; simpl; now rewrite ?reverse_nil, ?take_nil.
  - intros f Hf Hr. destruct (getStreamLogs_spec id limit w) as [w' ->]. cbn [fst].
    unfold log_records. rewrite Hf, Hr. destruct limit; simpl; now rewrite ?reverse_nil, ?take_nil.
  - intros a bad b Hbad Hone.
    destruct (getStreamLogs_spec id limit
                (with_file (logFileOf id) (a +:+ nl +:+ bad +:+ nl +:+ b) w)) as [w1 ->].
    destruct (getStreamLogs_spec id limit
                (with_file (logFileOf id) (a +:+ nl +:+ b) w)) as [w2 ->].
    cbn [fst]. rewrite !log_records_with_file, !nl_app.
    rewrite !split_lines_app, (split_lines_one bad Hone).
    now rewrite (records_skip_invalid _ _ bad Hbad).
Qed.
(** ** The stream store *)

Section Store.
Context {R : Runtime}.

Lemma events_since_app w w' evs :
  trace w' = trace w ++ evs -> events_since w w' = evs.
Proof. intros H. unfold events_since. rewrite H. apply drop_app_length. Qed.

Lemma getAllStreams_readable w l :
  streams_file w = Some l -> getAllStreams w = (Ok l, w).
Proof. intros H. unfold getAllStreams. run. now rewrite H. Qed.

Lemma getStreamById_readable id w l :
  streams_file w = Some l ->
  getStreamById id w = (Ok (snd <$> find_stream id l), w).
Proof.
  intros H. unfold getStreamById. unfold bind at 1.
  now rewrite (getAllStreams_readable w l H).
Qed.

Lemma getStreamById_found id w s :
  fst (getStreamById id w) = Ok (Some s) ->
  exists l i, streams_file w = Some l /\ find_stream id l = Some (i, s).
Proof.
  destruct (streams_file w) as [l|] eqn:Hl.
  - rewrite (getStreamById_readable id w l Hl). cbn [fst].
    destruct (find_stream id l) as [[i s0]|] eqn:Hf; cbn; [|discriminate].
    intros [= ->]. eauto.
  - unfold getStreamById, getAllStreams. run. rewrite Hl. run. discriminate.
Qed.

Lemma find_stream_id id l i s : find_stream id l = Some (i, s) -> s_id s = id.
Proof. intros H. apply list_find_Some in H. tauto. Qed.

Lemma find_stream_lookup id l i s : find_stream id l = Some (i, s) -> l !! i = Some s.
Proof. intros H. apply list_find_Some in H. tauto. Qed.

Lemma find_stream_insert id l i s s' :
  find_stream id l = Some (i, s) -> s_id s' = id ->
  find_stream id (<[i := s']> l) = Some (i, s').
Proof.
  intros H Hid. apply list_find_Some in H as (Hi & _ & Hlt).
  apply list_find_Some. split; [|split; [exact Hid|]].
  - apply list_lookup_insert_eq. eapply lookup_lt_Some; eauto.
  - intros j y Hj Hji. rewrite list_lookup_insert_ne in Hj by lia. eauto.
Qed.

Lemma ids_insert (l : list IPTVStream) i s s' :
  l !! i = Some s -> s_id s' = s_id s -> map s_id (<[i := s']> l) = map s_id l.
Proof.
  intros Hi Hid. change (s_id <$> <[i:=s']> l = s_id <$> l).
  rewrite list_fmap_insert, Hid. apply list_insert_id.
  now rewrite list_lookup_fmap, Hi.
Qed.

Lemma spread_id s d now : p_id d = None -> s_id (spread s d now) = s_id s.
Proof. intros H. unfold spread. cbn. now rewrite H. Qed.

Lemma updateStream_found id d w l i s :
  streams_file w = Some l -> find_stream id l = Some (i, s) ->
  exists w', updateStream id d w = (Ok (Some (spread s d (clock w))), w') /\
             streams_file w' = Some (<[i := spread s d (clock w)]> l) /\
             procs w' = procs w /\ clock w' = clock w.
Proof.
  intros Hl Hf. unfold updateStream. unfold bind at 1.
  rewrite (getAllStreams_readable w l Hl), Hf. unfold createStreamScript. run.
  destruct (given (p_link1 d) || given (p_rtmp d) || given (p_key d)
            || given (p_bitrate d) || given (p_resolution d)); run; eauto.
Qed.

Lemma updateStream_activate id b w l i s :
  streams_file w = Some l -> find_stream id l = Some (i, s) ->
  updateStream id (activate b) w =
  (Ok (Some (spread s (activate b) (clock w))),
   mkWorld (Some (<[i := spread s (activate b) (clock w)]> l)) (files w) (procs w) (clock w)
           (trace w ++ [EvWriteStreams (<[i := spread s (activate b) (clock w)]> l)])).
Proof.
  intros Hl Hf. unfold updateStream. unfold bind at 1.
  rewrite (getAllStreams_readable w l Hl), Hf. run. reflexivity.
Qed.

Lemma appendToLog_run id e w :
  exists fs pre,
    appendToLog id e w =
    (Ok tt, mkWorld (streams_file w) fs (procs w) (clock w)
                    (trace w ++ pre ++ [EvAppendFile (logFileOf id) (JSON_stringify e +:+ nl)])) /\
    (pre = [] \/ pre = [EvWriteFile (logFileOf id)]) /\
    is_Some (fs !! logFileOf id).
Proof.
  unfold appendToLog. run.
  destruct (files w !! logFileOf id) as [f|] eqn:Hf; run.
  - rewrite Hf. eexists _, []. split; [reflexivity|]. split; [now left|].
    rewrite lookup_insert_eq. eauto.
  - rewrite lookup_insert_eq. eexists _, [_]. rewrite <- app_assoc. split; [reflexivity|].
    split; [now right|]. rewrite lookup_insert_eq. eauto.
Qed.

End Store.

Lemma C10_logs_total_tolerant_witness :
  fst (getStreamLogs (R := Sim.posix) "s1" (Int 5) Sim.idle) = Ok [] /\
  fst (getStreamLogs (R := Sim.posix) "s1" (Int 5) Sim.locked) = Ok [] /\
  fst (getStreamLogs (R := Sim.posix) "s1" (Int 1)
         (with_file (logFileOf (R := Sim.posix) "s1")
            ("{a}" +:+ nl +:+ "frame=  100 fps= 25" +:+ nl +:+ "{b}") Sim.idle)) =
  fst (getStreamLogs (R := Sim.posix) "s1" (Int 1)
         (with_file (logFileOf (R := Sim.posix) "s1") ("{a}" +:+ nl +:+ "{b}") Sim.idle)).
Proof.
  split; [|split].
  - apply (C10_logs_total_tolerant (R := Sim.posix) "s1" (Int 5) Sim.idle). reflexivity.
  - apply (proj1 (proj2 (proj2 (C10_logs_total_tolerant (R := Sim.posix) "s1" (Int 5)
                                  Sim.locked))) (mkFile "{a}" false)); reflexivity.
  - apply (C10_logs_total_tolerant (R := Sim.posix) "s1" (Int 1) Sim.idle); reflexivity.
Defined.

(** C5, as stated, fails: an update payload that carries an [id] field
    replaces the stored id. After [updateStream "s1" {id: "s2"}] the stored
    stream has id [s2], and no stream [s1] is left. *)
Lemma C5_counterexample :
  fst (getStreamById "s1" Sim.idle) = Ok (Some Sim.news) /\
  exists s' w',
    updateStream (R := Sim.posix) "s1" Sim.rename Sim.idle = (Ok (Some s'), w') /\
    s_id s' = "s2" /\
    fst (PUT_stream (R := Sim.posix) "s1" Sim.rename Sim.idle) = Ok (JsonStream s') /\
    fst (getStreamById "s1" w') = Ok None.
Proof.
  split; [reflexivity|]. eexists _, _. split; [vm_compute; reflexivity|].
  repeat split; vm_compute; reflexivity.
Qed.

(** C5, amended. For every existing stream and every update payload without
    an [id] field, [updateStream] preserves the stream's id: the stream it
    stores and returns has the id it was looked up by, it is the stream that
    id now denotes, and the ids of the stored list are unchanged. *)
Theorem C5_update_preserves_id `{R : Runtime}
    (id : string) (d : PartialStream) (w : World) (s : IPTVStream) :
  fst (getStreamById id w) = Ok (Some s) ->
  p_id d = None ->
  exists s' w',
    updateStream id d w = (Ok (Some s'), w') /\
    s_id s' = id /\
    fst (getStreamById id w') = Ok (Some s') /\
    (map s_id <$> streams_file w') = (map s_id <$> streams_file w).
Proof.
  intros Hs Hd.
  destruct (getStreamById_found id w s Hs) as (l & i & Hl & Hf).
  destruct (updateStream_found id d w l i s Hl Hf) as (w' & Hu & Hl' & _).
  pose proof (find_stream_id _ _ _ _ Hf) as Hid.
  pose proof (spread_id s d (clock w) Hd) as Hid'.
  exists (spread s d (clock w)), w'. split; [exact Hu|].
  split; [congruence|]. split.
  - rewrite (getStreamById_readable id w' _ Hl'). cbn [fst].
    rewrite (find_stream_insert id l i s _ Hf) by congruence. reflexivity.
  - rewrite Hl', Hl. cbn. f_equal.
    apply (ids_insert l i s); [eapply find_stream_lookup; eauto | exact Hid'].
Qed.

Lemma C5_update_preserves_id_witness :
  exists s' w',
    updateStream (R := Sim.posix) "s1" Sim.retitle Sim.idle = (Ok (Some s'), w') /\
    s_id s' = "s1" /\
    fst (getStreamById "s1" w') = Ok (Some s') /\
    (map s_id <$> streams_file w') = (map s_id <$> streams_file Sim.idle).
Proof.
  apply (C5_update_preserves_id (R := Sim.posix) "s1" Sim.retitle Sim.idle Sim.news);
    reflexivity.
Defined.
(** ** Stop *)

Section Stop.
Context {R : Runtime}.

(** a run of shell commands touches nothing but the process table, and
    leaves one [EvExec] per command issued; it threw exactly when the trace
    holds a failed one *)
Lemma exec_all_run cmds : forall w,
  exists r t evs,
    exec_all cmds w = (r, mkWorld (streams_file w) (files w) t (clock w) (trace w ++ evs)) /\
    Forall is_exec evs /\
    (forall c rest, cmds = c :: rest -> exists ok evs', evs = EvExec c ok :: evs') /\
    match r with
    | Ok _ => forall c, ~ In (EvExec c false) evs
    | Throw _ => True
    end.
Proof.
  induction cmds as [|c rest IH]; intros w.
  - exists (Ok tt), (procs w), []. rewrite app_nil_r. destruct w; cbn.
    repeat split; [constructor | discriminate | tauto].
  - cbn [exec_all]. run. destruct (os_exec c (procs w)) as [[out|e] t] eqn:He; run.
    + destruct (IH (mkWorld (streams_file w) (files w) t (clock w)
                            (trace w ++ [EvExec c true])))
        as (r & t' & evs & Hrun & Hall & _ & Hr).
      cbn [streams_file files procs clock trace] in Hrun. rewrite Hrun.
      exists r, t', (EvExec c true :: evs). rewrite <- app_assoc. cbn [app].
      split; [reflexivity|]. split; [constructor; [exact I|exact Hall]|].
      split; [intros ? ? [= <- <-]; eauto|].
      destruct r; [|exact I]. intros c' [H|H]; [discriminate|]. eapply Hr; eauto.
    + exists (Throw e), t, [EvExec c false].
      split; [reflexivity|]. split; [repeat constructor|].
      split; [intros ? ? [= <- <-]; eauto | exact I].
Qed.

Lemma kill_commands_cons s : exists c rest, kill_commands s = c :: rest.
Proof. unfold kill_commands. destruct isWindows; eauto. Qed.

(** what [stopStream] does for a stream of the store *)
Lemma stopStream_found id w l i s :
  streams_file w = Some l -> find_stream id l = Some (i, s) ->
  exists fs t evs,
    stopStream id w =
    (Ok true, mkWorld (Some (<[i := spread s (activate false) (clock w)]> l)) fs t (clock w)
                      (trace w ++ evs)) /\
    (exists c rest ok evs', kill_commands s = c :: rest /\ evs = EvExec c ok :: evs') /\
    In (EvWriteStreams (<[i := spread s (activate false) (clock w)]> l)) evs /\
    (exists entry,
        In (EvAppendFile (logFileOf id) (JSON_stringify entry +:+ nl)) evs /\
        ((exists c, In (EvExec c false) evs) -> type entry = warning)) /\
    (forall p, ~ In (EvUnlink p) evs) /\
    (forall c a ok, ~ In (EvSpawn c a ok) evs).
Proof.
  intros Hl Hf. unfold stopStream. unfold bind at 1.
  rewrite (getStreamById_readable id w l Hl), Hf. cbn [fmap option_fmap option_map snd].
  unfold try_catch. unfold bind at 1.
  destruct (exec_all_run (kill_commands s) w) as (r & t & evs & Hrun & Hall & Hhd & Hr).
  destruct (kill_commands_cons s) as (c & rest & Hk).
  destruct (Hhd c rest Hk) as (ok & evs' & Hevs).
  rewrite Hrun. destruct r as [[]|e].
  - unfold bind at 1. erewrite updateStream_activate by (cbn; eauto).
    cbn [streams_file files procs clock trace]. run.
    match goal with |- context [appendToLog id ?e ?w1] =>
      destruct (appendToLog_run id e w1) as (fs & pre & Happ & Hpre & _); rewrite Happ
    end.
    cbn [streams_file files procs clock trace].
    eexists fs, t, _. rewrite <- !app_assoc. split; [reflexivity|].
    split; [exists c, rest, ok; eexists; split; [exact Hk|]; rewrite Hevs; reflexivity|].
    split; [rewrite !in_app_iff; right; left; now left|].
    split.
    { eexists. split; [rewrite !in_app_iff; do 3 right; now left|].
      intros [c' Hc']. exfalso. rewrite !in_app_iff in Hc'.
      destruct Hc' as [H|[[H|[]]|[H|[H|[]]]]]; try discriminate.
      - eapply Hr; eauto.
      - destruct Hpre as [-> | ->]; [destruct H | destruct H as [H|[]]; discriminate]. }
    split.
    { intros p Hp. rewrite !in_app_iff in Hp.
      destruct Hp as [H|[[H|[]]|[H|[H|[]]]]]; try discriminate.
      - rewrite List.Forall_forall in Hall. apply Hall in H. exact H.
      - destruct Hpre as [-> | ->]; [destruct H | destruct H as [H|[]]; discriminate]. }
    { intros c0 a0 ok0 Hp. rewrite !in_app_iff in Hp.
      destruct Hp as [H|[[H|[]]|[H|[H|[]]]]]; try discriminate.
      - rewrite List.Forall_forall in Hall. apply Hall in H. exact H.
      - destruct Hpre as [-> | ->]; [destruct H | destruct H as [H|[]]; discriminate]. }
  - run.
    match goal with |- context [appendToLog id ?e ?w1] =>
      destruct (appendToLog_run id e w1) as (fs & pre & Happ & Hpre & _); rewrite Happ
    end.
    cbn [streams_file files procs clock trace].
    erewrite updateStream_activate by (cbn; eauto).
    cbn [streams_file files procs clock trace].
    eexists fs, t, _. rewrite <- !app_assoc. split; [reflexivity|].
    split; [exists c, rest, ok; eexists; split; [exact Hk|]; rewrite Hevs; reflexivity|].
    split; [rewrite !in_app_iff; do 4 right; now left|].
    split.
    { eexists. split; [rewrite !in_app_iff; do 3 right; left; now left|].
      intros _. reflexivity. }
    split.
    { intros p Hp. rewrite !in_app_iff in Hp.
      destruct Hp as [H|[[H|[]]|[H|[[H|[]]|[H|[]]]]]]; try discriminate.
      - rewrite List.Forall_forall in Hall. apply Hall in H. exact H.
      - destruct Hpre as [-> | ->]; [destruct H | destruct H as [H|[]]; discriminate]. }
    { intros c0 a0 ok0 Hp. rewrite !in_app_iff in Hp.
      destruct Hp as [H|[[H|[]]|[H|[[H|[]]|[H|[]]]]]]; try discriminate.
      - rewrite List.Forall_forall in Hall. apply Hall in H. exact H.
      - destruct Hpre as [-> | ->]; [destruct H | destruct H as [H|[]]; discriminate]. }
Qed.

End Stop.

(** C3, as stated, fails: [stopStream] has no check for a stream that is
    already stopped. For the stopped stream [s1], without any process, it
    returns [true] (not an error), issues the kill command, rewrites the
    stream record and appends a log entry. *)
Lemma C3_counterexample :
  fst (getStreamById "s1" Sim.idle) = Ok (Some Sim.news) /\
  s_active Sim.news = false /\
  live_of "s1" Sim.idle = [] /\
  fst (stopStream (R := Sim.posix) "s1" Sim.idle) = Ok true /\
  events_since Sim.idle (snd (stopStream (R := Sim.posix) "s1" Sim.idle)) =
    [EvExec ("pkill -f " +:+ dq +:+ "http://src/news" +:+ dq) false;
     EvConsoleError "Error stopping stream s1:";
     EvWriteFile "/app/data/logs/s1.log";
     EvAppendFile "/app/data/logs/s1.log"
       (Sim.json_stringify
          (mkLog 5000 ("Error while stopping stream: Error: Command failed: pkill -f "
                       +:+ dq +:+ "http://src/news" +:+ dq) warning) +:+ nl);
     EvWriteStreams [mkStream "s1" "News" "live" "http://src/news" "rtmp://out/app" "TV"
                              "1000k" "1280x720" false None 1000 5000]] /\
  snd (stopStream (R := Sim.posix) "s1" Sim.idle) <> Sim.idle.
Proof.
  repeat split; try (vm_compute; reflexivity).
  intros H. apply (f_equal trace) in H. vm_compute in H. discriminate.
Qed.

(** C3, amended. For every stream of the store that is already stopped,
    [stopStream] returns [true]; it first issues the kill command for the
    stream's input URL, and it rewrites the stream record and appends a log
    entry. Only for an id that is not in the store does it return [false]
    and leave all state unchanged. *)
Theorem C3_stop_of_stopped_stream `{R : Runtime} (id : string) (w : World) :
  (forall s, fst (getStreamById id w) = Ok (Some s) -> s_active s = false ->
     exists w' c ok,
       stopStream id w = (Ok true, w') /\
       head (kill_commands s) = Some c /\
       head (events_since w w') = Some (EvExec c ok) /\
       (exists l, In (EvWriteStreams l) (events_since w w')) /\
       (exists line, In (EvAppendFile (logFileOf id) line) (events_since w w'))) /\
  (forall l, streams_file w = Some l -> find_stream id l = None ->
     stopStream id w = (Ok false, w)).
Proof.
  split.
  - intros s Hs _.
    destruct (getStreamById_found id w s Hs) as (l & i & Hl & Hf).
    destruct (stopStream_found id w l i s Hl Hf)
      as (fs & t & evs & Hrun & (c & rest & ok & evs' & Hk & Hevs) & Hw & (e & He & _) & _).
    eexists _, c, ok. split; [exact Hrun|].
    rewrite (events_since_app w _ evs) by reflexivity.
    split; [now rewrite Hk|]. split; [now rewrite Hevs|]. eauto.
  - intros l Hl Hf. unfold stopStream. unfold bind at 1.
    now rewrite (getStreamById_readable id w l Hl), Hf.
Qed.

Lemma C3_stop_of_stopped_stream_witness :
  (exists w' c ok,
     stopStream (R := Sim.posix) "s1" Sim.idle = (Ok true, w') /\
     head (kill_commands (R := Sim.posix) Sim.news) = Some c /\
     head (events_since Sim.idle w') = Some (EvExec c ok) /\
     (exists l, In (EvWriteStreams l) (events_since Sim.idle w')) /\
     (exists line, In (EvAppendFile (logFileOf (R := Sim.posix) "s1") line)
                      (events_since Sim.idle w'))) /\
  stopStream (R := Sim.posix) "s9" Sim.idle = (Ok false, Sim.idle).
Proof.
  split.
  - apply (proj1 (C3_stop_of_stopped_stream (R := Sim.posix) "s1" Sim.idle) Sim.news);
      reflexivity.
  - apply (proj2 (C3_stop_of_stopped_stream (R := Sim.posix) "s9" Sim.idle) [Sim.news]);
      reflexivity.
Defined.

(** C9. For every existing stream, [stopStream] returns [true] and leaves
    the stream marked inactive, also when the kill command throws: the error
    does not propagate, and it is logged as a warning in the stream's log. *)
Theorem C9_stop_swallows_kill_failure `{R : Runtime}
    (id : string) (w : World) (s : IPTVStream) :
  fst (getStreamById id w) = Ok (Some s) ->
  exists w',
    stopStream id w = (Ok true, w') /\
    (exists s', fst (getStreamById id w') = Ok (Some s') /\ s_active s' = false) /\
    ((exists c, In (EvExec c false) (events_since w w')) ->
     exists entry,
       type entry = warning /\
       In (EvAppendFile (logFileOf id) (JSON_stringify entry +:+ nl)) (events_since w w')).
Proof.
  intros Hs.
  destruct (getStreamById_found id w s Hs) as (l & i & Hl & Hf).
  destruct (stopStream_found id w l i s Hl Hf)
    as (fs & t & evs & Hrun & _ & _ & (e & He & Hwarn) & _).
  eexists. split; [exact Hrun|].
  rewrite (events_since_app w _ evs) by reflexivity. split.
  - eexists. erewrite getStreamById_readable by reflexivity. cbn [fst].
    erewrite find_stream_insert; [split; reflexivity | exact Hf |].
    cbn. eapply find_stream_id; eauto.
  - intros Hfail. exists e. split; [now apply Hwarn | exact He].
Qed.

Lemma C9_stop_swallows_kill_failure_witness :
  exists w',
    stopStream (R := Sim.denied) "s1" (Sim.airing None) = (Ok true, w') /\
    (exists s', fst (getStreamById "s1" w') = Ok (Some s') /\ s_active s' = false) /\
    In (EvExec ("pkill -f " +:+ dq +:+ "http://src/news" +:+ dq) false)
       (events_since (Sim.airing None) w') /\
    exists entry,
      type entry = warning /\
      In (EvAppendFile (logFileOf (R := Sim.denied) "s1")
                       (JSON_stringify (Runtime := Sim.denied) entry +:+ nl))
         (events_since (Sim.airing None) w').
Proof.
  destruct (C9_stop_swallows_kill_failure (R := Sim.denied) "s1" (Sim.airing None)
              (Sim.on_air Sim.news None) eq_refl) as (w' & Hrun & Hs & Hwarn).
  assert (Hfail : In (EvExec ("pkill -f " +:+ dq +:+ "http://src/news" +:+ dq) false)
                     (events_since (Sim.airing None) w')).
  { assert (H : w' = snd (stopStream (R := Sim.denied) "s1" (Sim.airing None)))
      by (now rewrite Hrun).
    rewrite H. vm_compute. left. reflexivity. }
  exists w'. split; [exact Hrun|]. split; [exact Hs|]. split; [exact Hfail|].
  apply Hwarn. eexists. exact Hfail.
Defined.

(** ** Start *)

Ltac in_cases :=
  repeat match goal with
         | H : In _ (_ ++ _) |- _ => apply in_app_or in H
         | H : _ \/ _ |- _ => destruct H
         | H : In _ (_ :: _) |- _ => destruct H
         | H : In _ [] |- _ => destruct H
         | H : @eq Event _ _ |- _ => discriminate H
         end.

Section Start.
Context {R : Runtime}.

(** what [startStream] does for a stream of the store that is not active *)
Lemma startStream_inactive id w l i s :
  streams_file w = Some l -> find_stream id l = Some (i, s) -> s_active s = false ->
  exists fs evs,
    startStream id w =
    match os_spawn_error (fst (launch_command id s)) (snd (launch_command id s)) (procs w) with
    | None =>
        (Ok true, mkWorld (Some (<[i := spread s (activate true) (clock w)]> l)) fs
                          (procs w ++ [launched id s w]) (clock w) (trace w ++ evs))
    | Some _ => (Ok false, mkWorld (Some l) fs (procs w) (clock w) (trace w ++ evs))
    end /\
    (os_spawn_error (fst (launch_command id s)) (snd (launch_command id s)) (procs w) = None ->
     In (EvAppendFile (logFileOf id) (JSON_stringify (mkLog (clock w) "Stream started" info) +:+ nl))
        evs) /\
    (forall c ok, ~ In (EvExec c ok) evs).
Proof.
  intros Hl Hf Ha. unfold startStream. unfold bind at 1.
  rewrite (getStreamById_readable id w l Hl), Hf. cbn [fmap option_fmap option_map snd].
  rewrite Ha. unfold try_catch. unfold bind at 1. unfold spawn. run.
  destruct (os_spawn_error _ _ (procs w)) as [e|] eqn:Hsp; run.
  - match goal with |- context [appendToLog id ?e ?w1] =>
      destruct (appendToLog_run id e w1) as (fs & pre & Happ & Hpre & _); rewrite Happ
    end.
    cbn [streams_file files procs clock trace]. rewrite <- !app_assoc, Hl.
    eexists fs, _. split; [reflexivity|]. split; [intros; discriminate|].
    intros c ok H. destruct Hpre as [-> | ->]; in_cases.
  - erewrite updateStream_activate by (cbn; eauto).
    cbn [streams_file files procs clock trace]. run.
    match goal with |- context [appendToLog id ?e ?w1] =>
      destruct (appendToLog_run id e w1) as (fs & pre & Happ & Hpre & _); rewrite Happ
    end.
    cbn [streams_file files procs clock trace]. rewrite <- !app_assoc.
    eexists fs, _. split; [reflexivity|]. split.
    + intros _. rewrite !in_app_iff. do 3 right. now left.
    + intros c ok H. destruct Hpre as [-> | ->]; in_cases.
Qed.

(** [startStream] never throws, issues no shell command, and adds at most
    one process, owned by the stream *)
Lemma startStream_run id w :
  exists r sf fs t evs,
    startStream id w = (Ok r, mkWorld sf fs t (clock w) (trace w ++ evs)) /\
    (t = procs w \/ exists c a, t = procs w ++ [mkProc (fresh_pid (procs w)) id c a true]) /\
    (forall c ok, ~ In (EvExec c ok) evs).
Proof.
  destruct (streams_file w) as [l|] eqn:Hl.
  - destruct (find_stream id l) as [[i s]|] eqn:Hf.
    + destruct (s_active s) eqn:Ha.
      * unfold startStream. unfold bind at 1.
        rewrite (getStreamById_readable id w l Hl), Hf.
        cbn [fmap option_fmap option_map snd]. rewrite Ha.
        exists true, (streams_file w), (files w), (procs w), [].
        rewrite app_nil_r. destruct w; cbn. repeat split; [now left | tauto].
      * destruct (startStream_inactive id w l i s Hl Hf Ha) as (fs & evs & -> & _ & Hex).
        destruct (os_spawn_error (fst (launch_command id s)) (snd (launch_command id s))
                                 (procs w)) eqn:Hsp.
        -- eexists _, _, _, _, _.
           split; [reflexivity|]. split; [now left | exact Hex].
        -- eexists _, _, _, _, _.
           split; [reflexivity|]. split; [right; unfold launched; eauto | exact Hex].
    + unfold startStream. unfold bind at 1.
      rewrite (getStreamById_readable id w l Hl), Hf.
      exists false, (streams_file w), (files w), (procs w), [].
      rewrite app_nil_r. destruct w; cbn. repeat split; [now left | tauto].
  - unfold startStream, getStreamById, getAllStreams. run. rewrite Hl. run.
    eexists _, _, _, _, _. split; [reflexivity|]. split; [now left|].
    intros c ok H. in_cases.
Qed.

End Start.

(** C2, as stated, fails: for a stream that is already running,
    [startStream] returns [true], and the control route reports success; no
    [AlreadyRunning] error exists. *)
Lemma C2_counterexample :
  fst (getStreamById "s1" (Sim.airing None)) = Ok (Some (Sim.on_air Sim.news None)) /\
  live_of "s1" (Sim.airing None) = [Sim.transcoder 222] /\
  fst (startStream (R := Sim.posix) "s1" (Sim.airing None)) = Ok true /\
  fst (POST_control (R := Sim.posix) "s1" (Some "start") (Sim.airing None)) =
    Ok (JsonControl true "Stream started successfully").
Proof. repeat split; vm_compute; reflexivity. Qed.

(** C2, amended. For every stream whose record is marked active, the start
    operation returns [true] and changes nothing: it launches no second
    process. For a stream whose record is not marked active, when the spawn
    does not throw, start launches the transcoder with the stream's command
    line as one new process, marks the record active (the record's pid is
    left as it was), appends [Stream started] to the log and returns
    [true]. *)
Theorem C2_start_of_running_and_stopped `{R : Runtime}
    (id : string) (w : World) (s : IPTVStream) :
  fst (getStreamById id w) = Ok (Some s) ->
  (s_active s = true -> startStream id w = (Ok true, w)) /\
  (s_active s = false ->
   os_spawn_error (fst (launch_command id s)) (snd (launch_command id s)) (procs w) = None ->
   exists w',
     startStream id w = (Ok true, w') /\
     procs w' = procs w ++
       [mkProc (fresh_pid (procs w)) id (fst (launch_command id s)) (snd (launch_command id s))
               true] /\
     (exists s', fst (getStreamById id w') = Ok (Some s') /\
                 s_active s' = true /\ s_pid s' = s_pid s) /\
     In (EvAppendFile (logFileOf id)
           (JSON_stringify (mkLog (clock w) "Stream started" info) +:+ nl))
        (events_since w w')).
Proof.
  intros Hs. destruct (getStreamById_found id w s Hs) as (l & i & Hl & Hf). split.
  - intros Ha. unfold startStream. unfold bind at 1.
    rewrite (getStreamById_readable id w l Hl), Hf.
    cbn [fmap option_fmap option_map snd]. now rewrite Ha.
  - intros Ha Hsp.
    destruct (startStream_inactive id w l i s Hl Hf Ha) as (fs & evs & Hrun & Hlog & _).
    rewrite Hsp in Hrun. specialize (Hlog Hsp). eexists. split; [exact Hrun|].
    split; [reflexivity|]. split.
    + eexists. erewrite getStreamById_readable by reflexivity. cbn [fst].
      erewrite find_stream_insert; [repeat split; reflexivity | exact Hf |].
      cbn. eapply find_stream_id; eauto.
    + rewrite (events_since_app w _ evs) by reflexivity. exact Hlog.
Qed.

Lemma C2_start_of_running_and_stopped_witness :
  startStream (R := Sim.posix) "s1" (Sim.airing None) = (Ok true, Sim.airing None) /\
  exists w',
    startStream (R := Sim.posix) "s1" Sim.idle = (Ok true, w') /\
    procs w' = [Sim.transcoder 1] /\
    (exists s', fst (getStreamById "s1" w') = Ok (Some s') /\
                s_active s' = true /\ s_pid s' = None) /\
    In (EvAppendFile "/app/data/logs/s1.log"
          (Sim.json_stringify (mkLog 5000 "Stream started" info) +:+ nl))
       (events_since Sim.idle w').
Proof.
  split.
  - apply (C2_start_of_running_and_stopped (R := Sim.posix) "s1" (Sim.airing None)
             (Sim.on_air Sim.news None)); reflexivity.
  - apply (C2_start_of_running_and_stopped (R := Sim.posix) "s1" Sim.idle Sim.news);
      reflexivity.
Defined.

(** ** Restart *)

Section Restart.
Context {R : Runtime}.

(** [stopStream] never throws *)
Lemma stopStream_run id w :
  exists r sf fs t evs,
    stopStream id w = (Ok r, mkWorld sf fs t (clock w) (trace w ++ evs)).
Proof.
  destruct (streams_file w) as [l|] eqn:Hl.
  - destruct (find_stream id l) as [[i s]|] eqn:Hf.
    + destruct (stopStream_found id w l i s Hl Hf) as (fs & t & evs & -> & _).
      eexists _, _, _, _, _. reflexivity.
    + unfold stopStream. unfold bind at 1.
      rewrite (getStreamById_readable id w l Hl), Hf.
      exists false, (streams_file w), (files w), (procs w), [].
      rewrite app_nil_r. now destruct w.
  - unfold stopStream, getStreamById, getAllStreams. run. rewrite Hl. run.
    eexists _, _, _, _, _. reflexivity.
Qed.

Lemma live_of_app id sf fs c tr t p :
  live_of id (mkWorld sf fs (t ++ [p]) c tr) =
  live_of id (mkWorld sf fs t c tr) ++ (if alive p && String.eqb (owner p) id then [p] else []).
Proof. unfold live_of. cbn [procs]. rewrite List.filter_app. reflexivity. Qed.

End Restart.

(** C1, as stated, fails: [restartStream] sleeps for a fixed second and
    never checks that the old process exited. When the kill command fails,
    the old transcoder of stream [s1] is still alive when the new one is
    launched: after the restart the stream has two live processes. *)
Lemma C1_counterexample :
  live_of "s1" (Sim.airing None) = [Sim.transcoder 222] /\
  fst (restartStream (R := Sim.denied) "s1" (Sim.airing None)) = Ok true /\
  List.filter process_event
    (events_since (Sim.airing None)
       (snd (restartStream (R := Sim.denied) "s1" (Sim.airing None)))) =
    [EvExec ("pkill -f " +:+ dq +:+ "http://src/news" +:+ dq) false;
     EvSleep 1000;
     EvSpawn "sh" ["/app/data/scripts/s1.sh"; "http://src/news"; "rtmp://out/app"] true] /\
  live_of "s1" (snd (restartStream (R := Sim.denied) "s1" (Sim.airing None))) =
    [Sim.transcoder 222; Sim.transcoder 223].
Proof. repeat split; vm_compute; reflexivity. Qed.

(** The same happens without any failure of the operating system: the
    kill matches the stream's current input URL, so after the URL of a
    running stream was edited it matches no process, and the restart
    launches a second transcoder next to the first. *)
Lemma restart_after_edit_doubles :
  fst (restartStream (R := Sim.posix) "s1" Sim.edited) = Ok true /\
  live_of "s1" (snd (restartStream (R := Sim.posix) "s1" Sim.edited)) =
    [Sim.transcoder 222;
     mkProc 223 "s1" "sh" ["/app/data/scripts/s1.sh"; "http://src/world"; "rtmp://out/app"]
            true].
Proof. split; vm_compute; reflexivity. Qed.

(** C1, amended. For every stream id, [restartStream] composes stop, a
    fixed sleep of 1000 ms, and start: it never throws, the sleep is the
    only thing between the two, and no shell command (so no check that the
    old process exited) is issued after the stop. The restart leaves at most
    one live process for the stream id whenever the stop left none alive. *)
Theorem C1_restart_is_stop_sleep_start `{R : Runtime} (id : string) (w : World) :
  exists r1 w1 r w' start_events,
    stopStream id w = (Ok r1, w1) /\
    restartStream id w = (Ok r, w') /\
    startStream id (snd (sleep 1000 w1)) = (Ok r, w') /\
    events_since w w' = events_since w w1 ++ EvSleep 1000 :: start_events /\
    (forall c ok, ~ In (EvExec c ok) start_events) /\
    (live_of id w1 = [] -> (length (live_of id w') <= 1)%nat).
Proof.
  destruct (stopStream_run id w) as (r1 & sf & fs & t & evs & Hstop).
  destruct (startStream_run id (snd (sleep 1000
              (mkWorld sf fs t (clock w) (trace w ++ evs)))))
    as (r & sf' & fs' & t' & evs' & Hstart & Ht & Hex).
  eexists r1, _, r, _, evs'. split; [exact Hstop|].
  split; [|split; [exact Hstart|]].
  - unfold restartStream. unfold bind at 1. rewrite Hstop.
    unfold bind at 1. revert Hstart. unfold sleep. run. intros ->. reflexivity.
  - revert Hstart Ht. unfold sleep. run. intros _ Ht.
    split; [|split; [exact Hex|]].
    + rewrite (events_since_app w (mkWorld sf fs t (clock w) (trace w ++ evs)) evs)
        by reflexivity.
      apply events_since_app. cbn [trace]. now rewrite <- !app_assoc.
    + intros Hnone. destruct Ht as [-> | (c & a & ->)].
      * unfold live_of in *. cbn [procs] in *. rewrite Hnone. cbn. lia.
      * rewrite live_of_app. unfold live_of in *. cbn [procs] in *. rewrite Hnone.
        cbn [alive owner andb app]. destruct (String.eqb id id); cbn; lia.
Qed.

Lemma C1_restart_is_stop_sleep_start_witness :
  exists r1 w1 r w' start_events,
    stopStream (R := Sim.posix) "s1" (Sim.airing None) = (Ok r1, w1) /\
    restartStream (R := Sim.posix) "s1" (Sim.airing None) = (Ok r, w') /\
    startStream (R := Sim.posix) "s1" (snd (sleep 1000 w1)) = (Ok r, w') /\
    events_since (Sim.airing None) w' =
      events_since (Sim.airing None) w1 ++ EvSleep 1000 :: start_events /\
    (forall c ok, ~ In (EvExec c ok) start_events) /\
    live_of "s1" w1 = [] /\
    (length (live_of "s1" w') <= 1)%nat.
Proof.
  destruct (C1_restart_is_stop_sleep_start (R := Sim.posix) "s1" (Sim.airing None))
    as (r1 & w1 & r & w' & evs & Hstop & Hre & Hst & Hev & Hex & Hlive).
  assert (Hnone : live_of "s1" w1 = []).
  { assert (H1 : w1 = snd (stopStream (R := Sim.posix) "s1" (Sim.airing None)))
      by (now rewrite Hstop).
    rewrite H1. vm_compute. reflexivity. }
  exists r1, w1, r, w', evs. repeat split; auto.
Defined.

(** ** Delete *)

Section Delete.
Context {R : Runtime}.

Lemma filter_shrinks {A} (f : A -> bool) (l : list A) i x :
  l !! i = Some x -> f x = false -> (length (List.filter f l) < length l)%nat.
Proof.
  revert i. induction l as [|y l IH]; intros i Hi Hx; [discriminate|].
  destruct i as [|i]; cbn in Hi |- *.
  - injection Hi as ->. rewrite Hx. pose proof (List.filter_length_le f l). lia.
  - specialize (IH i Hi Hx). destruct (f y); cbn; lia.
Qed.

Lemma find_stream_filtered id (l : list IPTVStream) :
  find_stream id (List.filter (fun s => negb (String.eqb (s_id s) id)) l) = None.
Proof.
  apply list_find_None, Forall_forall. intros x Hx%list_elem_of_In%List.filter_In.
  destruct Hx as [_ Hx]. intros Hid. rewrite Hid, String.eqb_refl in Hx. discriminate.
Qed.

Lemma filter_all_kept id (l : list IPTVStream) :
  find_stream id l = None ->
  List.filter (fun s => negb (String.eqb (s_id s) id)) l = l.
Proof.
  intros H. apply list_find_None in H. induction H as [|x l Hx _ IH]; cbn; [reflexivity|].
  rewrite IH. destruct (String.eqb_spec (s_id x) id); [contradiction | reflexivity].
Qed.

(** what [deleteStream] does for a stream of the store *)
Lemma deleteStream_found id w l i s :
  streams_file w = Some l -> find_stream id l = Some (i, s) ->
  exists w1 stop_events l' fs' cleanup,
    stopStream id w = (Ok true, w1) /\
    trace w1 = trace w ++ stop_events /\
    deleteStream id w =
      (Ok true, mkWorld (Some l') fs' (procs w1) (clock w)
                        (trace w ++ stop_events ++ EvWriteStreams l' :: cleanup)) /\
    (exists c rest ok evs', kill_commands s = c :: rest /\ stop_events = EvExec c ok :: evs') /\
    (forall p, ~ In (EvUnlink p) stop_events) /\
    (forall ev, In ev cleanup ->
                ev = EvUnlink (scriptFileOf id) \/ ev = EvUnlink (logFileOf id)) /\
    find_stream id l' = None /\
    fs' !! scriptFileOf id = None /\ fs' !! logFileOf id = None.
Proof.
  intros Hl Hf.
  destruct (stopStream_found id w l i s Hl Hf)
    as (fs & t & evs & Hstop & Hkill & _ & _ & Hun & _).
  set (l1 := <[i := spread s (activate false) (clock w)]> l) in *.
  assert (Hlt : (length (List.filter (fun s => negb (String.eqb (s_id s) id)) l1)
                 < length l1)%nat).
  { apply (filter_shrinks _ l1 i (spread s (activate false) (clock w))).
    - apply list_lookup_insert_eq. eapply lookup_lt_Some, find_stream_lookup; eauto.
    - cbn. rewrite (find_stream_id _ _ _ _ Hf). now rewrite String.eqb_refl. }
  unfold deleteStream. unfold bind at 1. rewrite Hstop. unfold bind at 1.
  erewrite getAllStreams_readable by reflexivity.
  destruct (Nat.eqb_spec
              (length (List.filter (fun s => negb (String.eqb (s_id s) id)) l1))
              (length l1)) as [Heq|_]; [lia|].
  run.
  eexists _, evs, _.
  destruct (fs !! scriptFileOf id) as [f1|] eqn:H1; run.
  - destruct (delete (scriptFileOf id) fs !! logFileOf id) as [f2|] eqn:H2; run;
      rewrite <- ?app_assoc; cbn [app].
    + eexists _, [_; _]. split; [reflexivity|]. split; [reflexivity|].
      split; [reflexivity|]. split; [exact Hkill|]. split; [exact Hun|].
      split; [intros ev [<-|[<-|[]]]; auto|].
      split; [apply find_stream_filtered|].
      split; [|apply lookup_delete_eq].
      rewrite lookup_delete. case_decide; [reflexivity | apply lookup_delete_eq].
    + eexists _, [_]. split; [reflexivity|]. split; [reflexivity|].
      split; [reflexivity|]. split; [exact Hkill|]. split; [exact Hun|].
      split; [intros ev [<-|[]]; auto|].
      split; [apply find_stream_filtered|].
      split; [apply lookup_delete_eq | exact H2].
  - destruct (fs !! logFileOf id) as [f2|] eqn:H2; run; rewrite <- ?app_assoc; cbn [app].
    + eexists _, [_]. split; [reflexivity|]. split; [reflexivity|].
      split; [reflexivity|]. split; [exact Hkill|]. split; [exact Hun|].
      split; [intros ev [<-|[]]; auto|].
      split; [apply find_stream_filtered|].
      split; [|apply lookup_delete_eq].
      rewrite lookup_delete. case_decide; [reflexivity | exact H1].
    + eexists _, []. split; [reflexivity|]. split; [reflexivity|].
      split; [reflexivity|]. split; [exact Hkill|]. split; [exact Hun|].
      split; [intros ev []|].
      split; [apply find_stream_filtered|]. split; assumption.
Qed.

End Delete.

(** C4, as stated, fails: [deleteStream] does not make sure the process
    stopped. When the kill command fails, the record of stream [s1] is
    removed and its script and log files are deleted while its transcoder,
    process 222, is still alive; the process is left running. *)
Lemma C4_counterexample :
  live_of "s1" Sim.installed = [Sim.transcoder 222] /\
  fst (deleteStream (R := Sim.denied) "s1" Sim.installed) = Ok true /\
  fst (DELETE_stream (R := Sim.denied) "s1" Sim.installed) = Ok JsonSuccess /\
  List.filter process_event
    (events_since Sim.installed (snd (deleteStream (R := Sim.denied) "s1" Sim.installed))) =
    [EvExec ("pkill -f " +:+ dq +:+ "http://src/news" +:+ dq) false;
     EvUnlink "/app/data/scripts/s1.sh";
     EvUnlink "/app/data/logs/s1.log"] /\
  streams_file (snd (deleteStream (R := Sim.denied) "s1" Sim.installed)) = Some [] /\
  live_of "s1" (snd (deleteStream (R := Sim.denied) "s1" Sim.installed)) =
    [Sim.transcoder 222].
Proof. repeat split; vm_compute; reflexivity. Qed.

(** C4, amended. For every stream of the store, [deleteStream] first runs
    the stop operation, which issues the kill command, and only then removes
    the stream record and deletes the script and log files: no file is
    deleted during the stop, and after it only the record removal and the
    deletions happen. The outcome of the kill is not checked: the cleanup
    leaves the process table as the stop left it. Afterwards the id denotes
    no stream and neither file exists. For an id that is not in the store
    [deleteStream] returns [false] and changes nothing. *)
Theorem C4_delete_stops_then_cleans `{R : Runtime} (id : string) (w : World) :
  (forall s, fst (getStreamById id w) = Ok (Some s) ->
     exists w1 w' stop_events l' cleanup,
       stopStream id w = (Ok true, w1) /\
       deleteStream id w = (Ok true, w') /\
       events_since w w1 = stop_events /\
       events_since w w' = stop_events ++ EvWriteStreams l' :: cleanup /\
       (exists c ok rest, head (kill_commands s) = Some c /\
                          stop_events = EvExec c ok :: rest) /\
       (forall p, ~ In (EvUnlink p) stop_events) /\
       (forall ev, In ev cleanup ->
                   ev = EvUnlink (scriptFileOf id) \/ ev = EvUnlink (logFileOf id)) /\
       procs w' = procs w1 /\
       fst (getStreamById id w') = Ok None /\
       files w' !! scriptFileOf id = None /\
       files w' !! logFileOf id = None) /\
  (forall l, streams_file w = Some l -> find_stream id l = None ->
     deleteStream id w = (Ok false, w)).
Proof.
  split.
  - intros s Hs. destruct (getStreamById_found id w s Hs) as (l & i & Hl & Hf).
    destruct (deleteStream_found id w l i s Hl Hf)
      as (w1 & evs & l' & fs' & cleanup & Hstop & Htr & Hdel & Hkill & Hun & Hcl & Hno & H1 & H2).
    eexists w1, _, evs, l', cleanup. split; [exact Hstop|]. split; [exact Hdel|].
    split; [now apply events_since_app|].
    split; [now apply events_since_app|].
    split.
    { destruct Hkill as (c & rest & ok & evs' & Hk & ->). exists c, ok, evs'.
      now rewrite Hk. }
    split; [exact Hun|]. split; [exact Hcl|]. split; [reflexivity|].
    split; [|split; assumption].
    erewrite getStreamById_readable by reflexivity. cbn [fst]. now rewrite Hno.
  - intros l Hl Hf. unfold deleteStream. unfold bind at 1.
    unfold stopStream. unfold bind at 1.
    rewrite (getStreamById_readable id w l Hl), Hf. cbn [fmap option_fmap option_map].
    unfold ret at 1. unfold bind at 1.
    rewrite (getAllStreams_readable w l Hl), (filter_all_kept id l Hf), Nat.eqb_refl.
    reflexivity.
Qed.

Lemma C4_delete_stops_then_cleans_witness :
  (exists w1 w' stop_events l' cleanup,
     stopStream (R := Sim.posix) "s1" Sim.installed = (Ok true, w1) /\
     deleteStream (R := Sim.posix) "s1" Sim.installed = (Ok true, w') /\
     events_since Sim.installed w1 = stop_events /\
     events_since Sim.installed w' = stop_events ++ EvWriteStreams l' :: cleanup /\
     (exists c ok rest,
        head (kill_commands (R := Sim.posix) (Sim.on_air Sim.news None)) = Some c /\
        stop_events = EvExec c ok :: rest) /\
     (forall p, ~ In (EvUnlink p) stop_events) /\
     (forall ev, In ev cleanup ->
                 ev = EvUnlink (scriptFileOf (R := Sim.posix) "s1") \/
                 ev = EvUnlink (logFileOf (R := Sim.posix) "s1")) /\
     procs w' = procs w1 /\
     fst (getStreamById "s1" w') = Ok None /\
     files w' !! scriptFileOf (R := Sim.posix) "s1" = None /\
     files w' !! logFileOf (R := Sim.posix) "s1" = None) /\
  deleteStream (R := Sim.posix) "s9" Sim.installed = (Ok false, Sim.installed).
Proof.
  split.
  - apply (proj1 (C4_delete_stops_then_cleans (R := Sim.posix) "s1" Sim.installed)
                 (Sim.on_air Sim.news None)).
    reflexivity.
  - apply (proj2 (C4_delete_stops_then_cleans (R := Sim.posix) "s9" Sim.installed)
                 [Sim.on_air Sim.news None]); reflexivity.
Defined.

(** ** Probing: which state a computation reads, and what it leaves in the trace *)

Section Probing.
Context {R : Runtime}.

Lemma oblivious_ret {A} (a : A) : oblivious (ret a).
Proof. intros x w. reflexivity. Qed.

Lemma oblivious_throw {A} e : oblivious (@throw World A e).
Proof. intros x w. reflexivity. Qed.

Lemma oblivious_bind {A B} (m : M World A) (k : A -> M World B) :
  oblivious m -> (forall a, oblivious (k a)) -> oblivious (bind m k).
Proof.
  intros Hm Hk x w. unfold bind. rewrite Hm.
  destruct (m w) as [[a|e] w1]; cbn [fst snd]; [apply Hk | reflexivity].
Qed.

Lemma oblivious_try_catch {A} (m : M World A) h :
  oblivious m -> (forall e, oblivious (h e)) -> oblivious (try_catch m h).
Proof.
  intros Hm Hh x w. unfold try_catch. rewrite Hm.
  destruct (m w) as [[a|e] w1]; cbn [fst snd]; [reflexivity | apply Hh].
Qed.

Lemma oblivious_execSync c : oblivious (execSync c).
Proof.
  intros x w. unfold with_streams. run.
  destruct (os_exec c (procs w)) as [[out|e] t]; reflexivity.
Qed.

Lemma oblivious_console msg : oblivious (console_error msg).
Proof. intros x w. reflexivity. Qed.

Lemma oblivious_Date_now : oblivious Date_now.
Proof. intros x w. reflexivity. Qed.

Lemma oblivious_existsSync p : oblivious (fs_existsSync p).
Proof. intros x w. reflexivity. Qed.

Lemma oblivious_readFileSync p : oblivious (fs_readFileSync p).
Proof.
  intros x w. unfold with_streams. run.
  destruct (files w !! p) as [f|]; [destruct (readable f)|]; reflexivity.
Qed.

Lemma tidy_ret {A} (a : A) : tidy (ret a).
Proof. intros w. exists []. cbn. rewrite app_nil_r. split; [reflexivity | tauto]. Qed.

Lemma tidy_throw {A} e : tidy (@throw World A e).
Proof. intros w. exists []. cbn. rewrite app_nil_r. split; [reflexivity | tauto]. Qed.

Lemma tidy_bind {A B} (m : M World A) (k : A -> M World B) :
  tidy m -> (forall a, tidy (k a)) -> tidy (bind m k).
Proof.
  intros Hm Hk w. unfold bind. destruct (Hm w) as (e1 & Ht1 & Hc1).
  destruct (m w) as [[a|e] w1]; cbn [fst snd] in *.
  - destruct (Hk a w1) as (e2 & Ht2 & Hc2). exists (e1 ++ e2).
    rewrite Ht2, Ht1, app_assoc. split; [reflexivity|].
    intros b Hb c Hin. apply in_app_or in Hin as [Hin|Hin].
    + eapply Hc1; eauto.
    + eapply Hc2; eauto.
  - exists e1. split; [exact Ht1 | discriminate].
Qed.

Lemma tidy_execSync c : tidy (execSync c).
Proof.
  intros w. run. destruct (os_exec c (procs w)) as [[out|e] t]; cbn [fst snd trace].
  - exists [EvExec c true]. split; [reflexivity|]. intros _ _ c' [H|[]]. discriminate.
  - exists [EvExec c false]. split; [reflexivity | discriminate].
Qed.

Lemma tidy_console msg : tidy (console_error msg).
Proof.
  intros w. exists [EvConsoleError msg]. split; [reflexivity|].
  intros _ _ c [H|[]]. discriminate.
Qed.

Lemma tidy_Date_now : tidy Date_now.
Proof. intros w. exists []. cbn. rewrite app_nil_r. split; [reflexivity | tauto]. Qed.

Lemma tidy_existsSync p : tidy (fs_existsSync p).
Proof. intros w. exists []. cbn. rewrite app_nil_r. split; [reflexivity | tauto]. Qed.

Lemma tidy_readFileSync p : tidy (fs_readFileSync p).
Proof.
  intros w. exists []. run. rewrite app_nil_r.
  destruct (files w !! p) as [f|]; [destruct (readable f)|]; cbn; split; tauto.
Qed.

End Probing.

Ltac probing :=
  repeat first
    [ apply oblivious_ret | apply oblivious_throw | apply oblivious_execSync
    | apply oblivious_console | apply oblivious_Date_now | apply oblivious_existsSync
    | apply oblivious_readFileSync
    | apply tidy_ret | apply tidy_throw | apply tidy_execSync | apply tidy_console
    | apply tidy_Date_now | apply tidy_existsSync | apply tidy_readFileSync
    | apply oblivious_bind; [|intros ?] | apply tidy_bind; [|intros ?]
    | apply oblivious_try_catch; [|intros ?]
    | match goal with
      | |- oblivious (match ?x with _ => _ end) => destruct x
      | |- tidy (match ?x with _ => _ end) => destruct x
      | |- oblivious (let _ := _ in _) => cbv zeta
      | |- tidy (let _ := _ in _) => cbv zeta
      end ].

Section Metrics.
Context {R : Runtime}.

Lemma oblivious_ffmpeg_stats id i : oblivious (ffmpeg_stats id i).
Proof. unfold ffmpeg_stats. probing. Qed.

Lemma tidy_ffmpeg_stats id i : tidy (ffmpeg_stats id i).
Proof. unfold ffmpeg_stats. probing. Qed.

End Metrics.

Section ProcessInfo.
Context {R : Runtime}.

Lemma oblivious_windows_info id s i : oblivious (windows_info id s i).
Proof. unfold windows_info. probing; apply oblivious_ffmpeg_stats. Qed.

Lemma oblivious_unix_info id s : oblivious (unix_info id s).
Proof. unfold unix_info. probing; apply oblivious_ffmpeg_stats. Qed.

Lemma degrades_try_catch body msg :
  tidy body ->
  degrades (try_catch body (fun e => console_error msg;; ret not_running)).
Proof.
  intros Hb w. unfold try_catch. destruct (Hb w) as (evs & Ht & Hc).
  destruct (body w) as [[v|e] w1]; cbn [fst snd] in *.
  - exists v, evs. split; [reflexivity|]. split; [exact Ht|].
    intros [c Hin]. exfalso. eapply Hc; eauto.
  - run. exists not_running, (evs ++ [EvConsoleError msg]).
    split; [reflexivity|]. split; [now rewrite Ht, app_assoc | reflexivity].
Qed.

Lemma degrades_windows_info id s i : degrades (windows_info id s i).
Proof.
  unfold windows_info. apply degrades_try_catch. probing; apply tidy_ffmpeg_stats.
Qed.

Lemma degrades_unix_info id s : degrades (unix_info id s).
Proof.
  unfold unix_info. apply degrades_try_catch. probing; apply tidy_ffmpeg_stats.
Qed.

(** a [try] block that starts with a shell command leaves that command
    first in the trace *)
Lemma try_exec_first {A} c (k : string -> M World A) h w :
  (forall a, tidy (k a)) -> (forall e, tidy (h e)) ->
  exists ok rest,
    trace (snd (try_catch (bind (execSync c) k) h w)) = trace w ++ EvExec c ok :: rest.
Proof.
  intros Hk Hh. unfold try_catch, bind. unfold execSync at 1. run.
  destruct (os_exec c (procs w)) as [[out|e] t]; run.
  - match goal with |- context [k out ?w1] => destruct (Hk out w1) as (evs & Ht & _) end.
    cbn [trace] in Ht. destruct (k out _) as [[a|e] w2]; cbn [snd] in Ht |- *.
    + exists true, evs. now rewrite Ht, <- app_assoc.
    + match goal with |- context [h e ?w1] => destruct (Hh e w1) as (evs' & Ht' & _) end.
      exists true, (evs ++ evs'). now rewrite Ht', Ht, <- !app_assoc.
  - match goal with |- context [h e ?w1] => destruct (Hh e w1) as (evs' & Ht' & _) end.
    cbn [trace] in Ht'. exists false, evs'. now rewrite Ht', <- app_assoc.
Qed.

(** the initial [processInfo] of [getStreamProcessInfo] *)
Lemma getStreamProcessInfo_active id w l i s :
  streams_file w = Some l -> find_stream id l = Some (i, s) -> s_active s = true ->
  getStreamProcessInfo id w =
  (if isWindows
   then windows_info id s (mkInfo true None (Some "0%") (Some "0 MB") (Some "0s")
                                  (Some "N/A") (Some "N/A"))
   else unix_info id s) w.
Proof.
  intros Hl Hf Ha. unfold getStreamProcessInfo. unfold bind at 1.
  rewrite (getStreamById_readable id w l Hl), Hf. cbn [fmap option_fmap option_map snd].
  rewrite Ha. cbn [negb]. unfold try_catch at 1.
  destruct isWindows.
  - destruct (degrades_windows_info id s
                (mkInfo true None (Some "0%") (Some "0 MB") (Some "0s") (Some "N/A") (Some "N/A")) w)
      as (v & evs & Hv & _).
    destruct (windows_info id s _ w) as [[v'|e] w1]; [reflexivity | discriminate].
  - destruct (degrades_unix_info id s w) as (v & evs & Hv & _).
    destruct (unix_info id s w) as [[v'|e] w1]; [reflexivity | discriminate].
Qed.

Lemma find_stream_map id (g : IPTVStream -> IPTVStream) (l : list IPTVStream) :
  (forall s, s_id (g s) = s_id s) ->
  find_stream id (map g l) = prod_map (fun n => n) g <$> find_stream id l.
Proof.
  intros Hg. unfold find_stream. induction l as [|x l IH]; [reflexivity|].
  cbn [map list_find]. rewrite IH.
  destruct (decide (s_id (g x) = id)) as [H|H]; destruct (decide (s_id x = id)) as [H'|H'];
    rewrite Hg in H; try contradiction; [reflexivity|].
  destruct (list_find _ l) as [[n y]|]; reflexivity.
Qed.

End ProcessInfo.

(** C6, as stated, fails: the stream record carries the pid [111], and the
    sample of stream [s1] is taken by matching the input URL against the
    process list ([ps aux | grep "http://src/news"]); it reports the pid the
    match finds, [222]. The recorded pid is not used. *)
Lemma C6_counterexample :
  fst (getStreamById "s1" (Sim.airing (Some "111"))) =
    Ok (Some (Sim.on_air Sim.news (Some "111"))) /\
  events_since (Sim.airing (Some "111"))
    (snd (getStreamProcessInfo (R := Sim.posix) "s1" (Sim.airing (Some "111")))) =
    [EvExec ("ps aux | grep " +:+ dq +:+ "http://src/news" +:+ dq +:+ " | grep -v grep") true] /\
  fst (getStreamProcessInfo (R := Sim.posix) "s1" (Sim.airing (Some "111"))) =
    Ok (mkInfo true (Some "222") (Some "1.5%") (Some "2 MB") (Some "0:01")
               (Some "N/A") (Some "N/A")).
Proof. repeat split; vm_compute; reflexivity. Qed.

(** C6, amended. For every active stream, the metrics sample obtains pid,
    CPU and memory by matching the stream's input URL against the
    system-wide process list: the first thing it does is the shell command
    that greps the process list for the URL ([wmic ... commandline like]
    on Windows). The pid recorded for the stream is never used: the sample
    is the same whatever pids the stream records carry. *)
Theorem C6_sample_matches_input_url `{R : Runtime}
    (id : string) (w : World) (s : IPTVStream) :
  fst (getStreamById id w) = Ok (Some s) ->
  s_active s = true ->
  (exists ok rest,
     events_since w (snd (getStreamProcessInfo id w)) =
     EvExec (if isWindows
             then "wmic process where " +:+ dq +:+ "commandline like '%" +:+ s_link1 s
                  +:+ "%'" +:+ dq +:+ " get processid,commandline"
             else "ps aux | grep " +:+ dq +:+ s_link1 s +:+ dq +:+ " | grep -v grep") ok
     :: rest) /\
  (forall f, fst (getStreamProcessInfo id (record_pids f w)) =
             fst (getStreamProcessInfo id w)).
Proof.
  intros Hs Ha. destruct (getStreamById_found id w s Hs) as (l & i & Hl & Hf). split.
  - rewrite (getStreamProcessInfo_active id w l i s Hl Hf Ha).
    unfold windows_info, unix_info, lookup_command.
    destruct isWindows.
    + match goal with
      | |- context [try_catch (bind (execSync ?c) ?k) ?h w] =>
          destruct (try_exec_first c k h w) as (ok & rest & Ht)
      end.
      * intros a. probing; apply tidy_ffmpeg_stats.
      * intros e. probing.
      * exists ok, rest. apply events_since_app. exact Ht.
    + match goal with
      | |- context [try_catch (bind (execSync ?c) ?k) ?h w] =>
          destruct (try_exec_first c k h w) as (ok & rest & Ht)
      end.
      * intros a. probing; apply tidy_ffmpeg_stats.
      * intros e. probing.
      * exists ok, rest. apply events_since_app. exact Ht.
  - intros f.
    assert (Hl' : streams_file (record_pids f w) = Some (map (fun s => set_pid (f s) s) l)).
    { unfold record_pids, with_streams. cbn [streams_file]. now rewrite Hl. }
    assert (Hf' : find_stream id (map (fun s => set_pid (f s) s) l) = Some (i, set_pid (f s) s)).
    { rewrite find_stream_map by reflexivity. now rewrite Hf. }
    rewrite (getStreamProcessInfo_active id _ _ i _ Hl' Hf' Ha).
    rewrite (getStreamProcessInfo_active id w l i s Hl Hf Ha).
    unfold record_pids.
    destruct isWindows.
    + change (windows_info id (set_pid (f s) s)) with (windows_info id s).
      now rewrite oblivious_windows_info.
    + change (unix_info id (set_pid (f s) s)) with (unix_info id s).
      now rewrite oblivious_unix_info.
Qed.

Lemma C6_sample_matches_input_url_witness :
  (exists ok rest,
     events_since (Sim.airing (Some "111"))
       (snd (getStreamProcessInfo (R := Sim.posix) "s1" (Sim.airing (Some "111")))) =
     EvExec ("ps aux | grep " +:+ dq +:+ "http://src/news" +:+ dq +:+ " | grep -v grep") ok
     :: rest) /\
  (forall f, fst (getStreamProcessInfo (R := Sim.posix) "s1"
                    (record_pids f (Sim.airing (Some "111")))) =
             fst (getStreamProcessInfo (R := Sim.posix) "s1" (Sim.airing (Some "111")))).
Proof.
  apply (C6_sample_matches_input_url (R := Sim.posix) "s1" (Sim.airing (Some "111"))
           (Sim.on_air Sim.news (Some "111"))); reflexivity.
Defined.

(** ** System statistics *)

Ltac crunch :=
  repeat (run; cbn [fst snd];
          match goal with
          | |- context [os_exec ?c ?t] => destruct (os_exec c t) as [[?|?] ?]
          | |- context [match re_match ?a ?b ?c with _ => _ end] => destruct (re_match a b c)
          | |- context [if truthy ?x then _ else _] => destruct (truthy x)
          end).

Ltac refute_probe H :=
  exfalso; cbn in H;
  repeat match goal with
         | H : _ \/ _ |- _ => destruct H
         | H : False |- _ => destruct H
         | H : @eq string _ _ |- _ => discriminate H
         end.

Ltac placeholders :=
  intros ? ?; in_cases;
  match goal with H : EvExec _ false = EvExec _ false |- _ => injection H as <- end;
  unfold placeholder_from, no_memory, no_disk;
  cbn [v_cpu v_memTotal v_memUsed v_memFree v_diskTotal v_diskUsed v_diskFree v_uptimeString
       initial_vars set_cpu set_mem set_disk set_uptime];
  (split; [reflexivity|]);
  (split; [let H := fresh in intros H; first [repeat split; reflexivity | refute_probe H]|]);
  (split; [let H := fresh in intros H; first [repeat split; reflexivity | refute_probe H]|]);
  (let H := fresh in intros H; first [repeat split; reflexivity | refute_probe H]).

Ltac leaf :=
  run; cbn [fst snd];
  eexists _, _, _; split; [reflexivity|];
  split; [cbn [trace]; rewrite <- ?app_assoc; reflexivity|];
  placeholders.

Section SystemStats.
Context {R : Runtime}.

Lemma unix_stats_run isMac w :
  exists v w' evs,
    unix_stats isMac (initial_vars, w) = (Ok tt, (v, w')) /\
    trace w' = trace w ++ evs /\
    (forall c, In (EvExec c false) evs -> placeholder_from c v).
Proof.
  unfold unix_stats. destruct isMac.
  - crunch; leaf.
  - crunch; leaf.
Qed.

Lemma windows_stats_run w :
  exists v w' evs,
    windows_stats (initial_vars, w) = (Ok tt, (v, w')) /\
    trace w' = trace w ++ evs /\
    (forall c, In (EvExec c false) evs -> placeholder_from c v).
Proof. unfold windows_stats. crunch; leaf. Qed.

Lemma fallback_stats_run w :
  exists v w' evs,
    fallback_stats (initial_vars, w) = (Ok tt, (v, w')) /\
    trace w' = trace w ++ evs /\
    (forall c, In (EvExec c false) evs -> placeholder_from c v).
Proof.
  unfold fallback_stats. run. cbn [fst snd]. eexists _, _, [].
  split; [reflexivity|]. split; [now rewrite app_nil_r|]. intros c [].
Qed.

Lemma percent_of_zero : percent_of (lit 0) (lit 0) = lit 0.
Proof. unfold percent_of, lit. now rewrite gtb_zero. Qed.

Lemma report_no_memory v : no_memory v -> memory (report v) = zero_usage.
Proof.
  intros (H1 & H2 & H3). unfold report, zero_usage. cbn [memory].
  rewrite H1, H2, H3, percent_of_zero. unfold lit. now rewrite round_zero.
Qed.

Lemma report_no_disk v : no_disk v -> disk (report v) = zero_usage.
Proof.
  intros (H1 & H2 & H3). unfold report, zero_usage. cbn [disk].
  rewrite H1, H2, H3, percent_of_zero. unfold lit. now rewrite round_zero.
Qed.

Lemma report_placeholder c v : placeholder_from c v -> unavailable_from c (report v).
Proof.
  intros (Hu & Hc & Hm & Hd). unfold unavailable_from.
  split; [exact Hu|]. split; [|split].
  - intros H. destruct (Hc H) as (? & ? & ?).
    auto using report_no_memory, report_no_disk.
  - intros H. destruct (Hm H). auto using report_no_memory, report_no_disk.
  - intros H. auto using report_no_disk.
Qed.

(** [getSystemStats] never throws; the statistics of a probe that failed,
    and of the probes after it, are the zero placeholders *)
Lemma getSystemStats_run w :
  exists v w' evs,
    getSystemStats w = (Ok v, w') /\
    trace w' = trace w ++ evs /\
    (forall c, In (EvExec c false) evs -> unavailable_from c v).
Proof.
  assert (H : exists v w' evs,
             match platform with
             | Win32 => windows_stats
             | Darwin => unix_stats true
             | Linux => unix_stats false
             | OtherOS => fallback_stats
             end (initial_vars, w) = (Ok tt, (v, w')) /\
             trace w' = trace w ++ evs /\
             (forall c, In (EvExec c false) evs -> placeholder_from c v)).
  { destruct platform;
      [apply windows_stats_run | apply unix_stats_run | apply unix_stats_run
      | apply fallback_stats_run]. }
  destruct H as (v & w' & evs & Hrun & Ht & Hp).
  unfold getSystemStats, try_catch, bind, with_locals. rewrite Hrun. run.
  exists (report v), w', evs. split; [reflexivity|]. split; [exact Ht|].
  intros c Hc. apply report_placeholder, Hp, Hc.
Qed.

(** [getStreamProcessInfo] never throws, and reports [running: false] when
    a probe failed *)
Lemma degrades_getStreamProcessInfo id : degrades (getStreamProcessInfo id).
Proof.
  intros w. destruct (streams_file w) as [l|] eqn:Hl.
  - destruct (find_stream id l) as [[i s]|] eqn:Hf.
    + destruct (s_active s) eqn:Ha.
      * rewrite (getStreamProcessInfo_active id w l i s Hl Hf Ha).
        destruct isWindows; [apply degrades_windows_info | apply degrades_unix_info].
      * assert (Hrun : getStreamProcessInfo id w = (Ok not_running, w)).
        { unfold getStreamProcessInfo. unfold bind at 1.
          rewrite (getStreamById_readable id w l Hl), Hf.
          cbn [fmap option_fmap option_map snd]. now rewrite Ha. }
        rewrite Hrun. exists not_running, []. cbn [fst snd]. rewrite app_nil_r. auto.
    + assert (Hrun : getStreamProcessInfo id w = (Ok not_running, w)).
      { unfold getStreamProcessInfo. unfold bind at 1.
        now rewrite (getStreamById_readable id w l Hl), Hf. }
      rewrite Hrun. exists not_running, []. cbn [fst snd]. rewrite app_nil_r. auto.
  - unfold getStreamProcessInfo, getStreamById, getAllStreams. run. rewrite Hl. run.
    eexists not_running, _. split; [reflexivity|]. split; [reflexivity | auto].
Qed.

End SystemStats.

(** C8. When an OS probe fails, the statistics operations return
    placeholders instead of propagating the error. [getSystemStats] and
    [getStreamProcessInfo] always return a value. When a shell command of
    the metrics sample throws, the sample is [running: false]. When a shell
    command of the system statistics throws, the statistic it was to supply
    and those of the commands after it are reported as zero, and the uptime
    as the empty string. *)
Theorem C8_probe_failures_degrade `{R : Runtime} (w : World) :
  (exists v w', getSystemStats w = (Ok v, w')) /\
  (forall id, exists v w', getStreamProcessInfo id w = (Ok v, w')) /\
  (forall id c,
     In (EvExec c false) (events_since w (snd (getStreamProcessInfo id w))) ->
     fst (getStreamProcessInfo id w) = Ok not_running) /\
  (forall c,
     In (EvExec c false) (events_since w (snd (getSystemStats w))) ->
     exists v, fst (getSystemStats w) = Ok v /\ unavailable_from c v).
Proof.
  split; [|split; [|split]].
  - destruct (getSystemStats_run w) as (v & w' & evs & H & _). eauto.
  - intros id. destruct (degrades_getStreamProcessInfo id w) as (v & evs & Hv & _).
    destruct (getStreamProcessInfo id w) as [r w'] eqn:Hrun. cbn [fst] in Hv. subst r. eauto.
  - intros id c. destruct (degrades_getStreamProcessInfo id w) as (v & evs & Hv & Ht & Hd).
    rewrite (events_since_app w _ evs Ht), Hv. intros Hin. f_equal. eauto.
  - intros c. destruct (getSystemStats_run w) as (v & w' & evs & Hrun & Ht & Hp).
    rewrite Hrun. cbn [fst snd]. rewrite (events_since_app w w' evs Ht). eauto.
Qed.

Lemma C8_probe_failures_degrade_witness :
  (In (EvExec ("ps aux | grep " +:+ dq +:+ "http://src/news" +:+ dq +:+ " | grep -v grep") false)
      (events_since (Sim.airing None)
         (snd (getStreamProcessInfo (R := Sim.denied) "s1" (Sim.airing None)))) /\
   fst (getStreamProcessInfo (R := Sim.denied) "s1" (Sim.airing None)) = Ok not_running) /\
  In (EvExec "top -b -n 1 | grep '%Cpu'" false)
     (events_since Sim.idle (snd (getSystemStats (R := Sim.denied) Sim.idle))) /\
  exists v,
    fst (getSystemStats (R := Sim.denied) Sim.idle) = Ok v /\
    unavailable_from (R := Sim.denied) "top -b -n 1 | grep '%Cpu'" v.
Proof.
  assert (Hps : In (EvExec ("ps aux | grep " +:+ dq +:+ "http://src/news" +:+ dq
                            +:+ " | grep -v grep") false)
                   (events_since (Sim.airing None)
                      (snd (getStreamProcessInfo (R := Sim.denied) "s1" (Sim.airing None)))))
    by (vm_compute; auto).
  assert (H : In (EvExec "top -b -n 1 | grep '%Cpu'" false)
                 (events_since Sim.idle (snd (getSystemStats (R := Sim.denied) Sim.idle))))
    by (vm_compute; auto).
  split; [split; [exact Hps|]|split; [exact H|]].
  - exact (proj1 (proj2 (proj2 (C8_probe_failures_degrade (R := Sim.denied) (Sim.airing None))))
                 "s1" _ Hps).
  - exact (proj2 (proj2 (proj2 (C8_probe_failures_degrade (R := Sim.denied) Sim.idle))) _ H).
Defined.


(** * Further properties *)

(** ** Creating a stream *)

Section Creation.
Context {R : Runtime}.

Lemma getAllStreams_stored w :
  exists evs,
    getAllStreams w =
    (Ok (stored w), mkWorld (streams_file w) (files w) (procs w) (clock w) (trace w ++ evs)).
Proof.
  destruct w as [[l|] fs t c tr]; unfold getAllStreams, stored; run.
  - exists []. now rewrite app_nil_r.
  - eexists. reflexivity.
Qed.

Lemma lookup_app_new id (l : list IPTVStream) s :
  snd <$> find_stream id (l ++ [s]) =
  match snd <$> find_stream id l with
  | Some x => Some x
  | None => if String.eqb (s_id s) id then Some s else None
  end.
Proof.
  unfold find_stream. induction l as [|x l IH]; cbn [app list_find].
  - destruct (decide (s_id s = id)) as [H|H]; cbn.
    + now rewrite (proj2 (String.eqb_eq _ _) H).
    + now rewrite (proj2 (String.eqb_neq _ _) H).
  - destruct (decide (s_id x = id)); cbn; [reflexivity|].
    destruct (list_find _ (l ++ [s])) as [[i a]|]; destruct (list_find _ l) as [[j b]|];
      cbn in IH |- *; exact IH.
Qed.

(** what [addStream] does *)
Lemma addStream_run uuid d w :
  exists fs evs,
    addStream uuid d w =
    (Ok (mkStream uuid (in_name d) (in_key d) (in_link1 d) (in_rtmp d) (in_category1 d)
                  (in_bitrate d) (in_resolution d) false (in_pid d) (clock w) (clock w)),
     mkWorld (Some (stored w ++
                [mkStream uuid (in_name d) (in_key d) (in_link1 d) (in_rtmp d) (in_category1 d)
                          (in_bitrate d) (in_resolution d) false (in_pid d) (clock w) (clock w)]))
             fs (procs w) (clock w) (trace w ++ evs)) /\
    is_Some (fs !! logFileOf uuid) /\
    (exists f, fs !! scriptFileOf uuid = Some f /\
               content f =
               scriptContent
                 (mkStream uuid (in_name d) (in_key d) (in_link1 d) (in_rtmp d)
                           (in_category1 d) (in_bitrate d) (in_resolution d) false (in_pid d)
                           (clock w) (clock w))) /\
    (forall p, p <> logFileOf uuid -> p <> scriptFileOf uuid -> fs !! p = files w !! p).
Proof.
  unfold addStream. unfold bind at 1.
  destruct (getAllStreams_stored w) as (evs & ->).
  unfold createLogFile, createStreamScript. run. cbn [s_id].
  destruct (files w !! logFileOf uuid) as [f|] eqn:Hlog; run.
  - eexists _, _. rewrite <- !app_assoc. split; [reflexivity|].
    split; [|split].
    + rewrite lookup_insert. case_decide; [eauto | rewrite Hlog; eauto].
    + rewrite lookup_insert_eq. eauto.
    + intros p _ Hp. now rewrite lookup_insert_ne.
  - eexists _, _. rewrite <- !app_assoc. split; [reflexivity|].
    split; [|split].
    + rewrite lookup_insert. case_decide; [eauto | rewrite lookup_insert_eq; eauto].
    + rewrite lookup_insert_eq. eauto.
    + intros p Hp1 Hp2. now rewrite !lookup_insert_ne.
Qed.

End Creation.

(** X1. After [addStream] on a readable store, with a generated id that no
    stored stream has, the new stream is inactive, it is the stream its id
    denotes, every other id denotes what it did before, and the stream's
    log file exists and its script holds the script of the new stream. *)
Theorem addStream_then_lookup `{R : Runtime}
    (uuid : string) (d : StreamInput) (w : World) (l : list IPTVStream) :
  streams_file w = Some l ->
  find_stream uuid l = None ->
  exists s w',
    addStream uuid d w = (Ok s, w') /\
    s_id s = uuid /\ s_active s = false /\
    streams_file w' = Some (l ++ [s]) /\
    fst (getStreamById uuid w') = Ok (Some s) /\
    (forall id, id <> uuid -> fst (getStreamById id w') = fst (getStreamById id w)) /\
    is_Some (files w' !! logFileOf uuid) /\
    (exists f, files w' !! scriptFileOf uuid = Some f /\ content f = scriptContent s).
Proof.
  intros Hl Hfresh.
  destruct (addStream_run uuid d w) as (fs & evs & Hrun & Hlog & Hscript & _).
  unfold stored in Hrun. rewrite Hl in Hrun. change (default [] (Some l)) with l in Hrun.
  eexists _, _. split; [exact Hrun|]. cbn [s_id s_active streams_file files].
  split; [reflexivity|]. split; [reflexivity|]. split; [reflexivity|].
  split; [|split; [|split; assumption]].
  - erewrite getStreamById_readable by reflexivity. cbn [fst].
    rewrite lookup_app_new, Hfresh. cbn. now rewrite String.eqb_refl.
  - intros id Hid. erewrite getStreamById_readable by reflexivity.
    rewrite (getStreamById_readable id w l Hl). cbn [fst].
    rewrite lookup_app_new. destruct (snd <$> find_stream id l); [reflexivity|].
    cbn [s_id]. now rewrite (proj2 (String.eqb_neq _ _) (not_eq_sym Hid)).
Qed.

Lemma addStream_then_lookup_witness :
  exists s w',
    addStream (R := Sim.posix) "u1" Cases.sports Sim.idle = (Ok s, w') /\
    s_id s = "u1" /\ s_active s = false /\
    streams_file w' = Some ([Sim.news] ++ [s]) /\
    fst (getStreamById "u1" w') = Ok (Some s) /\
    (forall id, id <> "u1" -> fst (getStreamById id w') = fst (getStreamById id Sim.idle)) /\
    is_Some (files w' !! logFileOf (R := Sim.posix) "u1") /\
    (exists f, files w' !! scriptFileOf (R := Sim.posix) "u1" = Some f /\
               content f = scriptContent (R := Sim.posix) s).
Proof.
  apply (addStream_then_lookup (R := Sim.posix) "u1" Cases.sports Sim.idle [Sim.news]);
    reflexivity.
Defined.

(** X2. When the stream file cannot be read, the store counts as empty:
    update finds nothing, start, stop and delete answer [false], and they
    launch or kill no process and leave the file as it is. Only [addStream]
    writes: it replaces the unreadable file by a list that holds the new
    stream alone. *)
Theorem unreadable_store_counts_as_empty `{R : Runtime}
    (id uuid : string) (d : PartialStream) (input : StreamInput) (w : World) :
  streams_file w = None ->
  (fst (updateStream id d w) = Ok None /\ streams_file (snd (updateStream id d w)) = None) /\
  (fst (startStream id w) = Ok false /\ streams_file (snd (startStream id w)) = None /\
   procs (snd (startStream id w)) = procs w) /\
  (fst (stopStream id w) = Ok false /\ streams_file (snd (stopStream id w)) = None /\
   procs (snd (stopStream id w)) = procs w) /\
  (fst (deleteStream id w) = Ok false /\ streams_file (snd (deleteStream id w)) = None /\
   procs (snd (deleteStream id w)) = procs w) /\
  exists s, fst (addStream uuid input w) = Ok s /\
            streams_file (snd (addStream uuid input w)) = Some [s].
Proof.
  intros Hl. destruct w as [sf fs t c tr]. cbn in Hl. subst sf.
  split; [|split; [|split; [|split]]].
  - unfold updateStream, getAllStreams. run. auto.
  - unfold startStream, getStreamById, getAllStreams. run. auto.
  - unfold stopStream, getStreamById, getAllStreams. run. auto.
  - unfold deleteStream, stopStream, getStreamById, getAllStreams. run. auto.
  - destruct (addStream_run uuid input (mkWorld None fs t c tr)) as (fs' & evs & -> & _).
    eexists. split; reflexivity.
Qed.

Lemma unreadable_store_counts_as_empty_witness :
  (fst (updateStream (R := Sim.posix) "s1" Sim.retitle Cases.corrupt) = Ok None /\
   streams_file (snd (updateStream (R := Sim.posix) "s1" Sim.retitle Cases.corrupt)) = None) /\
  (fst (startStream (R := Sim.posix) "s1" Cases.corrupt) = Ok false /\
   streams_file (snd (startStream (R := Sim.posix) "s1" Cases.corrupt)) = None /\
   procs (snd (startStream (R := Sim.posix) "s1" Cases.corrupt)) = procs Cases.corrupt) /\
  (fst (stopStream (R := Sim.posix) "s1" Cases.corrupt) = Ok false /\
   streams_file (snd (stopStream (R := Sim.posix) "s1" Cases.corrupt)) = None /\
   procs (snd (stopStream (R := Sim.posix) "s1" Cases.corrupt)) = procs Cases.corrupt) /\
  (fst (deleteStream (R := Sim.posix) "s1" Cases.corrupt) = Ok false /\
   streams_file (snd (deleteStream (R := Sim.posix) "s1" Cases.corrupt)) = None /\
   procs (snd (deleteStream (R := Sim.posix) "s1" Cases.corrupt)) = procs Cases.corrupt) /\
  exists s, fst (addStream (R := Sim.posix) "u1" Cases.sports Cases.corrupt) = Ok s /\
            streams_file (snd (addStream (R := Sim.posix) "u1" Cases.sports Cases.corrupt)) =
              Some [s].
Proof.
  apply (unreadable_store_counts_as_empty (R := Sim.posix) "s1" "u1" Sim.retitle Cases.sports
           Cases.corrupt).
  reflexivity.
Defined.

(** ** The create route *)

(** X3. [POST /api/streams] answers 400 and changes nothing when the name,
    the input URL, the key or the RTMP URL is missing or empty. Otherwise it
    never answers with an error: it stores and returns a new inactive
    stream with the given four fields, where an empty or missing bitrate,
    resolution and category become [1000k], [1280x720] and
    [Uncategorized]. *)
Theorem POST_streams_validates_and_defaults `{R : Runtime}
    (uuid : string) (data : FormBody) (w : World) :
  (given (b_name data) && given (b_link1 data) && given (b_key data) && given (b_rtmp data)
   = false ->
   POST_streams uuid data w = (Ok (JsonError "Missing required fields" 400), w)) /\
  (forall name link1 key rtmp,
     b_name data = Some name -> b_link1 data = Some link1 ->
     b_key data = Some key -> b_rtmp data = Some rtmp ->
     truthy name = true -> truthy link1 = true -> truthy key = true -> truthy rtmp = true ->
     exists w',
       POST_streams uuid data w =
       (Ok (JsonStream
              (mkStream uuid name key link1 rtmp
                        (or_else (b_category1 data) "Uncategorized")
                        (or_else (b_bitrate data) "1000k")
                        (or_else (b_resolution data) "1280x720")
                        false None (clock w) (clock w))), w') /\
       stored w' = stored w ++
         [mkStream uuid name key link1 rtmp
                   (or_else (b_category1 data) "Uncategorized")
                   (or_else (b_bitrate data) "1000k")
                   (or_else (b_resolution data) "1280x720")
                   false None (clock w) (clock w)]).
Proof.
  split.
  - intros H. unfold POST_streams, try_catch.
    destruct (given (b_name data)), (given (b_link1 data)), (given (b_key data)),
      (given (b_rtmp data)); try discriminate H; reflexivity.
  - intros name link1 key rtmp Hn Hl Hk Hr Tn Tl Tk Tr.
    unfold POST_streams, try_catch. rewrite Hn, Hl, Hk, Hr. cbn [given or_else].
    rewrite Tn, Tl, Tk, Tr. cbn [negb orb]. unfold bind at 1.
    match goal with |- context [addStream uuid ?d w] =>
      destruct (addStream_run uuid d w) as (fs & evs & -> & _)
    end.
    cbn [in_name in_key in_link1 in_rtmp in_category1 in_bitrate in_resolution in_pid].
    eexists. split; reflexivity.
Qed.

Lemma POST_streams_validates_and_defaults_witness :
  POST_streams (R := Sim.posix) "u1" Cases.no_key Sim.idle =
    (Ok (JsonError "Missing required fields" 400), Sim.idle) /\
  exists w',
    POST_streams (R := Sim.posix) "u1" Cases.form Sim.idle =
    (Ok (JsonStream
           (mkStream "u1" "Sports" "live2" "http://src/sports" "rtmp://out/app"
                     "Uncategorized" "1000k" "1280x720" false None 5000 5000)), w') /\
    stored w' = [Sim.news;
                 mkStream "u1" "Sports" "live2" "http://src/sports" "rtmp://out/app"
                          "Uncategorized" "1000k" "1280x720" false None 5000 5000].
Proof.
  split.
  - apply (POST_streams_validates_and_defaults (R := Sim.posix) "u1" Cases.no_key Sim.idle).
    reflexivity.
  - apply (proj2 (POST_streams_validates_and_defaults (R := Sim.posix) "u1" Cases.form
                    Sim.idle) "Sports" "http://src/sports" "live2" "rtmp://out/app");
      reflexivity.
Defined.

(** ** Clearing and appending to a log *)

Section LogFiles.
Context {R : Runtime}.

Lemma blank_line_is_no_record :
  JSON_parse "" = None -> omap JSON_parse (List.filter nonblank [""]) = [].
Proof. intros H. cbn. destruct (nonblank ""); cbn; [now rewrite H | reflexivity]. Qed.

Lemma append_assoc (a b c : string) : (a +:+ b) +:+ c = a +:+ (b +:+ c).
Proof.
  induction a as [|x a IH]; [reflexivity|].
  change (String x ((a +:+ b) +:+ c) = String x (a +:+ (b +:+ c))). now rewrite IH.
Qed.

Lemma ends_with_LF_split c :
  ends_with_LF c = true -> exists c0, c = c0 +:+ nl.
Proof.
  induction c as [|x c IH]; [discriminate|]. destruct c as [|y c].
  - cbn. intros H%Ascii.eqb_eq. subst x. now exists "".
  - intros H. destruct (IH H) as [c0 Hc0]. exists (String x c0).
    change (String x (String y c) = String x (c0 +:+ nl)). now rewrite <- Hc0.
Qed.

Lemma log_records_of_file id w f :
  files w !! logFileOf id = Some f -> readable f = true ->
  log_records id w = omap JSON_parse (List.filter nonblank (split_lines (content f))).
Proof. intros Hf Hr. unfold log_records. now rewrite Hf, Hr. Qed.

(** the records of a text that ends in a line feed, or is empty *)
Lemma records_of_complete_lines c line v :
  JSON_parse "" = None -> JSON_parse line = Some v ->
  one_line line = true -> nonblank line = true ->
  c = "" \/ ends_with_LF c = true ->
  omap JSON_parse (List.filter nonblank (split_lines (c +:+ (line +:+ nl)))) =
  omap JSON_parse (List.filter nonblank (split_lines c)) ++ [v].
Proof.
  intros Hblank Hv Hone Hnb [-> | Hc].
  - unfold nl. change ("" +:+ (line +:+ String LF "")) with (line +:+ String LF "").
    rewrite split_lines_app, (split_lines_one line Hone).
    change (split_lines "") with [""].
    rewrite List.filter_app, omap_app, (blank_line_is_no_record Hblank), app_nil_r.
    cbn. rewrite Hnb. cbn. now rewrite Hv.
  - destruct (ends_with_LF_split c Hc) as [c0 ->]. unfold nl.
    rewrite append_assoc.
    change (String LF "" +:+ (line +:+ String LF ""))
      with (String LF (line +:+ String LF "")).
    rewrite !split_lines_app, (split_lines_one line Hone).
    change (split_lines "") with [""].
    rewrite !List.filter_app, !omap_app, (blank_line_is_no_record Hblank), !app_nil_r.
    f_equal. cbn. rewrite Hnb. cbn. now rewrite Hv.
Qed.

End LogFiles.

(** X4. [clearStreamLogs] answers [false] and changes nothing when the
    log file does not exist, and the route then answers 500. When the file
    exists it answers [true]; afterwards log retrieval returns the empty
    list for every limit, and the stream records, the processes and the
    other files are as before. *)
Theorem clearStreamLogs_empties_the_log `{R : Runtime} (id : string) (w : World) :
  (files w !! logFileOf id = None ->
   clearStreamLogs id w = (Ok false, w) /\
   fst (DELETE_logs id w) = Ok (JsonError "Failed to clear logs" 500)) /\
  (is_Some (files w !! logFileOf id) -> JSON_parse "" = None ->
   exists w',
     clearStreamLogs id w = (Ok true, w') /\
     (forall limit, fst (getStreamLogs id limit w') = Ok []) /\
     streams_file w' = streams_file w /\ procs w' = procs w /\
     (forall p, p <> logFileOf id -> files w' !! p = files w !! p)).
Proof.
  split.
  - intros Hf. unfold DELETE_logs, clearStreamLogs. run. rewrite Hf. run.
    split; [now destruct w | reflexivity].
  - intros [f Hf] Hblank. unfold clearStreamLogs. run. rewrite Hf. run.
    eexists. split; [reflexivity|]. cbn [streams_file procs files].
    split; [|split; [reflexivity|split; [reflexivity|]]].
    + intros limit.
      match goal with |- context [getStreamLogs id limit ?w1] =>
        destruct (getStreamLogs_spec id limit w1) as [w2 ->]
      end.
      cbn [fst]. unfold log_records. cbn [files].
      rewrite lookup_insert_eq, ?Hf. cbn [readable content].
      destruct (readable f).
      * change (split_lines "") with [""]. rewrite (blank_line_is_no_record Hblank).
        destruct limit; unfold up_to; rewrite ?reverse_nil, ?take_nil; reflexivity.
      * destruct limit; unfold up_to; rewrite ?reverse_nil, ?take_nil; reflexivity.
    + intros p Hp. now rewrite lookup_insert_ne.
Qed.

Lemma clearStreamLogs_empties_the_log_witness :
  (clearStreamLogs (R := Sim.posix) "s1" Sim.idle = (Ok false, Sim.idle) /\
   fst (DELETE_logs (R := Sim.posix) "s1" Sim.idle) = Ok (JsonError "Failed to clear logs" 500)) /\
  exists w',
    clearStreamLogs (R := Sim.posix) "s1" Sim.logged = (Ok true, w') /\
    (forall limit, fst (getStreamLogs (R := Sim.posix) "s1" limit w') = Ok []) /\
    streams_file w' = streams_file Sim.logged /\ procs w' = procs Sim.logged /\
    (forall p, p <> logFileOf (R := Sim.posix) "s1" -> files w' !! p = files Sim.logged !! p).
Proof.
  split.
  - apply (clearStreamLogs_empties_the_log (R := Sim.posix) "s1" Sim.idle). reflexivity.
  - apply (proj2 (clearStreamLogs_empties_the_log (R := Sim.posix) "s1" Sim.logged));
      [vm_compute; eauto | reflexivity].
Defined.

(** X5. An entry appended with [appendToLog] is the newest record of the
    log: when the log is missing, empty or ends in a line feed, and the
    entry's JSON text is one non-blank line that parses back to [v], log
    retrieval afterwards returns [v] followed by the earlier records, cut
    at the limit. *)
Theorem appendToLog_is_newest_record `{R : Runtime}
    (id : string) (e : LogEntry) (v : JSValue) (N : Z) (w : World) :
  JSON_parse "" = None ->
  JSON_parse (JSON_stringify e) = Some v ->
  one_line (JSON_stringify e) = true ->
  nonblank (JSON_stringify e) = true ->
  (files w !! logFileOf id = None \/
   exists f, files w !! logFileOf id = Some f /\ readable f = true /\
             (content f = "" \/ ends_with_LF (content f) = true)) ->
  fst (getStreamLogs id (Int N) (snd (appendToLog id e w))) =
  Ok (take (Z.to_nat N) (v :: reverse (log_records id w))).
Proof.
  intros Hblank Hv Hone Hnb Hfile.
  assert (Hrec : forall c,
            omap JSON_parse (List.filter nonblank (split_lines c)) = log_records id w ->
            c = "" \/ ends_with_LF c = true ->
            omap JSON_parse
              (List.filter nonblank (split_lines (c +:+ (JSON_stringify e +:+ nl)))) =
            log_records id w ++ [v]).
  { intros c Hc Hend. rewrite <- Hc. now apply records_of_complete_lines. }
  assert (Hnew : log_records id (snd (appendToLog id e w)) = log_records id w ++ [v]).
  { unfold appendToLog. run.
    destruct Hfile as [Hf | (f & Hf & Hr & Hend)]; rewrite Hf; run.
    - rewrite lookup_insert_eq. cbn [content readable].
      unfold log_records at 1. cbn [files]. rewrite lookup_insert_eq. cbn [readable content].
      rewrite Hf. cbv beta iota.
      apply (Hrec ""); [|now left].
      unfold log_records. rewrite Hf. change (split_lines "") with [""].
      apply (blank_line_is_no_record Hblank).
    - unfold log_records at 1. cbn [files]. rewrite lookup_insert_eq, ?Hf.
      cbn [readable content]. rewrite Hr. apply (Hrec (content f)); [|exact Hend].
      symmetry. now apply log_records_of_file. }
  destruct (getStreamLogs_spec id (Int N) (snd (appendToLog id e w))) as [w2 ->].
  cbn [fst up_to]. rewrite Hnew, reverse_app. reflexivity.
Qed.

Lemma appendToLog_is_newest_record_witness :
  fst (getStreamLogs (R := Sim.posix) "s1" (Int 2)
         (snd (appendToLog (R := Sim.posix) "s1" (mkLog 7000 "Stream started" info) Sim.logged))) =
  Ok (take (Z.to_nat 2)
        (Sim.json_stringify (mkLog 7000 "Stream started" info)
         :: reverse (log_records (R := Sim.posix) "s1" Sim.logged))).
Proof.
  apply (appendToLog_is_newest_record (R := Sim.posix) "s1" (mkLog 7000 "Stream started" info));
    try reflexivity.
  right. eexists. split; [vm_compute; reflexivity|]. split; [reflexivity|].
  right. vm_compute. reflexivity.
Defined.

(** ** The limit parameter of the log route *)

(** X6. [GET /api/streams/[id]/logs] never answers with an error. Without
    a [limit] parameter, or with an empty one, it serves the 100 newest
    records. A parameter that does not read as a number, or that reads as
    zero or less, yields the empty list. *)
Theorem GET_logs_limit_parameter `{R : Runtime} (id : string) (w : World) :
  (forall limitParam, exists logs w', GET_logs id limitParam w = (Ok (JsonLogs logs), w')) /\
  GET_logs id (Some "") w = GET_logs id None w /\
  fst (GET_logs id None w) = Ok (JsonLogs (take 100 (reverse (log_records id w)))) /\
  (forall p, truthy p = true -> parseInt p = NaN ->
             fst (GET_logs id (Some p) w) = Ok (JsonLogs [])) /\
  (forall p N, truthy p = true -> parseInt p = Int N -> N <= 0 ->
               fst (GET_logs id (Some p) w) = Ok (JsonLogs [])).
Proof.
  split; [|split; [reflexivity|split; [|split]]].
  - intros limitParam. unfold GET_logs, try_catch, bind.
    match goal with |- context [getStreamLogs id ?l w] =>
      destruct (getStreamLogs_spec id l w) as [w' ->]
    end. eauto.
  - unfold GET_logs, try_catch, bind, default_limit.
    destruct (getStreamLogs_spec id (Int 100) w) as [w' ->]. reflexivity.
  - intros p Hp HN. unfold GET_logs, try_catch, bind. rewrite Hp, HN.
    destruct (getStreamLogs_spec id NaN w) as [w' ->]. reflexivity.
  - intros p N Hp HN Hle. unfold GET_logs, try_catch, bind. rewrite Hp, HN.
    destruct (getStreamLogs_spec id (Int N) w) as [w' ->]. cbn.
    replace (Z.to_nat N) with 0%nat by lia. now rewrite take_0.
Qed.

Lemma GET_logs_limit_parameter_witness :
  fst (GET_logs (R := Sim.posix) "s1" (Some "all") Sim.logged) = Ok (JsonLogs []) /\
  fst (GET_logs (R := Sim.posix) "s1" (Some "0") Sim.logged) = Ok (JsonLogs []).
Proof.
  split.
  - apply (GET_logs_limit_parameter (R := Sim.posix) "s1" Sim.logged); reflexivity.
  - apply (proj2 (proj2 (proj2 (proj2 (GET_logs_limit_parameter (R := Sim.posix) "s1"
                                          Sim.logged)))) "0" 0); [reflexivity | reflexivity | lia].
Defined.

(** ** The answers of the routes *)

Section Routes.
Context {R : Runtime}.

Lemma updateStream_returns id d w : exists r w', updateStream id d w = (Ok r, w').
Proof.
  unfold updateStream. unfold bind at 1. destruct (getAllStreams_stored w) as (evs & ->).
  destruct (find_stream id (stored w)) as [[i s]|]; [|eexists _, _; reflexivity].
  unfold createStreamScript. run.
  destruct (given (p_link1 d) || given (p_rtmp d) || given (p_key d)
            || given (p_bitrate d) || given (p_resolution d)); run; eauto.
Qed.

Lemma restartStream_returns id w : exists r w', restartStream id w = (Ok r, w').
Proof.
  unfold restartStream. unfold bind at 1.
  destruct (stopStream_run id w) as (r1 & sf & fs & t & evs & ->).
  unfold bind at 1. unfold sleep at 1. run.
  match goal with |- context [startStream id ?w1] =>
    destruct (startStream_run id w1) as (r & sf' & fs' & t' & evs' & -> & _)
  end. eauto.
Qed.

Lemma deleteStream_returns id w : exists r w', deleteStream id w = (Ok r, w').
Proof.
  unfold deleteStream. unfold bind at 1.
  destruct (stopStream_run id w) as (r1 & sf & fs & t & evs & ->).
  unfold bind at 1.
  match goal with |- context [getAllStreams ?w1] =>
    destruct (getAllStreams_stored w1) as (evs' & ->)
  end.
  match goal with |- context [if ?c then _ else _] => destruct c end;
    [eexists _, _; reflexivity|].
  run.
  match goal with |- context [match ?x !! scriptFileOf id with _ => _ end] =>
    destruct (x !! scriptFileOf id)
  end; run;
  match goal with |- context [match ?x !! logFileOf id with _ => _ end] =>
    destruct (x !! logFileOf id)
  end; run; eauto.
Qed.

End Routes.



(** ** How the operations compose, and what they leave alone *)

Section Frames.
Context {R : Runtime}.

Lemma other_insert id' (l : list IPTVStream) : forall i s s',
  l !! i = Some s -> s_id s' = s_id s -> id' <> s_id s ->
  snd <$> find_stream id' (<[i := s']> l) = snd <$> find_stream id' l.
Proof.
  unfold find_stream. induction l as [|x l IH]; intros i s s' Hi Hid Hne; [discriminate|].
  destruct i as [|i]; cbn in Hi |- *.
  - injection Hi as ->.
    destruct (decide (s_id s' = id')) as [H|H]; [congruence|].
    destruct (decide (s_id s = id')) as [H'|H']; [congruence|]. reflexivity.
  - destruct (decide (s_id x = id')); [reflexivity|]. cbn.
    specialize (IH i s s' Hi Hid Hne).
    destruct (list_find _ (<[i:=s']> l)) as [[]|]; destruct (list_find _ l) as [[]|];
      cbn in IH |- *; exact IH.
Qed.

Lemma other_filter id id' (l : list IPTVStream) :
  id' <> id ->
  snd <$> find_stream id' (List.filter (fun s => negb (String.eqb (s_id s) id)) l) =
  snd <$> find_stream id' l.
Proof.
  intros Hne. unfold find_stream. induction l as [|x l IH]; [reflexivity|].
  cbn [List.filter]. destruct (String.eqb_spec (s_id x) id) as [Hx|Hx]; cbn [negb list_find].
  - destruct (decide (s_id x = id')); [congruence|]. cbn.
    destruct (list_find _ (List.filter _ l)) as [[]|]; destruct (list_find _ l) as [[]|];
      cbn in IH |- *; exact IH.
  - destruct (decide (s_id x = id')); [reflexivity|]. cbn.
    destruct (list_find _ (List.filter _ l)) as [[]|]; destruct (list_find _ l) as [[]|];
      cbn in IH |- *; exact IH.
Qed.

Lemma appendToLog_effect id e w :
  exists fs pre,
    appendToLog id e w =
    (Ok tt, mkWorld (streams_file w) fs (procs w) (clock w)
                    (trace w ++ pre ++ [EvAppendFile (logFileOf id) (JSON_stringify e +:+ nl)])) /\
    (forall p, p <> logFileOf id -> fs !! p = files w !! p).
Proof.
  unfold appendToLog. run.
  destruct (files w !! logFileOf id) as [f|] eqn:Hf; run.
  - rewrite Hf. eexists _, []. split; [reflexivity|].
    intros p Hp. now rewrite lookup_insert_ne.
  - rewrite lookup_insert_eq. eexists _, [_]. rewrite <- app_assoc. split; [reflexivity|].
    intros p Hp. now rewrite !lookup_insert_ne.
Qed.

(** the store and the files after [stopStream] on a stream of the store *)
Lemma stopStream_effect id w l i s :
  streams_file w = Some l -> find_stream id l = Some (i, s) ->
  exists fs t tr,
    stopStream id w =
    (Ok true, mkWorld (Some (<[i := spread s (activate false) (clock w)]> l)) fs t (clock w) tr) /\
    (forall p, p <> logFileOf id -> fs !! p = files w !! p).
Proof.
  intros Hl Hf. unfold stopStream. unfold bind at 1.
  rewrite (getStreamById_readable id w l Hl), Hf. cbn [fmap option_fmap option_map snd].
  unfold try_catch. unfold bind at 1.
  destruct (exec_all_run (kill_commands s) w) as (r & t & evs & -> & _).
  destruct r as [[]|e].
  - unfold bind at 1. erewrite updateStream_activate by (cbn; eauto).
    cbn [streams_file files procs clock trace]. run.
    match goal with |- context [appendToLog id ?e ?w1] =>
      destruct (appendToLog_effect id e w1) as (fs & pre & -> & Hfr)
    end.
    cbn [streams_file files procs clock trace] in *. eauto.
  - run.
    match goal with |- context [appendToLog id ?e ?w1] =>
      destruct (appendToLog_effect id e w1) as (fs & pre & -> & Hfr)
    end.
    cbn [streams_file files procs clock trace] in *.
    erewrite updateStream_activate by (cbn; eauto).
    cbn [streams_file files procs clock trace]. eauto.
Qed.

(** the store, the files and the processes after [deleteStream] *)
Lemma deleteStream_effect id w l i s :
  streams_file w = Some l -> find_stream id l = Some (i, s) ->
  exists w',
    deleteStream id w = (Ok true, w') /\
    streams_file w' =
      Some (List.filter (fun x => negb (String.eqb (s_id x) id))
                        (<[i := spread s (activate false) (clock w)]> l)) /\
    (forall p, p <> logFileOf id -> p <> scriptFileOf id -> files w' !! p = files w !! p).
Proof.
  intros Hl Hf.
  destruct (stopStream_effect id w l i s Hl Hf) as (fs & t & tr & Hstop & Hfr).
  set (l1 := <[i := spread s (activate false) (clock w)]> l) in *.
  assert (Hlt : (length (List.filter (fun s => negb (String.eqb (s_id s) id)) l1)
                 < length l1)%nat).
  { apply (filter_shrinks _ l1 i (spread s (activate false) (clock w))).
    - apply list_lookup_insert_eq. eapply lookup_lt_Some, find_stream_lookup; eauto.
    - cbn. rewrite (find_stream_id _ _ _ _ Hf). now rewrite String.eqb_refl. }
  unfold deleteStream. unfold bind at 1. rewrite Hstop. unfold bind at 1.
  erewrite getAllStreams_readable by reflexivity.
  destruct (Nat.eqb_spec
              (length (List.filter (fun s => negb (String.eqb (s_id s) id)) l1))
              (length l1)) as [Heq|_]; [lia|].
  run.
  destruct (fs !! scriptFileOf id) as [f1|] eqn:H1; run.
  - destruct (delete (scriptFileOf id) fs !! logFileOf id) as [f2|] eqn:H2; run;
      (eexists; split; [reflexivity|]; split; [reflexivity|]; cbn [files];
       intros p Hp1 Hp2; rewrite ?lookup_delete_ne by congruence; now apply Hfr).
  - destruct (fs !! logFileOf id) as [f2|] eqn:H2; run;
      (eexists; split; [reflexivity|]; split; [reflexivity|]; cbn [files];
       intros p Hp1 Hp2; rewrite ?lookup_delete_ne by congruence; now apply Hfr).
Qed.

End Frames.

(** X8. A second start does nothing: whenever [startStream] returned
    [true], calling it again returns [true] and leaves every part of the
    state, the process table included, as the first call left it. *)
Theorem startStream_twice `{R : Runtime} (id : string) (w w1 : World) :
  startStream id w = (Ok true, w1) ->
  startStream id w1 = (Ok true, w1).
Proof.
  intros Hrun. destruct (streams_file w) as [l|] eqn:Hl.
  - destruct (find_stream id l) as [[i s]|] eqn:Hf.
    + destruct (s_active s) eqn:Ha.
      * assert (Hsame : startStream id w = (Ok true, w)).
        { unfold startStream. unfold bind at 1.
          rewrite (getStreamById_readable id w l Hl), Hf.
          cbn [fmap option_fmap option_map snd]. now rewrite Ha. }
        rewrite Hsame in Hrun. injection Hrun as <-. exact Hsame.
      * destruct (startStream_inactive id w l i s Hl Hf Ha) as (fs & evs & Hs & _).
        rewrite Hs in Hrun.
        destruct (os_spawn_error _ _ (procs w)); [discriminate|].
        injection Hrun as <-.
        unfold startStream. unfold bind at 1.
        erewrite getStreamById_readable by reflexivity.
        erewrite find_stream_insert; [reflexivity | exact Hf |].
        cbn. eapply find_stream_id; eauto.
    + unfold startStream in Hrun. unfold bind at 1 in Hrun.
      rewrite (getStreamById_readable id w l Hl), Hf in Hrun. discriminate.
  - revert Hrun. unfold startStream, getStreamById, getAllStreams. run. rewrite Hl. run.
    discriminate.
Qed.

Lemma startStream_twice_witness :
  startStream (R := Sim.posix) "s1"
    (snd (startStream (R := Sim.posix) "s1" Sim.idle)) =
  (Ok true, snd (startStream (R := Sim.posix) "s1" Sim.idle)).
Proof.
  apply (startStream_twice (R := Sim.posix) "s1" Sim.idle). vm_compute. reflexivity.
Defined.

(** X9. A restart launches a transcoder whether or not the stream was
    running: for every stream of the store, when the spawn does not throw,
    [restartStream] returns [true], adds exactly one process with the
    stream's command line to the process table that the stop left, and
    leaves the record marked active. *)
Theorem restartStream_always_launches `{R : Runtime}
    (id : string) (w : World) (s : IPTVStream) :
  fst (getStreamById id w) = Ok (Some s) ->
  os_spawn_error (fst (launch_command id s)) (snd (launch_command id s))
                 (procs (snd (stopStream id w))) = None ->
  exists w',
    restartStream id w = (Ok true, w') /\
    procs w' = procs (snd (stopStream id w)) ++
      [mkProc (fresh_pid (procs (snd (stopStream id w)))) id
              (fst (launch_command id s)) (snd (launch_command id s)) true] /\
    exists s', fst (getStreamById id w') = Ok (Some s') /\ s_active s' = true.
Proof.
  intros Hs. destruct (getStreamById_found id w s Hs) as (l & i & Hl & Hf).
  destruct (stopStream_effect id w l i s Hl Hf) as (fs & t & tr & Hstop & _).
  rewrite Hstop. cbn [snd procs]. intros Hsp.
  unfold restartStream. unfold bind at 1. rewrite Hstop. unfold bind at 1.
  unfold sleep at 1. run.
  set (s1 := spread s (activate false) (clock w)).
  match goal with |- context [startStream id ?w2] =>
    destruct (startStream_inactive id w2 (<[i := s1]> l) i s1) as (fs' & evs & Hrun & _)
  end.
  - reflexivity.
  - apply (find_stream_insert id l i s); [exact Hf|].
    cbn. eapply find_stream_id; eauto.
  - reflexivity.
  - cbn [procs] in Hrun.
    change (launch_command id s1) with (launch_command id s) in Hrun.
    rewrite Hsp in Hrun. rewrite Hrun.
    eexists. split; [reflexivity|]. split; [reflexivity|].
    eexists. erewrite getStreamById_readable by reflexivity. cbn [fst].
    erewrite find_stream_insert; [split; reflexivity | |].
    + apply (find_stream_insert id l i s); [exact Hf|]. cbn. eapply find_stream_id; eauto.
    + cbn. eapply find_stream_id; eauto.
Qed.

Lemma restartStream_always_launches_witness :
  exists w',
    restartStream (R := Sim.posix) "s1" Sim.idle = (Ok true, w') /\
    procs w' = procs (snd (stopStream (R := Sim.posix) "s1" Sim.idle)) ++
      [mkProc (fresh_pid (procs (snd (stopStream (R := Sim.posix) "s1" Sim.idle)))) "s1"
              (fst (launch_command (R := Sim.posix) "s1" Sim.news))
              (snd (launch_command (R := Sim.posix) "s1" Sim.news)) true] /\
    exists s', fst (getStreamById "s1" w') = Ok (Some s') /\ s_active s' = true.
Proof.
  apply (restartStream_always_launches (R := Sim.posix) "s1" Sim.idle Sim.news); reflexivity.
Defined.

(** X10. Deleting a stream leaves the others alone: after [deleteStream]
    of a stream of the store, every other id denotes the record it denoted
    before, and every file except the deleted stream's script and log is as
    it was. *)
Theorem deleteStream_leaves_others `{R : Runtime}
    (id : string) (w : World) (s : IPTVStream) :
  fst (getStreamById id w) = Ok (Some s) ->
  exists w',
    deleteStream id w = (Ok true, w') /\
    (forall id', id' <> id -> fst (getStreamById id' w') = fst (getStreamById id' w)) /\
    (forall p, p <> logFileOf id -> p <> scriptFileOf id -> files w' !! p = files w !! p).
Proof.
  intros Hs. destruct (getStreamById_found id w s Hs) as (l & i & Hl & Hf).
  destruct (deleteStream_effect id w l i s Hl Hf) as (w' & Hdel & Hl' & Hfr).
  exists w'. split; [exact Hdel|]. split; [|exact Hfr].
  intros id' Hne. rewrite (getStreamById_readable id' w' _ Hl'),
    (getStreamById_readable id' w l Hl). cbn [fst]. f_equal.
  rewrite other_filter by exact Hne.
  apply (other_insert id' l i s).
  - eapply find_stream_lookup; eauto.
  - reflexivity.
  - rewrite (find_stream_id _ _ _ _ Hf). exact Hne.
Qed.

Lemma deleteStream_leaves_others_witness :
  exists w',
    deleteStream (R := Sim.posix) "s1" Cases.pair = (Ok true, w') /\
    (forall id', id' <> "s1" ->
                 fst (getStreamById id' w') = fst (getStreamById id' Cases.pair)) /\
    (forall p, p <> logFileOf (R := Sim.posix) "s1" -> p <> scriptFileOf (R := Sim.posix) "s1" ->
               files w' !! p = files Cases.pair !! p).
Proof.
  apply (deleteStream_leaves_others (R := Sim.posix) "s1" Cases.pair Sim.news). reflexivity.
Defined.

(** X11. [updateStream] rewrites one record and nothing else of the
    store: the list keeps its length and every other position, the new
    record carries the current time as [updatedAt], and no process is
    touched. The stream's script is rewritten, from the updated record,
    exactly when the update gives a non-empty input URL, RTMP URL, key,
    bitrate or resolution; otherwise no file changes (so an update that
    sets one of these fields to the empty string leaves the old script). *)
Theorem updateStream_rewrites_one_record `{R : Runtime}
    (id : string) (d : PartialStream) (w : World) (l : list IPTVStream)
    (i : nat) (s : IPTVStream) :
  streams_file w = Some l ->
  find_stream id l = Some (i, s) ->
  exists s' w',
    updateStream id d w = (Ok (Some s'), w') /\
    s' = spread s d (clock w) /\ s_updatedAt s' = clock w /\
    streams_file w' = Some (<[i := s']> l) /\
    length (<[i := s']> l) = length l /\
    (forall j, j <> i -> <[i := s']> l !! j = l !! j) /\
    procs w' = procs w /\
    (script_fields_given d = false -> files w' = files w) /\
    (script_fields_given d = true ->
     (exists f, files w' !! scriptFileOf (s_id s') = Some f /\ content f = scriptContent s') /\
     forall p, p <> scriptFileOf (s_id s') -> files w' !! p = files w !! p).
Proof.
  intros Hl Hf. unfold updateStream. unfold bind at 1.
  rewrite (getAllStreams_readable w l Hl), Hf. unfold createStreamScript. run.
  fold (script_fields_given d).
  destruct (script_fields_given d); run;
    (eexists _, _; split; [reflexivity|]; split; [reflexivity|]; split; [reflexivity|];
     cbn [streams_file files procs]; split; [reflexivity|];
     split; [apply length_insert|];
     split; [intros j Hj; apply list_lookup_insert_ne; congruence|];
     split; [reflexivity|]).
  - split; [discriminate|]. intros _. split.
    + rewrite lookup_insert_eq. eauto.
    + intros p Hp. now rewrite lookup_insert_ne.
  - split; [reflexivity | discriminate].
Qed.

Lemma updateStream_rewrites_one_record_witness :
  exists s' w',
    updateStream (R := Sim.posix) "s2" Sim.retitle Cases.pair = (Ok (Some s'), w') /\
    streams_file w' = Some [Sim.news; s'] /\
    exists f, files w' !! scriptFileOf (R := Sim.posix) (s_id s') = Some f /\
              content f = scriptContent (R := Sim.posix) s'.
Proof.
  destruct (updateStream_rewrites_one_record (R := Sim.posix) "s2" Sim.retitle Cases.pair
              [Sim.news; Cases.movies] 1 Cases.movies eq_refl eq_refl)
    as (s' & w' & Hrun & _ & _ & Hl & _ & _ & _ & _ & Hscript).
  exists s', w'. split; [exact Hrun|]. split; [exact Hl|].
  apply Hscript. reflexivity.
Defined.

(** ** Stream statistics *)

Section StreamStats.
Context {R : Runtime}.
Variable get_type : JSValue -> Result (option string).

Lemma getStreamLogs_effect id limit w :
  exists evs,
    getStreamLogs id limit w =
    (Ok (up_to limit (reverse (log_records id w))),
     mkWorld (streams_file w) (files w) (procs w) (clock w) (trace w ++ evs)).
Proof.
  destruct w as [sf fs t c tr]. unfold getStreamLogs, log_records. run.
  destruct (fs !! logFileOf id) as [f|] eqn:Hf; run.
  - rewrite Hf. destruct (readable f); run.
    + exists []. rewrite app_nil_r. destruct limit as [|N]; simpl up_to.
      * now rewrite parse_loop_NaN.
      * rewrite parse_loop_spec by lia. cbn [length app].
        rewrite Nat.sub_0_r, firstn_all. reflexivity.
    + eexists. destruct limit; unfold up_to; rewrite ?reverse_nil, ?take_nil; reflexivity.
  - exists []. rewrite app_nil_r.
    destruct limit; unfold up_to; rewrite ?reverse_nil, ?take_nil; reflexivity.
Qed.

Lemma health_loop_sum active : forall health w health' w',
  health_loop get_type active health w = (Ok health', w') ->
  health_sum health' = health_sum health + Z.of_nat (length active) /\
  h_healthy health <= h_healthy health' /\ h_warning health <= h_warning health' /\
  h_error health <= h_error health' /\ h_unknown health <= h_unknown health' /\
  streams_file w' = streams_file w /\ files w' = files w /\ procs w' = procs w.
Proof.
  induction active as [|stream rest IH]; intros health w health' w'.
  - cbn. intros [= <- <-]. repeat split; lia.
  - cbn [health_loop]. unfold bind at 1.
    destruct (getStreamLogs_effect (s_id stream) (Int 10) w) as (evs & ->).
    unfold bind at 1. unfold of_result at 1.
    destruct (some_type get_type "error" _) as [hasErrors|e]; [|discriminate].
    unfold ret at 1. unfold bind at 1. unfold of_result at 1.
    destruct (some_type get_type "warning" _) as [hasWarnings|e]; [|discriminate].
    unfold ret at 1. intros Hrun. apply IH in Hrun.
    cbn [streams_file files procs] in Hrun.
    destruct Hrun as (Hsum & H1 & H2 & H3 & H4 & Hs & Hf & Hp).
    revert Hsum H1 H2 H3 H4. unfold health_sum. cbn [length].
    destruct hasErrors; [|destruct hasWarnings; [|destruct (0 <? _)%nat]];
      cbn [h_healthy h_warning h_error h_unknown]; intros; repeat split; auto; lia.
Qed.

End StreamStats.

(** X12. The counts of [getStreamStats] agree: whenever it returns, the
    total is the number of stored streams, the active count the number of
    streams marked active, total is active plus inactive, and the four
    health counts are non-negative and add up to the active count; the
    store, the files and the processes are as before. *)
Theorem getStreamStats_counts_agree `{R : Runtime}
    (get_type : JSValue -> Result (option string)) (w w' : World) (stats : StreamStats) :
  getStreamStats get_type w = (Ok stats, w') ->
  st_total stats = Z.of_nat (length (stored w)) /\
  st_active stats = Z.of_nat (length (List.filter s_active (stored w))) /\
  st_total stats = st_active stats + st_inactive stats /\
  0 <= st_inactive stats /\
  health_sum (st_health stats) = st_active stats /\
  0 <= h_healthy (st_health stats) /\ 0 <= h_warning (st_health stats) /\
  0 <= h_error (st_health stats) /\ 0 <= h_unknown (st_health stats) /\
  streams_file w' = streams_file w /\ files w' = files w /\ procs w' = procs w.
Proof.
  unfold getStreamStats. unfold bind at 1.
  destruct (getAllStreams_stored w) as (evs & ->). unfold bind at 1.
  destruct (health_loop get_type _ _ _) as [[health|e] w1] eqn:Hloop; [|discriminate].
  unfold ret. intros [= <- <-].
  apply health_loop_sum in Hloop. cbn [streams_file files procs] in Hloop.
  destruct Hloop as (Hsum & H1 & H2 & H3 & H4 & Hs & Hf & Hp).
  cbn [st_total st_active st_inactive st_health h_healthy h_warning h_error h_unknown] in *.
  pose proof (List.filter_length_le s_active (stored w)).
  unfold health_sum in *. cbn in Hsum. repeat split; auto; lia.
Qed.

Lemma getStreamStats_counts_agree_witness :
  exists stats w',
    getStreamStats (R := Sim.posix) Cases.get_type Cases.pair = (Ok stats, w') /\
    st_total stats = 2 /\ st_active stats = 1 /\
    st_total stats = st_active stats + st_inactive stats /\
    health_sum (st_health stats) = st_active stats.
Proof.
  exists (mkStats 2 1 1 (mkHealth 1 0 0 0)),
         (snd (getStreamStats (R := Sim.posix) Cases.get_type Cases.pair)).
  assert (Hrun : getStreamStats (R := Sim.posix) Cases.get_type Cases.pair =
                 (Ok (mkStats 2 1 1 (mkHealth 1 0 0 0)),
                  snd (getStreamStats (R := Sim.posix) Cases.get_type Cases.pair)))
    by (vm_compute; reflexivity).
  split; [exact Hrun|].
  destruct (getStreamStats_counts_agree (R := Sim.posix) Cases.get_type _ _ _ Hrun)
    as (H1 & H2 & H3 & _ & H4 & _).
  split; [exact H1|]. split; [exact H2|]. split; [exact H3 | exact H4].
Defined.

(** ** Category statistics *)

Section Sorting.

Lemma insert_by_total_perm x l : Permutation (insert_by_total x l) (x :: l).
Proof.
  induction l as [|y r IH]; cbn; [reflexivity|].
  destruct (c_total x <? c_total y); [|reflexivity].
  rewrite IH. apply perm_swap.
Qed.

Lemma insert_by_total_sorted x l :
  StronglySorted by_total l -> StronglySorted by_total (insert_by_total x l).
Proof.
  induction l as [|y r IH]; cbn; intros Hs.
  - repeat constructor.
  - apply StronglySorted_inv in Hs as [Hr Hy].
    destruct (Z.ltb_spec (c_total x) (c_total y)) as [Hlt|Hge].
    + constructor; [now apply IH|].
      eapply Permutation_Forall; [symmetry; apply insert_by_total_perm|].
      constructor; [unfold by_total; lia | exact Hy].
    + constructor; [constructor; assumption|].
      constructor; [unfold by_total; lia|].
      eapply List.Forall_impl; [|exact Hy]. unfold by_total. intros a Ha. cbn in Ha. lia.
Qed.

Lemma sort_by_total_perm l : Permutation (sort_by_total l) l.
Proof.
  induction l as [|x l IH]; [reflexivity|].
  cbn. rewrite insert_by_total_perm. now constructor.
Qed.

Lemma sort_by_total_sorted l : StronglySorted by_total (sort_by_total l).
Proof.
  induction l as [|x l IH]; [constructor|]. cbn. now apply insert_by_total_sorted.
Qed.

Lemma insert_by_index_perm (x : N * CategoryStats) l :
  Permutation (insert_by_index x l) (x :: l).
Proof.
  induction l as [|y r IH]; cbn; [reflexivity|].
  destruct (fst y <=? fst x)%N; [|reflexivity].
  rewrite IH. apply perm_swap.
Qed.

Lemma filter_split {A} (p : A -> bool) (l : list A) :
  Permutation (List.filter p l ++ List.filter (fun x => negb (p x)) l) l.
Proof.
  induction l as [|x l IH]; [reflexivity|].
  cbn. destruct (p x); cbn.
  - now constructor.
  - rewrite <- Permutation_middle. now constructor.
Qed.

Lemma Object_values_perm (array_index : string -> option N) cats :
  Permutation (Object_values array_index cats) cats.
Proof.
  unfold Object_values.
  set (f := fun c : CategoryStats => (fun n => (n, c)) <$> array_index (c_name c)).
  assert (H1 : Permutation (map snd (foldr insert_by_index [] (omap f cats)))
                           (List.filter (fun c => bool_decide (is_Some (array_index (c_name c))))
                                        cats)).
  { transitivity (map snd (omap f cats)).
    - apply Permutation_map.
      induction (omap f cats) as [|x l IH]; [reflexivity|].
      cbn. rewrite insert_by_index_perm. now constructor.
    - apply Permutation_refl'. induction cats as [|c r IH]; [reflexivity|].
      cbn. unfold f at 1. destruct (array_index (c_name c)); cbn; now rewrite IH. }
  rewrite H1. apply filter_split.
Qed.

Lemma total_sum_perm l l' : Permutation l l' -> total_sum l = total_sum l'.
Proof. unfold total_sum, active_sum. induction 1; cbn in *; lia. Qed.

Lemma active_sum_perm l l' : Permutation l l' -> active_sum l = active_sum l'.
Proof. unfold total_sum, active_sum. induction 1; cbn in *; lia. Qed.

End Sorting.

Section Tally.

Lemma has_own_false cat cats :
  has_own cat cats = false <-> ~ In cat (map c_name cats).
Proof.
  unfold has_own. induction cats as [|c r IH]; cbn; [tauto|].
  rewrite orb_false_iff, IH.
  destruct (String.eqb_spec (c_name c) cat); intuition congruence.
Qed.

Lemma has_own_true cat cats :
  has_own cat cats = true <-> In cat (map c_name cats).
Proof.
  destruct (has_own cat cats) eqn:E.
  - split; [|reflexivity]. intros _.
    destruct (in_dec string_dec cat (map c_name cats)) as [H|H]; [exact H|].
    apply has_own_false in H. congruence.
  - apply has_own_false in E. split; [discriminate | tauto].
Qed.

Lemma count_in_names cat a cats : map c_name (count_in cat a cats) = map c_name cats.
Proof.
  induction cats as [|c r IH]; cbn; [reflexivity|].
  destruct (String.eqb (c_name c) cat); cbn; congruence.
Qed.

Lemma count_in_fresh cat a cats l :
  has_own cat cats = false -> count_in cat a (cats ++ l) = cats ++ count_in cat a l.
Proof.
  unfold has_own. induction cats as [|c r IH]; cbn; [reflexivity|].
  intros [E1 E2]%orb_false_iff. rewrite E1. now rewrite IH.
Qed.

Lemma count_in_absent cat a cats : has_own cat cats = false -> count_in cat a cats = cats.
Proof.
  intros H. rewrite <- (app_nil_r cats) at 1. rewrite (count_in_fresh _ _ _ _ H).
  cbn. apply app_nil_r.
Qed.

Lemma count_in_Forall (Q Q' : CategoryStats -> Prop) cat (a : bool) cats :
  List.NoDup (map c_name cats) ->
  (forall c, c_name c <> cat -> Q c -> Q' c) ->
  (forall c, c_name c = cat -> Q c ->
             Q' (mkCategory (c_name c) (c_total c + 1)
                            (if a then c_active c + 1 else c_active c))) ->
  Forall Q cats -> Forall Q' (count_in cat a cats).
Proof.
  intros Hnd Hother Hsame. induction cats as [|c r IH]; cbn; intros HQ; [constructor|].
  apply List.Forall_cons_iff in HQ as [Hc Hr]. cbn in Hnd.
  apply List.NoDup_cons_iff in Hnd as [Hnotin Hnd].
  destruct (String.eqb_spec (c_name c) cat) as [E|E].
  - constructor; [now apply Hsame|].
    apply List.Forall_forall. intros c' Hin.
    apply Hother; [|eapply List.Forall_forall in Hr; eauto].
    intros E'. apply Hnotin. rewrite E, <- E'. now apply in_map.
  - constructor; [now apply Hother | now apply IH].
Qed.

Lemma streams_in_snoc name p s :
  streams_in name (p ++ [s]) =
  streams_in name p + (if String.eqb (category_of s) name then 1 else 0).
Proof.
  unfold streams_in. rewrite List.filter_app, length_app. cbn.
  destruct (String.eqb (category_of s) name); cbn; lia.
Qed.

Lemma active_in_snoc name p s :
  active_in name (p ++ [s]) =
  active_in name p + (if String.eqb (category_of s) name && s_active s then 1 else 0).
Proof.
  unfold active_in. rewrite List.filter_app, length_app. cbn.
  destruct (String.eqb (category_of s) name && s_active s); cbn; lia.
Qed.

Lemma streams_in_none name p :
  (forall s, In s p -> category_of s <> name) -> streams_in name p = 0 /\ active_in name p = 0.
Proof.
  unfold streams_in, active_in. induction p as [|s p IH]; cbn; intros H; [split; reflexivity|].
  destruct (String.eqb_spec (category_of s) name) as [E|E].
  - exfalso. apply (H s); auto.
  - cbn. apply IH. intros s' Hs'. apply H. now right.
Qed.

End Tally.

Section Counting.
Variable inherited : string -> bool.

Lemma count_stream_tallied seen cats s :
  tallied inherited seen cats -> tallied inherited (seen ++ [s]) (count_stream inherited cats s).
Proof.
  unfold tallied. intros (Hnd & Hall & Hcov). unfold count_stream. fold (category_of s).
  set (cat := category_of s).
  assert (Hstep : forall c, c_name c <> cat ->
            streams_in (c_name c) (seen ++ [s]) = streams_in (c_name c) seen /\
            active_in (c_name c) (seen ++ [s]) = active_in (c_name c) seen).
  { intros c Hc. rewrite streams_in_snoc, active_in_snoc. fold cat.
    destruct (String.eqb_spec cat (c_name c)); [congruence|]. cbn. lia. }
  assert (Hinc : forall c, c_name c = cat ->
            streams_in (c_name c) (seen ++ [s]) = streams_in (c_name c) seen + 1 /\
            active_in (c_name c) (seen ++ [s]) =
              active_in (c_name c) seen + (if s_active s then 1 else 0)).
  { intros c Hc. rewrite streams_in_snoc, active_in_snoc. fold cat.
    rewrite Hc, String.eqb_refl. cbn. split; reflexivity. }
  assert (Hold : Forall (fun c => inherited (c_name c) = false /\ 1 <= c_total c /\
                   c_total c = streams_in (c_name c) (seen ++ [s]) /\
                   c_active c = active_in (c_name c) (seen ++ [s]))
                 (count_in cat (s_active s) cats)
                 \/ has_own cat cats = false).
  { destruct (has_own cat cats) eqn:Eown; [left | now right].
    eapply count_in_Forall; [exact Hnd| | |exact Hall].
    - intros c Hc (H1 & H2 & H3 & H4). destruct (Hstep c Hc) as [-> ->]. auto.
    - intros c Hc (H1 & H2 & H3 & H4). destruct (Hinc c Hc) as [E1 E2]. cbn.
      rewrite E1, E2. split; [exact H1|]. split; [lia|]. split; [lia|].
      destruct (s_active s); lia. }
  assert (Hkeep : has_own cat cats = false ->
            Forall (fun c => inherited (c_name c) = false /\ 1 <= c_total c /\
                   c_total c = streams_in (c_name c) (seen ++ [s]) /\
                   c_active c = active_in (c_name c) (seen ++ [s])) cats).
  { intros Eown. apply has_own_false in Eown.
    apply List.Forall_forall. intros c Hin.
    eapply List.Forall_forall in Hall as (H1 & H2 & H3 & H4); [|exact Hin].
    destruct (Hstep c) as [-> ->]; auto.
    intros E. apply Eown. rewrite <- E. now apply in_map. }
  destruct (has_own cat cats) eqn:Eown; cbn [orb].
  - destruct Hold as [Hold|]; [|discriminate].
    split; [now rewrite count_in_names|]. split; [exact Hold|].
    intros s' [Hs'|[<-|[]]]%in_app_iff Hi; rewrite count_in_names.
    + now apply Hcov.
    + now apply has_own_true.
  - destruct (inherited cat) eqn:Einh.
    + rewrite (count_in_absent _ _ _ Eown).
      split; [exact Hnd|]. split; [now apply Hkeep|].
      intros s' [Hs'|[<-|[]]]%in_app_iff Hi; [now apply Hcov|].
      fold cat in Hi. congruence.
    + rewrite (count_in_fresh _ _ _ _ Eown). cbn. rewrite String.eqb_refl.
      pose proof (proj1 (has_own_false _ _) Eown) as Hnew.
      split; [|split].
      * rewrite map_app. cbn. apply List.NoDup_app; [exact Hnd | repeat constructor; intros [] |].
        intros x Hx [<-|[]]. now apply Hnew.
      * apply Forall_app. split; [now apply Hkeep|].
        constructor; [|constructor]. cbn.
        destruct (streams_in_none cat seen) as [Z1 Z2].
        { intros s' Hs' E. apply Hnew. rewrite <- E. apply Hcov; [exact Hs'|].
          now rewrite E. }
        rewrite streams_in_snoc, active_in_snoc. fold cat.
        rewrite Z1, Z2, String.eqb_refl. cbn.
        split; [exact Einh|]. split; [lia|]. split; [lia|].
        destruct (s_active s); reflexivity.
      * intros s' [Hs'|[<-|[]]]%in_app_iff Hi; rewrite map_app; apply in_app_iff.
        -- left. now apply Hcov.
        -- right. now left.
Qed.

Lemma foldl_count_stream_tallied rest : forall seen cats,
  tallied inherited seen cats ->
  tallied inherited (seen ++ rest) (foldl (count_stream inherited) cats rest).
Proof.
  induction rest as [|s rest IH]; intros seen cats H; cbn.
  - now rewrite app_nil_r.
  - replace (seen ++ s :: rest) with ((seen ++ [s]) ++ rest) by now rewrite <- app_assoc.
    apply IH. now apply count_stream_tallied.
Qed.

Lemma getCategoryStats_tally (streams : list IPTVStream) :
  tallied inherited streams (foldl (count_stream inherited) [] streams).
Proof.
  apply (foldl_count_stream_tallied streams [] []).
  split; [constructor|]. split; [constructor|]. intros s [].
Qed.

End Counting.

Section Sums.
Variable inherited : string -> bool.

Lemma total_sum_app l l' : total_sum (l ++ l') = total_sum l + total_sum l'.
Proof. unfold total_sum. induction l as [|c l IH]; cbn; [reflexivity | rewrite IH; lia]. Qed.

Lemma active_sum_app l l' : active_sum (l ++ l') = active_sum l + active_sum l'.
Proof. unfold active_sum. induction l as [|c l IH]; cbn; [reflexivity | rewrite IH; lia]. Qed.

Lemma sums_count_in cat (a : bool) cats :
  has_own cat cats = true ->
  total_sum (count_in cat a cats) = total_sum cats + 1 /\
  active_sum (count_in cat a cats) = active_sum cats + (if a then 1 else 0).
Proof.
  unfold has_own, total_sum, active_sum. induction cats as [|c r IH]; cbn; [discriminate|].
  destruct (String.eqb (c_name c) cat); cbn.
  - intros _. destruct a; lia.
  - intros H. destruct (IH H). lia.
Qed.

Lemma sums_count_stream seen cats s :
  tallied inherited seen cats ->
  total_sum (count_stream inherited cats s) =
    total_sum cats + (if inherited (category_of s) then 0 else 1) /\
  active_sum (count_stream inherited cats s) =
    active_sum cats + (if negb (inherited (category_of s)) && s_active s then 1 else 0).
Proof.
  intros (Hnd & Hall & Hcov). unfold count_stream. fold (category_of s).
  set (cat := category_of s).
  destruct (has_own cat cats) eqn:Eown; cbn [orb].
  - assert (Einh : inherited cat = false).
    { apply has_own_true, in_map_iff in Eown as (c & Ec & Hin).
      eapply List.Forall_forall in Hall; [|exact Hin]. cbn in Hall.
      rewrite <- Ec. apply Hall. }
    rewrite Einh. cbn. now apply sums_count_in.
  - destruct (inherited cat) eqn:Einh; cbn.
    + rewrite (count_in_absent _ _ _ Eown). lia.
    + rewrite (count_in_fresh _ _ _ _ Eown). cbn. rewrite String.eqb_refl.
      rewrite total_sum_app, active_sum_app. unfold total_sum, active_sum. cbn.
      destruct (s_active s); lia.
Qed.

Lemma sums_foldl rest : forall seen cats,
  tallied inherited seen cats ->
  total_sum (foldl (count_stream inherited) cats rest) =
    total_sum cats +
    Z.of_nat (length (List.filter (fun s => negb (inherited (category_of s))) rest)) /\
  active_sum (foldl (count_stream inherited) cats rest) =
    active_sum cats +
    Z.of_nat (length (List.filter (fun s => negb (inherited (category_of s)) && s_active s)
                                  rest)).
Proof.
  induction rest as [|s rest IH]; intros seen cats H; cbn [foldl List.filter].
  - cbn. lia.
  - destruct (IH _ _ (count_stream_tallied inherited seen cats s H)) as [-> ->].
    destruct (sums_count_stream seen cats s H) as [-> ->].
    destruct (inherited (category_of s)), (s_active s); cbn [negb andb length]; lia.
Qed.

Lemma tallied_perm seen cats cats' :
  Permutation cats cats' -> tallied inherited seen cats -> tallied inherited seen cats'.
Proof.
  intros Hp (Hnd & Hall & Hcov). split; [|split].
  - eapply Permutation_NoDup; [|exact Hnd]. now apply Permutation_map.
  - eapply Permutation_Forall; eassumption.
  - intros s Hs Hi. eapply Permutation_in; [apply Permutation_map, Hp|]. now apply Hcov.
Qed.

Lemma getCategoryStats_run (array_index : string -> option N) w :
  exists cats (evs : list Event),
    getCategoryStats inherited array_index w =
      (Ok cats, mkWorld (streams_file w) (files w) (procs w) (clock w) (trace w ++ evs)) /\
    StronglySorted by_total cats /\
    tallied inherited (stored w) cats.
Proof.
  destruct (getAllStreams_stored w) as [evs Hrun].
  unfold getCategoryStats, bind, ret. rewrite Hrun. cbn.
  eexists _, evs. split; [reflexivity|]. split; [apply sort_by_total_sorted|].
  eapply tallied_perm; [|apply getCategoryStats_tally].
  symmetry. rewrite sort_by_total_perm. apply Object_values_perm.
Qed.

End Sums.

(** X13. [getCategoryStats] always returns, and its answer is sorted by
    falling total and is an exact tally of the stored streams: the names
    are pairwise different, no name is a property which every object
    inherits, every entry counts at least one stream, its [total] is the
    number of stored streams of that category and its [active] the number
    of active ones among them, and every stored stream whose category is
    no inherited property has an entry.  (A missing or empty [category1]
    counts as ["Uncategorized"].) *)
Theorem getCategoryStats_tallies_each_category
    (inherited : string -> bool) (array_index : string -> option N) (w : World) :
  exists cats w',
    getCategoryStats inherited array_index w = (Ok cats, w') /\
    StronglySorted by_total cats /\
    tallied inherited (stored w) cats.
Proof.
  destruct (getCategoryStats_run inherited array_index w) as (cats & evs & Hrun & Hsorted & Ht).
  eexists _, _. split; [exact Hrun|]. split; assumption.
Qed.

(** X14. The totals of the categories returned by [getCategoryStats] add
    up to the number of stored streams whose category is no inherited
    property, and their active counts to the number of active ones among
    them: a stream whose category is, say, the name of a method of every
    object is counted nowhere. *)
Theorem getCategoryStats_sums
    (inherited : string -> bool) (array_index : string -> option N) (w : World) :
  exists cats w',
    getCategoryStats inherited array_index w = (Ok cats, w') /\
    total_sum cats =
      Z.of_nat (length (List.filter (fun s => negb (inherited (category_of s))) (stored w))) /\
    active_sum cats =
      Z.of_nat (length (List.filter
                          (fun s => negb (inherited (category_of s)) && s_active s)
                          (stored w))).
Proof.
  destruct (getAllStreams_stored w) as [evs Hrun].
  unfold getCategoryStats, bind, ret. rewrite Hrun. cbn.
  eexists _, _. split; [reflexivity|].
  set (cats := foldl (count_stream inherited) [] (stored w)).
  assert (Hp : Permutation (sort_by_total (Object_values array_index cats)) cats).
  { rewrite sort_by_total_perm. apply Object_values_perm. }
  rewrite (total_sum_perm _ _ Hp), (active_sum_perm _ _ Hp). subst cats.
  destruct (sums_foldl inherited (stored w) [] []) as [-> ->].
  - split; [constructor|]. split; [constructor|]. intros s [].
  - unfold total_sum, active_sum. cbn. split; reflexivity.
Qed.

(** ** The dashboard *)

Section Dashboard.
Context {R : Runtime}.
Variable get_type : JSValue -> Result (option string).

Lemma unix_stats_frame isMac w :
  exists v w',
    unix_stats isMac (initial_vars, w) = (Ok tt, (v, w')) /\
    streams_file w' = streams_file w /\ files w' = files w.
Proof.
  unfold unix_stats. destruct isMac.
  - crunch; run; cbn [fst snd]; eexists _, _; (split; [reflexivity|]); split; reflexivity.
  - crunch; run; cbn [fst snd]; eexists _, _; (split; [reflexivity|]); split; reflexivity.
Qed.

Lemma windows_stats_frame w :
  exists v w',
    windows_stats (initial_vars, w) = (Ok tt, (v, w')) /\
    streams_file w' = streams_file w /\ files w' = files w.
Proof.
  unfold windows_stats.
  crunch; run; cbn [fst snd]; eexists _, _; (split; [reflexivity|]); split; reflexivity.
Qed.

Lemma getSystemStats_frame w :
  exists v w',
    getSystemStats w = (Ok v, w') /\
    streams_file w' = streams_file w /\ files w' = files w.
Proof.
  assert (H : exists v w',
             match platform with
             | Win32 => windows_stats
             | Darwin => unix_stats true
             | Linux => unix_stats false
             | OtherOS => fallback_stats
             end (initial_vars, w) = (Ok tt, (v, w')) /\
             streams_file w' = streams_file w /\ files w' = files w).
  { destruct platform;
      [apply windows_stats_frame | apply unix_stats_frame | apply unix_stats_frame|].
    unfold fallback_stats. run. cbn [fst snd]. eexists _, _.
    split; [reflexivity|]. split; reflexivity. }
  destruct H as (v & w' & Hrun & Hs & Hf).
  unfold getSystemStats, try_catch, bind, with_locals. rewrite Hrun. run.
  exists (report v), w'. split; [reflexivity|]. split; assumption.
Qed.

Lemma some_type_throw t logs e :
  some_type get_type t logs = Throw e -> exists v, In v logs /\ get_type v = Throw e.
Proof.
  induction logs as [|log rest IH]; cbn; [discriminate|].
  destruct (get_type log) as [ty|e'] eqn:E.
  - destruct (bool_decide _); [discriminate|].
    intros H. destruct (IH H) as (v & Hin & Hv). exists v. auto.
  - intros [= <-]. exists log. auto.
Qed.

Lemma up_to_In {A} limit (l : list A) v : In v (up_to limit (reverse l)) -> In v l.
Proof.
  intros H. apply list_elem_of_In. apply list_elem_of_In in H.
  destruct limit as [|N]; unfold up_to in H; [inversion H|].
  apply subseteq_take in H. now rewrite elem_of_reverse in H.
Qed.

(** the loop of [getStreamStats] either completes or stops at a record of
    an active stream whose [type] cannot be read *)
Lemma health_loop_outcome active : forall health w,
  exists r w',
    health_loop get_type active health w = (r, w') /\
    streams_file w' = streams_file w /\ files w' = files w /\
    match r with
    | Ok _ => True
    | Throw e =>
        exists s v, In s active /\ In v (log_records (s_id s) w) /\ get_type v = Throw e
    end.
Proof.
  induction active as [|stream rest IH]; intros health w.
  - exists (Ok health), w. repeat split; reflexivity.
  - cbn [health_loop]. unfold bind at 1.
    destruct (getStreamLogs_effect (s_id stream) (Int 10) w) as (evs & ->).
    set (w1 := mkWorld _ _ _ _ _).
    set (logs := up_to _ _).
    unfold bind at 1. unfold of_result at 1.
    destruct (some_type get_type "error" logs) as [hasErrors|e] eqn:E1.
    + unfold ret at 1. unfold bind at 1. unfold of_result at 1.
      destruct (some_type get_type "warning" logs) as [hasWarnings|e] eqn:E2.
      * unfold ret at 1.
        match goal with |- context [health_loop get_type rest ?h w1] =>
          destruct (IH h w1) as (r & w' & Hrun & Hs & Hf & Hcase) end.
        exists r, w'. split; [exact Hrun|]. split; [exact Hs|]. split; [exact Hf|].
        destruct r as [h|e]; [exact I|].
        destruct Hcase as (s & v & Hin & Hv & Ht).
        exists s, v. split; [now right|]. split; [exact Hv | exact Ht].
      * exists (Throw e), w1. split; [reflexivity|]. split; [reflexivity|].
        split; [reflexivity|].
        apply some_type_throw in E2 as (v & Hin & Hv).
        exists stream, v. split; [now left|].
        split; [eapply up_to_In; exact Hin | exact Hv].
    + exists (Throw e), w1. split; [reflexivity|]. split; [reflexivity|].
      split; [reflexivity|].
      apply some_type_throw in E1 as (v & Hin & Hv).
      exists stream, v. split; [now left|].
      split; [eapply up_to_In; exact Hin | exact Hv].
Qed.

Lemma getStreamStats_outcome w :
  exists r w',
    getStreamStats get_type w = (r, w') /\
    streams_file w' = streams_file w /\ files w' = files w /\
    match r with
    | Ok stats =>
        st_total stats = Z.of_nat (length (stored w)) /\
        st_active stats = Z.of_nat (length (List.filter s_active (stored w)))
    | Throw e =>
        exists s v,
          In s (stored w) /\ s_active s = true /\
          In v (log_records (s_id s) w) /\ get_type v = Throw e
    end.
Proof.
  unfold getStreamStats. unfold bind at 1.
  destruct (getAllStreams_stored w) as (evs & ->).
  set (w1 := mkWorld _ _ _ _ _).
  destruct (health_loop_outcome (List.filter s_active (stored w)) (mkHealth 0 0 0 0) w1)
    as (r & w' & Hrun & Hs & Hf & Hcase).
  unfold bind. rewrite Hrun. destruct r as [health|e].
  - eexists _, _. split; [reflexivity|]. split; [exact Hs|]. split; [exact Hf|].
    split; reflexivity.
  - eexists _, _. split; [reflexivity|]. split; [exact Hs|]. split; [exact Hf|].
    destruct Hcase as (s & v & Hin & Hv & Ht).
    apply filter_In in Hin as [Hin Ha]. exists s, v. auto.
Qed.

End Dashboard.

(** X15. [GET /api/streams] always answers.  Its JSON answer carries the
    stored streams, a total and an active count that match them, and an
    exact tally of their categories.  It answers 500 only when a record in
    the log of an active stream has no readable [type] (the record is
    [null]); the failure of an operating-system probe never causes it. *)
Theorem GET_streams_answer `{R : Runtime}
    (get_type : JSValue -> Result (option string))
    (inherited : string -> bool) (array_index : string -> option N) (w : World) :
  exists resp w',
    GET_streams get_type inherited array_index w = (Ok resp, w') /\
    streams_file w' = streams_file w /\ files w' = files w /\
    match resp with
    | DashboardJson streams stats systemStats categories =>
        streams = stored w /\
        st_total stats = Z.of_nat (length streams) /\
        st_active stats = Z.of_nat (length (List.filter s_active streams)) /\
        tallied inherited streams categories
    | DashboardError err status =>
        err = "Internal Server Error" /\ status = 500 /\
        exists e s v,
          In s (stored w) /\ s_active s = true /\
          In v (log_records (s_id s) w) /\ get_type v = Throw e
    end.
Proof.
  unfold GET_streams, try_catch. unfold bind at 1.
  destruct (getAllStreams_stored w) as (evs & ->).
  set (w1 := mkWorld _ _ _ _ _).
  destruct (getStreamStats_outcome get_type w1) as (r & w2 & Hrun & Hs2 & Hf2 & Hcase).
  unfold bind at 1. rewrite Hrun. destruct r as [stats|e].
  - destruct (getSystemStats_frame w2) as (sys & w3 & Hsys & Hs3 & Hf3).
    unfold bind at 1. rewrite Hsys.
    destruct (getCategoryStats_run inherited array_index w3)
      as (cats & evs4 & Hcat & _ & Htally).
    unfold bind at 1. rewrite Hcat. unfold ret.
    assert (Hst : stored w3 = stored w).
    { unfold stored. now rewrite Hs3, Hs2. }
    rewrite Hst in Htally. destruct Hcase as [Ht Ha].
    eexists _, _. split; [reflexivity|]. cbn [streams_file files].
    split; [now rewrite Hs3, Hs2|]. split; [now rewrite Hf3, Hf2|].
    split; [reflexivity|]. split; [exact Ht|]. split; [exact Ha | exact Htally].
  - run. eexists _, _. split; [reflexivity|].
    split; [exact Hs2|]. split; [exact Hf2|].
    split; [reflexivity|]. split; [reflexivity|].
    destruct Hcase as (s & v & Hin & Ha & Hv & Ht). exists e, s, v. auto.
Qed.

(** ** The process route *)

(** X16. [GET /api/streams/[id]/process] always answers and never with
    500: 404 when no stored stream has the id, and otherwise the stream's
    id, name and flag with a sample.  For a stream that is not marked active
    the sample is [running: false] and nothing at all happens; for an
    active one a failed shell command makes the sample [running: false]. *)
Theorem GET_process_answer `{R : Runtime} (id : string) (w : World) :
  exists resp w',
    GET_process id w = (Ok resp, w') /\
    match snd <$> find_stream id (stored w) with
    | None => resp = ProcessError "Stream not found" 404
    | Some s =>
        exists info,
          resp = ProcessJson id (s_name s) (s_active s) info /\
          (s_active s = false -> info = not_running /\ w' = w) /\
          ((exists c, In (EvExec c false) (events_since w w')) -> info = not_running)
    end.
Proof.
  destruct (streams_file w) as [l|] eqn:Hl.
  - unfold stored. rewrite Hl. change (default [] (Some l)) with l.
    unfold GET_process, try_catch. unfold bind at 1.
    rewrite (getStreamById_readable id w l Hl).
    destruct (find_stream id l) as [[i s]|] eqn:Hf; cbn [fmap option_fmap option_map snd].
    + destruct (degrades_getStreamProcessInfo id w) as (v & evs & Hv & Ht & Hfail).
      assert (Hquiet : s_active s = false -> getStreamProcessInfo id w = (Ok not_running, w)).
      { intros Ha. unfold getStreamProcessInfo. unfold bind at 1.
        rewrite (getStreamById_readable id w l Hl), Hf.
        cbn [fmap option_fmap option_map snd]. now rewrite Ha. }
      unfold bind. destruct (getStreamProcessInfo id w) as [[v'|e] w1] eqn:Hrun;
        cbn [fst snd] in Hv, Ht; [|discriminate].
      injection Hv as ->. unfold ret.
      eexists _, _. split; [reflexivity|]. exists v.
      rewrite (find_stream_id _ _ _ _ Hf).
      split; [reflexivity|]. split.
      * intros Ha. specialize (Hquiet Ha). injection Hquiet as -> ->. auto.
      * rewrite (events_since_app w w1 evs Ht). exact Hfail.
    + unfold ret. eexists _, _. split; reflexivity.
  - unfold stored. rewrite Hl. cbn.
    unfold GET_process, getStreamById, getAllStreams. run. rewrite Hl. run.
    eexists _, _. split; reflexivity.
Qed.

(** ** The toast list *)

Section ToastList.
Context {ReactNode : Type}.
Implicit Types (prev : list (ToasterToast ReactNode)) (toast : ToastProps ReactNode).

Lemma NoDup_take {A} n (l : list A) : List.NoDup l -> List.NoDup (take n l).
Proof.
  intros H. apply NoDup_ListNoDup. apply NoDup_ListNoDup in H.
  eapply sublist_NoDup; [exact H | apply sublist_take].
Qed.

Lemma ids_filter (p : ToasterToast ReactNode -> bool) prev :
  List.NoDup (map t_id prev) -> List.NoDup (map t_id (List.filter p prev)).
Proof.
  induction prev as [|t r IH]; cbn; [auto|].
  intros [Hn Hr]%List.NoDup_cons_iff. destruct (p t); cbn; [|auto].
  constructor; [|auto]. intros Hin. apply Hn.
  apply in_map_iff in Hin as (x & Hx & Hin). apply filter_In in Hin as [Hin _].
  rewrite <- Hx. now apply in_map.
Qed.

Lemma removeToast_ids id prev t : In t (removeToast id prev) <-> In t prev /\ t_id t <> id.
Proof.
  unfold removeToast. rewrite filter_In.
  destruct (String.eqb_spec (t_id t) id); cbn; intuition congruence.
Qed.

End ToastList.



(** X18. [dismissToast] closes the toasts with the id and changes nothing
    else: the ids, the order and the other toasts stay; the removal that
    follows after the delay leaves no toast with the id and every other
    toast as it was before the dismissal. *)
Theorem dismissToast_then_removeToast {ReactNode : Type}
    (id : string) (prev : list (ToasterToast ReactNode)) :
  map t_id (dismissToast id prev) = map t_id prev /\
  (forall t, In t (dismissToast id prev) -> t_id t = id -> t_open t = false) /\
  (forall t, In t prev -> t_id t <> id -> In t (dismissToast id prev)) /\
  removeToast id (dismissToast id prev) = removeToast id prev /\
  (forall t, In t (removeToast id prev) -> t_id t <> id).
Proof.
  unfold dismissToast. split; [|split; [|split; [|split]]].
  - induction prev as [|t r IH]; cbn; [reflexivity|].
    rewrite IH. now destruct (String.eqb (t_id t) id).
  - intros t (x & Hx & Hin)%in_map_iff.
    destruct (String.eqb_spec (t_id x) id) as [E|E]; subst t; cbn; [reflexivity | congruence].
  - intros t Hin Hne. apply in_map_iff. exists t. split; [|exact Hin].
    destruct (String.eqb_spec (t_id t) id); congruence.
  - unfold removeToast. induction prev as [|t r IH]; cbn; [reflexivity|].
    destruct (String.eqb (t_id t) id) eqn:E; cbn; rewrite E; cbn; now rewrite IH.
  - intros t Hin. now apply removeToast_ids in Hin.
Qed.

(** ** System statistics without a shell *)

Section Fallback.
Context {R : Runtime}.

Lemma formatUptime_not_empty seconds : truthy (formatUptime seconds) = true.
Proof.
  unfold formatUptime. cbv zeta.
  match goal with |- context [if truthy ?j then _ else _] => destruct (truthy j) eqn:E end;
    [exact E | reflexivity].
Qed.

End Fallback.

(** X19. On a platform that is neither Windows, macOS nor Linux
    [getSystemStats] runs no shell command and leaves the world as it is:
    the load average and the memory come from the [os] module, the disk
    figures are all zero, and the uptime is a text that is never empty. *)
Theorem getSystemStats_without_shell `{R : Runtime} (w : World) :
  platform = OtherOS ->
  exists stats,
    getSystemStats w = (Ok stats, w) /\
    cpu stats = toFixed os_loadavg0 1 +:+ " %" /\
    total (memory stats) = Math_round (num_div os_totalmem MB) /\
    free (memory stats) = Math_round (num_div os_freemem MB) /\
    used (memory stats) =
      Math_round (num_sub (num_div os_totalmem MB) (num_div os_freemem MB)) /\
    disk stats = zero_usage /\
    uptime stats = formatUptime (Math_floor os_uptime) /\
    truthy (uptime stats) = true.
Proof.
  intros Hp. unfold getSystemStats. rewrite Hp. unfold fallback_stats. run.
  eexists. split; [reflexivity|].
  cbn [report cpu memory disk uptime total free used set_cpu set_mem set_uptime initial_vars
       v_cpu v_memTotal v_memUsed v_memFree v_diskTotal v_diskUsed v_diskFree v_uptimeString].
  split; [reflexivity|]. split; [reflexivity|]. split; [reflexivity|]. split; [reflexivity|].
  split; [|split; [reflexivity | apply formatUptime_not_empty]].
  unfold zero_usage. rewrite percent_of_zero. unfold lit. now rewrite round_zero.
Qed.

Lemma getSystemStats_without_shell_witness :
  exists stats,
    getSystemStats (R := Sim.runtime OtherOS Sim.exec_denied) Sim.idle = (Ok stats, Sim.idle) /\
    disk stats = zero_usage (R := Sim.runtime OtherOS Sim.exec_denied) /\
    truthy (uptime stats) = true.
Proof.
  destruct (getSystemStats_without_shell (R := Sim.runtime OtherOS Sim.exec_denied)
              Sim.idle eq_refl)
    as (stats & Hrun & _ & _ & _ & _ & Hd & _ & Hu).
  exists stats. split; [exact Hrun|]. split; [exact Hd | exact Hu].
Defined.
